(** * Learning analytics dashboard: a shallow embedding

    The repository is two Streamlit scripts, [Insights-Agent30.py]
    (sheet 1) and [Second_Sheet_Agent_2_6.py] (sheet 2), that build
    prompts, call a hosted agent, aggregate a table of course records
    with pandas, and send mail.  The hosted agent, the file system, the
    text-to-speech service, the PDF writer and the SMTP relay are
    external: each one is an oracle over an abstract world, and every
    call to one is written to a trace together with its outcome.
    A Python exception is represented by its message, [str(e)]. *)

From Stdlib Require Import ZArith List String Ascii Lia Bool Permutation Sorted.
From stdpp Require Import gmap strings.
Import ListNotations.
Open Scope string_scope.

(** ** Python values the scripts use *)

Module Py.

(** Outcome of a Python expression or statement: a value or a raised
    exception, the latter given by [str(e)]. *)
Inductive result (A : Type) : Type :=
| Ok (a : A)
| Raise (e : string).
Arguments Ok {A} a.
Arguments Raise {A} e.

(** The line feed, written [\n] in the source. *)
Definition nl : string := String (ascii_of_nat 10) EmptyString.

(** [needle in hay] on [str]. *)
Fixpoint contains (needle hay : string) : bool :=
  if String.prefix needle hay then true
  else match hay with
       | EmptyString => false
       | String _ rest => contains needle rest
       end.

(** [sep.join(parts)]. *)
Fixpoint join (sep : string) (parts : list string) : string :=
  match parts with
  | [] => ""
  | [p] => p
  | p :: rest => p ++ sep ++ join sep rest
  end.

(** [s.split(c)] for a separator of one character: the current field is
    accumulated in [cur]. *)
Fixpoint split_acc (c : ascii) (cur : string) (s : string) : list string :=
  match s with
  | EmptyString => [cur]
  | String a rest =>
      if Ascii.eqb a c then cur :: split_acc c "" rest
      else split_acc c (cur ++ String a EmptyString) rest
  end.

Definition split (c : ascii) (s : string) : list string := split_acc c "" s.

(** Lookup in an insertion-ordered [dict] with [str] keys. *)
Fixpoint dict_find {V} (d : list (string * V)) (k : string) : option V :=
  match d with
  | [] => None
  | (k', v) :: rest => if String.eqb k' k then Some v else dict_find rest k
  end.

(** [d[k]]: a missing key raises [KeyError], whose message is the
    [repr] of the key. *)
Definition dict_get {V} (repr : string -> string) (d : list (string * V))
    (k : string) : result V :=
  match dict_find d k with
  | Some v => Ok v
  | None => Raise (repr k)
  end.

(** [d[k] = v]: an existing key keeps its position, a new key goes last. *)
Fixpoint dict_set {V} (d : list (string * V)) (k : string) (v : V)
  : list (string * V) :=
  match d with
  | [] => [(k, v)]
  | (k', v') :: rest =>
      if String.eqb k' k then (k', v) :: rest else (k', v') :: dict_set rest k v
  end.

End Py.
Import Py.

(** ** Streamlit calls, session state and the trace *)

(** The widgets and messages the handlers emit. *)
Inductive st_call : Type :=
| st_info (body : string)
| st_warning (body : string)
| st_error (body : string)
| st_success (body : string)
| st_text_area (label value : string) (height : Z)
| st_download_button (label data file_name : string).

(** One entry of [st.session_state["report_data"]]: the inner dict with
    keys "insight", "chart_type" and, once a chart was drawn,
    "chart_path". *)
Record report_entry : Type := {
  insight : string;
  chart_type : string;
  chart_path : option string
}.

(** Values stored under the keys of [st.session_state]. *)
Inductive sval : Type :=
| VStr (s : string)
| VNone
| VReport (d : list (string * report_entry)).

(** A MIME part attached to a message. *)
Record attachment : Type := {
  subtype : string;
  disposition : string;
  payload : string
}.

(** The [MIMEMultipart] message handed to [sendmail]. *)
Record message : Type := {
  msg_from : option string;
  msg_to : string;
  msg_subject : string;
  msg_body : string;
  msg_parts : list attachment
}.

(** Steps of the SMTP session of the [with smtplib.SMTP(...)] block. *)
Inductive smtp_op : Type :=
| smtp_connect (host : option string) (port : Z)
| smtp_starttls
| smtp_login (user password : option string)
| smtp_sendmail (sender : option string) (rcpt : list string) (msg : message)
| smtp_quit.

(** What an execution leaves behind, in order. *)
Inductive event : Type :=
| UI (c : st_call)
| AgentRun (model prompt : string) (r : result string)
| Sleep (seconds : Z)
| Speech (text filename : string) (r : result unit)
| FileWrite (path data : string) (r : result unit)
| FileRead (path : string) (r : result string)
| PdfOutput (lines : list string) (filename : string) (r : result unit)
| Smtp (op : smtp_op) (r : result unit).

(** The external collaborators, as oracles over a world [W];
    [py_repr s] is [repr(s)], the text Python prints for the [str] [s]
    in error messages. *)
Record External (W : Type) : Type := {
  agent_run : string -> string -> W -> result string * W;
  gtts_save : string -> string -> W -> result unit * W;
  file_write : string -> string -> W -> result unit * W;
  file_read : string -> W -> result string * W;
  fpdf_output : list string -> string -> W -> result unit * W;
  smtp_step : smtp_op -> W -> result unit * W;
  today : W -> string;
  parse_int : string -> option Z;
  basename : string -> string;
  py_repr : string -> string
}.
Arguments agent_run {W}.
Arguments gtts_save {W}.
Arguments file_write {W}.
Arguments file_read {W}.
Arguments fpdf_output {W}.
Arguments smtp_step {W}.
Arguments today {W}.
Arguments parse_int {W}.
Arguments basename {W}.
Arguments py_repr {W}.

(** The state a handler runs in. *)
Record state (W : Type) : Type := {
  world : W;
  trace : list event;
  session_state : gmap string sval
}.
Arguments world {W}.
Arguments trace {W}.
Arguments session_state {W}.
Arguments Build_state {W}.

(** ** The handler monad: state passing with exceptions *)

Section Monad.
Context {W : Type}.

(** A statement: from a state to an outcome and the state it leaves.  A
    raised exception keeps every effect made before it. *)
Definition M (A : Type) : Type := state W -> result A * state W.

Definition ret {A} (a : A) : M A := fun s => (Ok a, s).

Definition raise {A} (e : string) : M A := fun s => (Raise e, s).

Definition bind {A B} (m : M A) (k : A -> M B) : M B :=
  fun s =>
    match m s with
    | (Ok a, s1) => k a s1
    | (Raise e, s1) => (Raise e, s1)
    end.

(** [try: body / except Exception as e: handler]. *)
Definition try_except {A} (body : M A) (handler : string -> M A) : M A :=
  fun s =>
    match body s with
    | (Ok a, s1) => (Ok a, s1)
    | (Raise e, s1) => handler e s1
    end.

(** Lifts the outcome of a pure Python expression. *)
Definition lift {A} (r : result A) : M A := fun s => (r, s).

Definition log (ev : event) : M unit :=
  fun s => (Ok tt, Build_state (world s) (trace s ++ [ev]) (session_state s)).

(** A Streamlit call: it renders and returns. *)
Definition st (c : st_call) : M unit := log (UI c).

(** [st.session_state[k] = v]. *)
Definition session_set (k : string) (v : sval) : M unit :=
  fun s => (Ok tt, Build_state (world s) (trace s) (<[k := v]> (session_state s))).

(** [time.sleep(n)]. *)
Definition sleep (n : Z) : M unit := log (Sleep n).

(** [with ... :] around [body]: [exit] runs on both ways out of the
    block, and an exception of [exit] replaces the one of [body]. *)
Definition with_exit {A} (body : M A) (exit : M unit) : M A :=
  fun s =>
    match body s with
    | (Ok a, s1) =>
        match exit s1 with
        | (Ok _, s2) => (Ok a, s2)
        | (Raise e2, s2) => (Raise e2, s2)
        end
    | (Raise e, s1) =>
        match exit s1 with
        | (Ok _, s2) => (Raise e, s2)
        | (Raise e2, s2) => (Raise e2, s2)
        end
    end.

(** Calls an oracle and logs what it answered. *)
Definition external {A} (call : W -> result A * W) (ev : result A -> event)
  : M A :=
  fun s =>
    let '(r, w) := call (world s) in
    (r, Build_state w (trace s ++ [ev r]) (session_state s)).

End Monad.

Declare Scope py_scope.
Delimit Scope py_scope with py.
Notation "x <- c1 ;; c2" := (bind c1 (fun x => c2))
  (at level 100, c1 at next level, right associativity) : py_scope.
Notation "c1 ;; c2" := (bind c1 (fun _ => c2))
  (at level 100, right associativity) : py_scope.
Open Scope py_scope.

(** ** Statements the two scripts share for mail *)

Module Mail.
Section Mail.
Context {W : Type}.
Variable ext : External W.
Variable environ : gmap string string.

(** [int(os.getenv(name))]. *)
Definition int_getenv (name : string) : result Z :=
  match environ !! name with
  | None =>
      Raise "int() argument must be a string, a bytes-like object or a real number, not 'NoneType'"
  | Some v =>
      match parse_int ext v with
      | Some n => Ok n
      | None => Raise ("invalid literal for int() with base 10: " ++ py_repr ext v)
      end
  end.

(** Reads a file and attaches it: the body of one [with open(...)] block. *)
Definition attach_file (path sub : string) (parts : list attachment)
  : M (list attachment) :=
  data <- external (file_read ext path) (FileRead path) ;;
  ret (parts ++ [ {| subtype := sub;
                     disposition := "attachment; filename=" ++ basename ext path;
                     payload := data |} ])%list.

(** The [with smtplib.SMTP(host, port) as server] block: the constructor
    connects, and leaving the block, also by an exception, ends the
    session with QUIT. *)
Definition smtp_session (host : option string) (port : Z)
    (sender password : option string) (rcpt : list string) (msg : message)
  : M unit :=
  external (smtp_step ext (smtp_connect host port)) (Smtp (smtp_connect host port)) ;;
  with_exit
    (external (smtp_step ext smtp_starttls) (Smtp smtp_starttls) ;;
     external (smtp_step ext (smtp_login sender password))
              (Smtp (smtp_login sender password)) ;;
     external (smtp_step ext (smtp_sendmail sender rcpt msg))
              (Smtp (smtp_sendmail sender rcpt msg)))
    (external (smtp_step ext smtp_quit) (Smtp smtp_quit)).

End Mail.
End Mail.

(** ** Sheet 1: [Insights-Agent30.py] *)

Module Sheet1.

(** The catalog, in source order. *)
Definition insight_options : list (string * string) :=
  [ ("1. Employees with 2 or more completions",
     "Number of employees who have completed 2 or more courses.");
    ("2. Employees with 1 completion",
     "Number of employees who have completed exactly 1 course.");
    ("3. Top 3 organizations by completion",
     "Top 3 organization units with the highest number of completions.");
    ("4. Top 3 orgs in each country by completion",
     "Top 3 organization units by completions in each country.");
    ("5. Bottom 3 organizations by completion",
     "Bottom 3 organization units with the least completions.");
    ("6. Bottom 3 orgs where registration is high but completion is low",
     "Bottom 3 orgs where registration is high but completion is low.");
    ("7. Top 3 platforms by registration and completion",
     "Top 3 platforms with the highest registrations and completions.");
    ("8. Bottom 3 platforms where registration is high but completion is low",
     "Bottom 3 platforms where registration is high but completion is low.");
    ("9. Top 3 employee roles by completions",
     "Top 3 employee roles based on number of completions.");
    ("10. Split of completion by course level",
     "Split of completions across different course levels.");
    ("11. Course level with high registration but low completion",
     "Which course levels have high registration but low completion?") ].

(** The framing of a catalog prompt,
    [f"Analyze the dataset and return this insight:\n\n{text}"]. *)
Definition insight_prompt (text : string) : string :=
  "Analyze the dataset and return this insight:" ++ nl ++ nl ++ text.

(** The framing of a free question in the "Ask AI" handler. *)
Definition question_prompt (user_q : string) : string :=
  nl ++ "You are an AI analyst. Based on the dataset, answer the following question in 5 lines maximum:"
     ++ nl ++ nl ++ user_q ++ nl.

(** [f"[⚠️ Skipped due to error: {e}]"]. *)
Definition skipped (e : string) : string :=
  "[⚠️ Skipped due to error: " ++ e ++ "]".

(** [f"\n\n### {label}\n{result}\n"]. *)
Definition summary_entry (label result : string) : string :=
  nl ++ nl ++ "### " ++ label ++ nl ++ result ++ nl.

Section Handlers.
Context {W : Type}.
Variable ext : External W.
Variable environ : gmap string string.

(** [run_agent_on_prompt]: builds the model and the agent and runs the
    prompt; a failure of any of the three is the failure of the call. *)
Definition run_agent_on_prompt (prompt_text model : string) : M string :=
  external (agent_run ext model prompt_text) (AgentRun model prompt_text).

(** [text_to_speech]. *)
Definition text_to_speech (text filename : string) : M string :=
  external (gtts_save ext text filename) (Speech text filename) ;;
  ret filename.

(** [generate_pdf_from_text]: one cell per line of the text. *)
Definition generate_pdf_from_text (text filename : string) : M string :=
  external (fpdf_output ext (split (ascii_of_nat 10) text) filename)
           (PdfOutput (split (ascii_of_nat 10) text) filename) ;;
  ret filename.

(** [os.getenv("EMAIL_RECEIVERS").split(",")]. *)
Definition receivers_getenv : result (list string) :=
  match environ !! "EMAIL_RECEIVERS" with
  | None => Raise "'NoneType' object has no attribute 'split'"
  | Some v => Ok (split "," v)
  end.

(** The [try] block of [send_email_with_attachments]. *)
Definition send_email_with_attachments_body (subject body : string)
    (audio_path pdf_path : option string) : M bool :=
  let sender := environ !! "EMAIL_USERNAME" in
  let password := environ !! "EMAIL_PASSWORD" in
  receivers <- lift receivers_getenv ;;
  let host := environ !! "EMAIL_HOST" in
  port <- lift (Mail.int_getenv ext environ "EMAIL_PORT") ;;
  parts <- match audio_path with
           | Some p => if String.eqb p "" then ret [] else Mail.attach_file ext p "mp3" []
           | None => ret []
           end ;;
  parts <- match pdf_path with
           | Some p => if String.eqb p "" then ret parts else Mail.attach_file ext p "pdf" parts
           | None => ret parts
           end ;;
  let msg := {| msg_from := sender; msg_to := join ", " receivers;
                msg_subject := subject; msg_body := body;
                msg_parts := parts |} in
  Mail.smtp_session ext host port sender password receivers msg ;;
  ret true.

(** [send_email_with_attachments]. *)
Definition send_email_with_attachments (subject body : string)
    (audio_path pdf_path : option string) : M bool :=
  try_except
    (send_email_with_attachments_body subject body audio_path pdf_path)
    (fun e => st (st_error ("Email Error: " ++ e)) ;; ret false).

(** The catalog loop shared, statement for statement, by
    [daily_auto_email] and the "Generate All" handler: [full_summary]
    grows by one entry per item. *)
Fixpoint insights_loop (items : list (string * string)) (full_summary : string)
  : M string :=
  match items with
  | [] => ret full_summary
  | (label, text) :: rest =>
      result <- try_except
                  (run_agent_on_prompt (insight_prompt text) "gpt-3.5-turbo")
                  (fun e => ret (skipped e)) ;;
      insights_loop rest (full_summary ++ summary_entry label result)
  end.

(** [daily_auto_email]. *)
Definition daily_auto_email : M unit :=
  try_except
    (full_summary <- insights_loop insight_options "" ;;
     external (file_write ext "auto_insights.txt" full_summary)
              (FileWrite "auto_insights.txt" full_summary) ;;
     podcast_text <- run_agent_on_prompt
       ("Summarize the following into a podcast-style audio summary:"
          ++ nl ++ nl ++ full_summary) "gpt-4" ;;
     podcast_path <- text_to_speech podcast_text "auto_podcast.mp3" ;;
     pdf_path <- generate_pdf_from_text full_summary "auto_insights.pdf" ;;
     subject <- (fun s => (Ok ("📩 Daily Course Insights – " ++ today ext (world s)), s)) ;;
     success <- send_email_with_attachments subject
                  "Attached are your latest daily insights and podcast summary."
                  (Some podcast_path) (Some pdf_path) ;;
     if (success : bool) then st (st_success "✅ Email sent successfully.")
     else st (st_error "❌ Email failed."))
    (fun e => st (st_error ("❌ Auto email error: " ++ e))).

(** The "Generate Insight" button, with the label chosen in the select
    box. *)
Definition generate_insight_handler (selected_insight : string) : M unit :=
  st (st_info "Generating insight with GPT-4...") ;;
  try_except
    (text <- lift (dict_get (py_repr ext) insight_options selected_insight) ;;
     insight_result <- run_agent_on_prompt (insight_prompt text) "gpt-4" ;;
     st (st_text_area "📄 Insight Result" insight_result 300) ;;
     st (st_download_button "📥 Download Insight" insight_result "Insight.txt") ;;
     session_set "last_insight" (VStr insight_result))
    (fun e => st (st_error ("Error: " ++ e))).

(** The "Generate All" button. *)
Definition generate_all_handler : M unit :=
  try_except
    (full_summary <- insights_loop insight_options "" ;;
     st (st_text_area "📋 All Insights" full_summary 500) ;;
     st (st_download_button "📥 Download All" full_summary "All_Insights.txt") ;;
     session_set "all_insights" (VStr full_summary))
    (fun e => st (st_error ("Error: " ++ e))).

(** The retry of the "Ask AI" handler: the inner [try] with its
    [except] clause. *)
Definition ask_with_retry (summary_prompt : string) : M string :=
  try_except
    (run_agent_on_prompt summary_prompt "gpt-4")
    (fun e =>
       if contains "Rate limit" e then
         st (st_warning "Rate limit hit. Waiting 20 seconds...") ;;
         sleep 20 ;;
         run_agent_on_prompt summary_prompt "gpt-4"
       else raise e).

(** The "Ask AI" button, with the text of the input box. *)
Definition ask_ai_handler (user_q : string) : M unit :=
  if String.eqb user_q "" then st (st_warning "Please enter a question.")
  else
    st (st_info "Using GPT-4...") ;;
    try_except
      (result <- ask_with_retry (question_prompt user_q) ;;
       st (st_text_area "🧠 Insight Summary:" result 200) ;;
       st (st_download_button "📥 Download Insight" result "QnA_Insight.txt"))
      (fun e => st (st_error ("Smart Q&A Error: " ++ e))).

End Handlers.
End Sheet1.

(** ** The pandas operations of the metric renderer *)

Module Pandas.

(** A [Series]: index labels with their values, in order.  Counts are
    integers; the differences [diff] makes of them are floats with
    integer values, kept as integers here. *)
Definition Series (K : Type) : Type := list (K * Z).

Section Sorting.
Context {A : Type}.
Variable le : A -> A -> bool.

(** Places [x] before the first element it may precede. *)
Fixpoint insert_by (x : A) (l : list A) : list A :=
  match l with
  | [] => [x]
  | y :: rest => if le x y then x :: y :: rest else y :: insert_by x rest
  end.

(** Insertion sort; equal elements keep their order. *)
Definition sort_by (l : list A) : list A := fold_right insert_by [] l.

End Sorting.

Section Counting.
Context {K : Type} `{EqDecision K}.

(** Adds one occurrence of [k]; a new key goes last. *)
Fixpoint bump (k : K) (s : Series K) : Series K :=
  match s with
  | [] => [(k, 1%Z)]
  | (k', n) :: rest =>
      if decide (k' = k) then (k', (n + 1)%Z) :: rest else (k', n) :: bump k rest
  end.

(** Occurrences per key, keys in order of first appearance. *)
Definition tally (xs : list K) : Series K :=
  fold_left (fun s k => bump k s) xs [].

(** A missing cell ([NaN], [NaT]) is [None]; counting drops it. *)
Definition dropna (col : list (option K)) : list K :=
  omap (fun x => x) col.

Definition by_value_desc (x y : K * Z) : bool := (snd y <=? snd x)%Z.
Definition by_value_asc (x y : K * Z) : bool := (snd x <=? snd y)%Z.

(** [col.value_counts()]: occurrences of each value, most frequent
    first.  pandas leaves the order among equal counts to the sorting
    routine; here equal counts stay in order of first appearance. *)
Definition value_counts (col : list (option K)) : Series K :=
  sort_by by_value_desc (tally (dropna col)).

(** [s.nlargest(n)] and [s.nsmallest(n)], with [keep="first"]. *)
Definition nlargest (n : nat) (s : Series K) : Series K :=
  firstn n (sort_by by_value_desc s).

Definition nsmallest (n : nat) (s : Series K) : Series K :=
  firstn n (sort_by by_value_asc s).

(** [s.sort_index()] for an order [leb] on the labels. *)
Definition sort_index (leb : K -> K -> bool) (s : Series K) : Series K :=
  sort_by (fun x y => leb (fst x) (fst y)) s.

(** [s.diff()]: each value minus the one before it; the first has none. *)
Fixpoint diff_from (prev : Z) (s : Series K) : list (K * option Z) :=
  match s with
  | [] => []
  | (k, v) :: rest => (k, Some (v - prev)%Z) :: diff_from v rest
  end.

Definition diff (s : Series K) : list (K * option Z) :=
  match s with
  | [] => []
  | (k, v) :: rest => (k, None) :: diff_from v rest
  end.

(** [s.fillna(d)]. *)
Definition fillna (d : Z) (s : list (K * option Z)) : Series K :=
  map (fun kv => (fst kv, match snd kv with Some v => v | None => d end)) s.

End Counting.

(** A [Timestamp], as far as the metrics look at it. *)
Record Timestamp : Type := {
  year : Z;
  month : Z;
  day : Z
}.

(** A monthly [Period]: year and month. *)
Definition Period : Type := (Z * Z)%type.

(** [col.dt.month] and [col.dt.to_period("M")]; [NaT] stays missing. *)
Definition dt_month (col : list (option Timestamp)) : list (option Z) :=
  map (option_map month) col.

Definition dt_to_period_M (col : list (option Timestamp)) : list (option Period) :=
  map (option_map (fun t => (year t, month t))) col.

Definition period_leb (p q : Period) : bool :=
  ((fst p <? fst q) || ((fst p =? fst q) && (snd p <=? snd q)))%Z.

Definition digit (n : Z) : string :=
  String (ascii_of_nat (48 + Z.to_nat n)) EmptyString.

Definition two_digits (n : Z) : string :=
  digit (n / 10) ++ digit (n mod 10).

(** [str] of a monthly period, [YYYY-MM]. *)
Definition period_str (p : Period) : string :=
  two_digits (fst p / 100) ++ two_digits (fst p mod 100) ++ "-" ++ two_digits (snd p).

End Pandas.

(** ** Sheet 2: [Second_Sheet_Agent_2_6.py] *)

Module Sheet2.
Import Pandas.

(** A row of the table, with the columns the renderer reads. *)
Record CourseRecord : Type := {
  Platform : option string;
  Employee_Role : option string;
  Main_Organization_Unit : option string;
  Course_Name : option string;
  Course_Completion_Date : option Timestamp;
  Registration_Date : option Timestamp
}.

Definition DataFrame : Type := list CourseRecord.

(** [df[col].isna()] as a row filter on the completion date. *)
Definition completion_isna (r : CourseRecord) : bool :=
  match Course_Completion_Date r with None => true | Some _ => false end.

(** A label of a plotted index. *)
Inductive label : Type :=
| LStr (s : string)
| LMonth (m : Z)
| LPeriod (p : Period).

Definition labelled {K} (inj : K -> label) (s : Series K) : list (label * Z) :=
  map (fun kv => (inj (fst kv), snd kv)) s.

(** What [render_chart] does to the axes it is given. *)
Inductive draw : Type :=
| series_plot (kind : string) (autopct : option string) (data : list (label * Z))
| ax_plot (x : list string) (y : list Z) (lbl : string)
| ax_legend
| ax_axis (arg : string)
| ax_table (cellText : list (label * Z)) (colLabels : list string) (loc : string).

(** The metric list of the script, in source order. *)
Definition metrics : list string :=
  [ "Currently Enrolled"; "Number of completions";
    "Completion variance to previous month";
    "Number of employees registered vs completed (monthly trend)";
    "Top 5 courses by completion"; "Bottom 5 courses by completion";
    "Completion by Platform"; "Completion by Employee Role";
    "Completion by Organization" ].

Section Renderer.
Variable df : DataFrame.

(** What the plotting library answers to [data.plot(...)] and to
    [ax.table(...)]: the call draws, or it raises (pandas refuses a pie of
    a negative value and a plot of an empty series, matplotlib a table
    without rows). *)
Variable plotting : draw -> result unit.

(** The [data] of each branch of [render_chart]. *)
Definition completion_by_platform : Series string :=
  value_counts (map Platform df).

Definition completion_by_employee_role : Series string :=
  value_counts (map Employee_Role df).

Definition completion_by_organization : Series string :=
  value_counts (map Main_Organization_Unit df).

Definition top5_courses : Series string :=
  nlargest 5 (value_counts (map Course_Name df)).

Definition bottom5_courses : Series string :=
  nsmallest 5 (value_counts (map Course_Name df)).

Definition currently_enrolled : Series string :=
  nlargest 5 (value_counts (map Course_Name (List.filter completion_isna df))).

Definition number_of_completions : Series Z :=
  sort_index Z.leb (value_counts (dt_month (map Course_Completion_Date df))).

Definition month_counts : Series Period :=
  sort_index period_leb
    (value_counts (dt_to_period_M (map Course_Completion_Date df))).

Definition completion_variance : Series Period :=
  fillna 0 (diff month_counts).

Definition registered_monthly : Series Period :=
  sort_index period_leb (value_counts (dt_to_period_M (map Registration_Date df))).

(** The message of the [UnboundLocalError] for [data]. *)
Definition unbound_data : string :=
  "cannot access local variable 'data' where it is not associated with a value".

(** A plotting call on the axes: a call that raises draws nothing. *)
Definition plot_on (call : draw) (ax : list draw) : result unit * list draw :=
  match plotting call with
  | Ok _ => (Ok tt, (ax ++ [call])%list)
  | Raise e => (Raise e, ax)
  end.

(** The second [if] chain of [render_chart]; [data] is [None] while the
    local variable has no value. *)
Definition draw_data (data : option (list (label * Z)))
    (metric chart_type : string) (ax : list draw) : result unit * list draw :=
  if String.eqb chart_type "Bar" then
    match data with
    | Some d => plot_on (series_plot "bar" None d) ax
    | None => (Raise unbound_data, ax)
    end
  else if String.eqb chart_type "Line" then
    match data with
    | Some d => plot_on (series_plot "line" None d) ax
    | None => (Raise unbound_data, ax)
    end
  else if String.eqb chart_type "Pie" then
    match data with
    | Some d => plot_on (series_plot "pie" (Some "%1.1f%%") d) ax
    | None => (Raise unbound_data, ax)
    end
  else if String.eqb chart_type "Table" then
    match data with
    | Some d =>
        plot_on (ax_table d [metric; "Value"] "center") (ax ++ [ax_axis "off"])%list
    | None => (Raise unbound_data, (ax ++ [ax_axis "off"])%list)
    end
  else (Ok tt, ax).

(** [render_chart(metric, chart_type, ax)]: the outcome and the axes
    after it. *)
Definition render_chart (metric chart_type : string) (ax : list draw)
  : result unit * list draw :=
  if String.eqb metric "Completion by Platform" then
    draw_data (Some (labelled LStr completion_by_platform)) metric chart_type ax
  else if String.eqb metric "Completion by Employee Role" then
    draw_data (Some (labelled LStr completion_by_employee_role)) metric chart_type ax
  else if String.eqb metric "Completion by Organization" then
    draw_data (Some (labelled LStr completion_by_organization)) metric chart_type ax
  else if String.eqb metric "Top 5 courses by completion" then
    draw_data (Some (labelled LStr top5_courses)) metric chart_type ax
  else if String.eqb metric "Bottom 5 courses by completion" then
    draw_data (Some (labelled LStr bottom5_courses)) metric chart_type ax
  else if String.eqb metric "Currently Enrolled" then
    draw_data (Some (labelled LStr currently_enrolled)) metric chart_type ax
  else if String.eqb metric "Number of completions" then
    draw_data (Some (labelled LMonth number_of_completions)) metric chart_type ax
  else if String.eqb metric "Completion variance to previous month" then
    draw_data (Some (labelled LPeriod completion_variance)) metric chart_type ax
  else if String.eqb metric
            "Number of employees registered vs completed (monthly trend)" then
    let reg := registered_monthly in
    let comp := month_counts in
    (Ok tt,
     (ax ++ [ ax_plot (map (fun kv => period_str (fst kv)) reg) (map snd reg) "Registered";
              ax_plot (map (fun kv => period_str (fst kv)) comp) (map snd comp) "Completed";
              ax_legend ])%list)
  else draw_data None metric chart_type ax.

End Renderer.

Section Handlers.
Context {W : Type}.
Variable ext : External W.
Variable environ : gmap string string.

(** [gpt_suggest_insights]. *)
Definition gpt_suggest_insights (prompt_text : string) : M string :=
  external (agent_run ext "gpt-3.5-turbo" prompt_text)
           (AgentRun "gpt-3.5-turbo" prompt_text).

(** The [try] block of [send_email_with_pdf]. *)
Definition send_email_with_pdf_body (to_email subject body pdf_path : string)
  : M bool :=
  let sender := environ !! "EMAIL_USERNAME" in
  let password := environ !! "EMAIL_PASSWORD" in
  let host := environ !! "EMAIL_HOST" in
  port <- lift (Mail.int_getenv ext environ "EMAIL_PORT") ;;
  parts <- Mail.attach_file ext pdf_path "pdf" [] ;;
  let msg := {| msg_from := sender; msg_to := to_email;
                msg_subject := subject; msg_body := body;
                msg_parts := parts |} in
  Mail.smtp_session ext host port sender password [to_email] msg ;;
  ret true.

(** [send_email_with_pdf]. *)
Definition send_email_with_pdf (to_email subject body pdf_path : string)
  : M bool :=
  try_except
    (send_email_with_pdf_body to_email subject body pdf_path)
    (fun e => st (st_error ("Email Error: " ++ e)) ;; ret false).

(** [st.session_state["report_data"][metric] = entry]: the dict stored
    under the key is updated in place. *)
Definition report_data_set (metric : string) (entry : report_entry) : M unit :=
  fun s : state W =>
    match session_state s !! "report_data" with
    | Some (VReport d) =>
        (Ok tt, Build_state (world s) (trace s)
                  (<["report_data" := VReport (dict_set d metric entry)]>
                     (session_state s)))
    | Some (VStr _) => (Raise "'str' object does not support item assignment", s)
    | Some VNone => (Raise "'NoneType' object does not support item assignment", s)
    | None => (Raise "'report_data'", s)
    end.

(** The loop of the "Generate Insights & Charts" handler. *)
Fixpoint explain_metrics (selected_metrics : list string) (custom_text : string)
  : M unit :=
  match selected_metrics with
  | [] => ret tt
  | metric :: rest =>
      insight <- gpt_suggest_insights
        ("Explain: " ++ metric ++ ". Context: " ++ custom_text
           ++ ". Keep it concise (5 lines).") ;;
      report_data_set metric
        {| insight := insight; chart_type := "Bar"; chart_path := None |} ;;
      explain_metrics rest custom_text
  end.

(** The "Generate Insights & Charts" button, with the selected metrics
    and the custom context of the page. *)
Definition generate_insights_charts_handler
    (selected_metrics : list string) (custom_text : string) : M unit :=
  match selected_metrics with
  | [] => st (st_warning "Please select metrics or switch to AI mode.")
  | _ =>
      session_set "report_data" (VReport []) ;;
      explain_metrics selected_metrics custom_text
  end.

(** The two [if ... not in st.session_state] statements that open the
    page: a key that is there keeps its value. *)
Definition init_session : M unit :=
  fun s : state W =>
    let ss := session_state s in
    let ss1 := match ss !! "report_data" with
               | None => <["report_data" := VReport []]> ss
               | Some _ => ss
               end in
    let ss2 := match ss1 !! "final_pdf" with
               | None => <["final_pdf" := VNone]> ss1
               | Some _ => ss1
               end in
    (Ok tt, Build_state (world s) (trace s) ss2).

(** The truth value of a stored object in an [if]. *)
Definition truthy (v : sval) : bool :=
  match v with
  | VStr s => negb (String.eqb s "")
  | VNone => false
  | VReport [] => false
  | VReport (_ :: _) => true
  end.

(** [send_email_with_pdf] when [pdf_path] is a dict: the configuration
    is read as before and [open] rejects the path. *)
Definition send_email_with_pdf_dict : M (W:=W) bool :=
  try_except
    (port <- lift (Mail.int_getenv ext environ "EMAIL_PORT") ;;
     raise "expected str, bytes or os.PathLike object, not dict")
    (fun e => st (st_error ("Email Error: " ++ e)) ;; ret false).

(** The "Send Email" button, with the address and the recurrence chosen
    on the page.  The button is on the page only while
    [st.session_state["final_pdf"]] is true. *)
Definition send_email_handler (email freq : string) : M unit :=
  fun s : state W =>
    match session_state s !! "final_pdf" with
    | None => (Raise "'final_pdf'", s)
    | Some final_pdf =>
        if truthy final_pdf then
          if String.eqb email "" then st (st_warning "Enter a valid email.") s
          else
            (sent <- match final_pdf with
                     | VStr path =>
                         send_email_with_pdf email "AI Report"
                           "Find your report attached." path
                     | _ => send_email_with_pdf_dict
                     end ;;
             if (sent : bool) then
               st (st_success "✅ Email sent.") ;;
               if String.eqb freq "No" then ret tt
               else st (st_info ("⏰ Scheduled for " ++ freq
                                   ++ ". (Scheduler backend required.)"))
             else ret tt) s
        else (Ok tt, s)
    end.

End Handlers.
End Sheet2.

(** ** Vocabulary of the statements *)

Module Claims.
Import Pandas.

(** The placeholder that stands for an item whose call failed with [e]. *)
Definition placeholder (e : string) : string :=
  "[⚠️ Skipped due to error: " ++ e ++ "]".

(** One entry of the summary: two line feeds, the label as a heading,
    the text on the next line, a line feed. *)
Definition section_text (label text : string) : string :=
  nl ++ nl ++ "### " ++ label ++ nl ++ text ++ nl.

(** The text an entry of the batch holds for an outcome of the agent:
    its answer, or the placeholder of the failure. *)
Definition entry_text (r : result string) : string :=
  match r with
  | Ok answer => answer
  | Raise e => placeholder e
  end.

(** The entries of a batch, one per item and outcome, under the item's
    label. *)
Definition entries (items : list (string * string)) (outcomes : list (result string))
  : list (string * string) :=
  zip_with (fun item r => (fst item, entry_text r)) items outcomes.

(** The summary text made of a list of entries. *)
Definition render_entries (es : list (string * string)) : string :=
  fold_right (fun e rest => section_text (fst e) (snd e) ++ rest) "" es.

(** The calls a batch makes to the agent, with their outcomes. *)
Definition batch_events (items : list (string * string))
    (outcomes : list (result string)) : list event :=
  zip_with (fun item r =>
              AgentRun "gpt-3.5-turbo" (Sheet1.insight_prompt (snd item)) r)
           items outcomes.

(** [answers ext model w prompts outcomes w']: asked the prompts one after
    the other from world [w], the agent gives [outcomes] and leaves [w']. *)
Inductive answers {W} (ext : External W) (model : string)
  : W -> list string -> list (result string) -> W -> Prop :=
| answers_nil w : answers ext model w [] [] w
| answers_cons w prompt r w1 prompts outcomes w2 :
    agent_run ext model prompt w = (r, w1) ->
    answers ext model w1 prompts outcomes w2 ->
    answers ext model w (prompt :: prompts) (r :: outcomes) w2.

(** A statement that only appends to the trace. *)
Definition grows {W A} (m : @M W A) : Prop :=
  forall s, exists tail, trace (snd (m s)) = (trace s ++ tail)%list.

(** Number of calls to the agent in a trace. *)
Definition agent_calls (t : list event) : nat :=
  List.length (List.filter (fun ev => match ev with AgentRun _ _ _ => true | _ => false end) t).

(** The description of the failure an event records, if it records one. *)
Definition event_failure (ev : event) : option string :=
  match ev with
  | UI _ | Sleep _ => None
  | AgentRun _ _ (Raise e) | FileRead _ (Raise e) => Some e
  | Speech _ _ (Raise e) | FileWrite _ _ (Raise e)
  | PdfOutput _ _ (Raise e) | Smtp _ (Raise e) => Some e
  | _ => None
  end.

(** The failures a piece of trace records, in order. *)
Definition failures (evs : list event) : list string := omap event_failure evs.

(** The message of a raised outcome, if it is one. *)
Definition raised {A} (r : result A) : list string :=
  match r with
  | Ok _ => []
  | Raise e => [e]
  end.

Definition is_sendmail_ok (ev : event) : bool :=
  match ev with
  | Smtp (smtp_sendmail _ _ _) (Ok _) => true
  | _ => false
  end.

Definition is_st_error (ev : event) : bool :=
  match ev with
  | UI (st_error _) => true
  | _ => false
  end.

(** What a delivery function owes its caller, given the failures
    [config_errors] of reading its configuration: from state [s] it
    returns a boolean, never an exception, and leaves the session state
    alone.  [true] comes with a configuration read without failure, a
    trace without a failed step, an accepted [sendmail] and no error
    message; [false] comes with a last event that shows "Email Error: "
    and the description of a failure of the configuration or of a step
    of the trace. *)
Definition delivery_outcome {W} (config_errors : list string) (s : state W)
    (out : result bool * state W) : Prop :=
  match out with
  | (Ok b, s') =>
      session_state s' = session_state s /\
      exists evs,
        trace s' = (trace s ++ evs)%list /\
        if b then
          config_errors = [] /\ failures evs = [] /\
          existsb is_sendmail_ok evs = true /\ existsb is_st_error evs = false
        else
          exists e,
            last evs = Some (UI (st_error ("Email Error: " ++ e))) /\
            (In e config_errors \/ In e (failures evs))
  | (Raise _, _) => False
  end.

(** Occurrences of [k] in a column without missing cells. *)
Definition occurrences {K} `{EqDecision K} (k : K) (xs : list K) : Z :=
  Z.of_nat (List.length (List.filter (fun x => bool_decide (x = k)) xs)).

(** The value a series holds for [k], zero when [k] is no label of it. *)
Fixpoint value_of {K} `{EqDecision K} (k : K) (s : Series K) : Z :=
  match s with
  | [] => 0%Z
  | (k', n) :: rest => if decide (k' = k) then n else value_of k rest
  end.

(** What the counting loop keeps true of the series it builds from the
    cells [xs] read so far. *)
Definition tallied {K} `{EqDecision K} (s : Series K) (xs : list K) : Prop :=
  List.NoDup (map fst s) /\
  Forall (fun kv => (0 < snd kv)%Z) s /\
  forall k, value_of k s = occurrences k xs.

(** Rows of the table under a course name, and those of them with a
    completion date. *)
Definition rows_of (df : Sheet2.DataFrame) (course : string) : Z :=
  Z.of_nat (List.length (List.filter (fun r => bool_decide (Sheet2.Course_Name r = Some course)) df)).

Definition completions_of (df : Sheet2.DataFrame) (course : string) : Z :=
  Z.of_nat (List.length
    (List.filter (fun r => bool_decide (Sheet2.Course_Name r = Some course)
                      && negb (Sheet2.completion_isna r)) df)).



End Claims.
Import Claims.

(** ** Scripted collaborators for concrete runs *)

Module Stub.

(** Reads a string of decimal digits. *)
Fixpoint digits_value (acc : Z) (s : string) : option Z :=
  match s with
  | EmptyString => Some acc
  | String a rest =>
      let n := Z.of_nat (nat_of_ascii a) in
      if ((48 <=? n) && (n <=? 57))%Z then digits_value (10 * acc + (n - 48)) rest
      else None
  end.

Definition read_int (s : string) : option Z :=
  match s with
  | EmptyString => None
  | _ => digits_value 0 s
  end.

(** The world is the script of the agent's next outcomes; once it is
    used up the agent answers "ok".  Files and mail follow [files] and
    [mail]. *)
Definition scripted (files : string -> result string)
    (mail : smtp_op -> result unit) : External (list (result string)) :=
  {| agent_run := fun _ _ w =>
       match w with
       | [] => (Ok "ok", [])
       | r :: rest => (r, rest)
       end;
     gtts_save := fun _ _ w => (Ok tt, w);
     file_write := fun _ _ w => (Ok tt, w);
     file_read := fun path w => (files path, w);
     fpdf_output := fun _ _ w => (Ok tt, w);
     smtp_step := fun op w => (mail op, w);
     today := fun _ => "2024-01-31";
     parse_int := read_int;
     basename := fun path => path;
     py_repr := fun s => "'" ++ s ++ "'" |}.

(** A plotting library that draws whatever it is asked. *)
Definition draws (call : Sheet2.draw) : result unit := Ok tt.

(** Every file reads, every mail step succeeds. *)
Definition friendly : External (list (result string)) :=
  scripted (fun _ => Ok "bytes") (fun _ => Ok tt).

(** A relay that refuses the login. *)
Definition refuses_login (op : smtp_op) : result unit :=
  match op with
  | smtp_login _ _ => Raise "(535, b'Authentication failed')"
  | _ => Ok tt
  end.

Definition mail_environ : gmap string string :=
  <["EMAIL_USERNAME" := "bot@example.org"]>
  (<["EMAIL_PASSWORD" := "secret"]>
  (<["EMAIL_RECEIVERS" := "a@example.org,b@example.org"]>
  (<["EMAIL_HOST" := "smtp.example.org"]>
  (<["EMAIL_PORT" := "587"]> ∅)))).

Definition start (script : list (result string)) (session : gmap string sval)
  : state (list (result string)) :=
  Build_state script [] session.

(** A session that already holds a report for one metric. *)
Definition session_with_report : gmap string sval :=
  <["report_data" :=
      VReport [("Currently Enrolled",
                {| insight := "Enrollment is steady.";
                   chart_type := "Line";
                   chart_path := Some "chart_Currently_Enrolled.png" |}) ] ]>
  (<["final_pdf" := VStr "final_report.pdf"]> ∅).

(** A table of one enrolled learner. *)
Definition one_enrolled : Sheet2.DataFrame :=
  [ {| Sheet2.Platform := Some "Coursera";
       Sheet2.Employee_Role := Some "Engineer";
       Sheet2.Main_Organization_Unit := Some "R&D";
       Sheet2.Course_Name := Some "Python Basics";
       Sheet2.Course_Completion_Date := None;
       Sheet2.Registration_Date := Some (Pandas.Build_Timestamp 2024 1 15) |} ].

End Stub.

(** ** Further vocabulary *)

Module Measures.
Import Pandas.

(** Occurrences of a character in a string. *)
Fixpoint occurs (c : ascii) (s : string) : nat :=
  match s with
  | EmptyString => 0
  | String a rest => (if Ascii.eqb a c then 1 else 0) + occurs c rest
  end.

(** The sum of the values of a series. *)
Definition total {K} (s : Series K) : Z :=
  fold_right Z.add 0%Z (map snd s).

(** Cells of a column that are not missing. *)
Definition present {K} (col : list (option K)) : Z :=
  Z.of_nat (List.length (Pandas.dropna col)).

(** Steps of the SMTP session in a piece of trace, in order. *)
Definition smtp_steps (evs : list event) : list (smtp_op * result unit) :=
  omap (fun ev => match ev with Smtp op r => Some (op, r) | _ => None end) evs.

Definition is_file_read (ev : event) : bool :=
  match ev with
  | FileRead _ _ => true
  | _ => false
  end.

(** A path argument that is neither [None] nor empty. *)
Definition given (path : option string) : bool :=
  match path with
  | Some p => negb (String.eqb p "")
  | None => false
  end.

(** The files a mail of sheet 1 is given, in the order they are attached,
    each with the subtype of its part. *)
Definition given_files (audio_path pdf_path : option string)
  : list (string * string) :=
  (match audio_path with
   | Some p => if String.eqb p "" then [] else [(p, "mp3")]
   | None => []
   end ++
   match pdf_path with
   | Some p => if String.eqb p "" then [] else [(p, "pdf")]
   | None => []
   end)%list.

(** The files read in a piece of trace, in order, with what was read. *)
Definition file_reads (evs : list event) : list (string * result string) :=
  omap (fun ev => match ev with FileRead p r => Some (p, r) | _ => None end) evs.

(** The prompt of the "Generate Insights & Charts" handler for a metric. *)
Definition explain_prompt (custom_text metric : string) : string :=
  "Explain: " ++ metric ++ ". Context: " ++ custom_text
    ++ ". Keep it concise (5 lines).".

(** The entry the handler stores for an answer of the agent. *)
Definition bar_entry (text : string) : report_entry :=
  {| insight := text; chart_type := "Bar"; chart_path := None |}.

(** The report after storing the answers for some metrics, in order. *)
Definition record_all (d : list (string * report_entry))
    (explained : list (string * string)) : list (string * report_entry) :=
  fold_left (fun d mt => dict_set d (fst mt) (bar_entry (snd mt))) explained d.

(** The calls that explained some metrics. *)
Definition explain_events (custom_text : string)
    (explained : list (string * string)) : list event :=
  map (fun mt => AgentRun "gpt-3.5-turbo" (explain_prompt custom_text (fst mt))
                   (Ok (snd mt))) explained.

(** Rows of a table whose cell [cell r] holds [k]. *)
Definition rows_with {R K} `{EqDecision K} (cell : R -> option K) (k : K)
    (rows : list R) : Z :=
  Z.of_nat (List.length (List.filter (fun r => bool_decide (cell r = Some k)) rows)).

(** Rows of a table whose cell [cell r] is not missing. *)
Definition rows_present {R K} (cell : R -> option K) (rows : list R) : Z :=
  Z.of_nat (List.length
    (List.filter (fun r => match cell r with Some _ => true | None => false end) rows)).

(** What the count of a column is: every value that occurs, once, with
    the number of rows that hold it, and together as many as there are
    rows with a value in the column. *)
Definition counts_of {R K} `{EqDecision K} (cell : R -> option K)
    (rows : list R) (s : Series K) : Prop :=
  List.NoDup (map fst s) /\
  (forall k n, In (k, n) s <-> n = rows_with cell k rows /\ (0 < n)%Z) /\
  total s = rows_present cell rows.


Definition period_of (date : Sheet2.CourseRecord -> option Timestamp)
    (r : Sheet2.CourseRecord) : option Period :=
  option_map (fun t => (year t, month t)) (date r).

(** Strictly earlier monthly period. *)
Definition period_lt (p q : Period) : Prop :=
  (fst p < fst q \/ (fst p = fst q /\ snd p < snd q))%Z.

End Measures.
Import Measures.

(** ** The report document of sheet 2 *)

Module Document.

(** The calls [create_pdf_report_with_charts] makes on its [FPDF]
    object. *)
Inductive pdf_call : Type :=
| set_auto_page_break (auto : bool) (margin : Z)
| add_page
| set_font (family style : string) (size : Z)
| multi_cell (w h : Z) (txt : string)
| image (path : string) (w : Z)
| ln (h : Z)
| output (filename : string).

(** The body of the loop for one item of [insight_data]:
    [metric, (insight, chart_path)]. *)
Definition entry_calls (path_exists : string -> bool)
    (item : string * (string * string)) : list pdf_call :=
  let metric := fst item in
  let insight := fst (snd item) in
  let chart_path := snd (snd item) in
  [ set_font "Arial" "B" 14;
    multi_cell 0 10 ("Metric: " ++ metric);
    set_font "Arial" "" 12;
    multi_cell 0 10 insight ]
  ++ (if negb (String.eqb chart_path "") && path_exists chart_path
      then [image chart_path 170] else [])
  ++ [ln 10].

(** [create_pdf_report_with_charts(insight_data, filename)], given which
    paths exist: the calls on the document and the returned file name. *)
Definition create_pdf_report_with_charts (path_exists : string -> bool)
    (insight_data : list (string * (string * string))) (filename : string)
  : list pdf_call * string :=
  ([ set_auto_page_break true 15; add_page; set_font "Arial" "" 12 ]
   ++ flat_map (entry_calls path_exists) insight_data
   ++ [output filename],
   filename)%list.

Definition is_image (c : pdf_call) : bool :=
  match c with image _ _ => true | _ => false end.

Definition is_text (c : pdf_call) : bool :=
  match c with multi_cell _ _ _ => true | _ => false end.

(** An item whose chart goes into the document. *)
Definition has_chart (path_exists : string -> bool)
    (item : string * (string * string)) : bool :=
  negb (String.eqb (snd (snd item)) "") && path_exists (snd (snd item)).

End Document.

(** ** The report section of sheet 2 *)

Module ReportPage.
Import Document.

(** What the report section puts on the page and asks of the plotting
    and PDF libraries, in order. *)
Inductive widget : Type :=
| subheader (body : string)
| markdown (body : string)
| selectbox (label : string) (options : list string) (key : string)
    (index : nat) (chosen : string)
| plt_subplots
| plt_tight_layout (r : result unit)
| plt_savefig (path : string) (ax : list Sheet2.draw) (r : result unit)
| st_image (path : string)
| plt_close
| page_error (body : string)
| fpdf (calls : list pdf_call) (r : result unit)
| file_open (path : string) (r : result unit)
| download_button (label file file_name : string).

(** The libraries of the section, as oracles over a world [W]; [plot] is
    what the plotting library answers to a plot or a table, and
    [repr x] is [repr(x)], the text Python prints for the [str] [x] in
    error messages. *)
Record Libraries (W : Type) : Type := {
  plot : Sheet2.draw -> result unit;
  repr : string -> string;
  tight_layout : W -> result unit * W;
  savefig : string -> list Sheet2.draw -> W -> result unit * W;
  path_exists : W -> string -> bool;
  pdf_write : list pdf_call -> W -> result unit * W;
  open_rb : string -> W -> result unit * W
}.
Arguments plot {W}.
Arguments repr {W}.
Arguments tight_layout {W}.
Arguments savefig {W}.
Arguments path_exists {W}.
Arguments pdf_write {W}.
Arguments open_rb {W}.

(** The options of the select box of a metric. *)
Definition chart_styles : list string := ["Bar"; "Line"; "Pie"; "Table"].

(** [l.index(x)]: the first position of [x], or [ValueError]. *)
Fixpoint index_of (x : string) (l : list string) : option nat :=
  match l with
  | [] => None
  | y :: rest =>
      if String.eqb y x then Some 0
      else option_map S (index_of x rest)
  end.

Definition list_index (repr : string -> string) (x : string)
    (l : list string) : result nat :=
  match index_of x l with
  | Some i => Ok i
  | None => Raise (repr x ++ " is not in list")
  end.

(** [s.replace(a, b)] for single characters. *)
Fixpoint replace_char (a b : ascii) (s : string) : string :=
  match s with
  | EmptyString => EmptyString
  | String c rest =>
      String (if Ascii.eqb c a then b else c) (replace_char a b rest)
  end.

(** [f"chart_{metric.replace(' ', '_')}.png"]. *)
Definition chart_file (metric : string) : string :=
  "chart_" ++ replace_char " " "_" metric ++ ".png".

(** The argument of [create_pdf_report_with_charts]: for every metric
    its insight and [v.get("chart_path", "")]. *)
Definition insight_data (d : list (string * report_entry))
  : list (string * (string * string)) :=
  map (fun mv => (fst mv,
                  (insight (snd mv),
                   match chart_path (snd mv) with
                   | Some p => p
                   | None => ""
                   end))) d.

Section Page.
Context {W : Type}.
Variable lib : Libraries W.
Variable df : Sheet2.DataFrame.

(** What the select box of a metric returns in this run. *)
Variable choice : string -> string.

(** The section runs in the handler monad, over the world of the
    libraries paired with what the page shows. *)
Definition show (w : widget) : M (W := W * list widget) unit :=
  fun s =>
    (Ok tt,
     Build_state (fst (world s), (snd (world s) ++ [w])%list)
                 (trace s) (session_state s)).

(** Calls a library and shows on the page what it answered. *)
Definition library {A} (call : W -> result A * W) (w : result A -> widget)
  : M (W := W * list widget) A :=
  fun s =>
    let '(r, w1) := call (fst (world s)) in
    (r, Build_state (w1, (snd (world s) ++ [w r])%list)
                    (trace s) (session_state s)).

(** [st.session_state["report_data"][metric]]. *)
Definition report_get (metric : string)
  : M (W := W * list widget) report_entry :=
  fun s =>
    match session_state s !! "report_data" with
    | Some (VReport d) =>
        match dict_find d metric with
        | Some e => (Ok e, s)
        | None => (Raise (repr lib metric), s)
        end
    | Some (VStr _) => (Raise "string indices must be integers, not 'str'", s)
    | Some VNone => (Raise "'NoneType' object is not subscriptable", s)
    | None => (Raise "'report_data'", s)
    end.

(** [render_chart(metric, chart_type, ax)] on the fresh axes of
    [plt.subplots()]. *)
Definition render_on_new_axes (metric style : string)
  : M (W := W * list widget) (list Sheet2.draw) :=
  fun s =>
    match Sheet2.render_chart df (plot lib) metric style [] with
    | (Ok _, ax) => (Ok ax, s)
    | (Raise e, _) => (Raise e, s)
    end.

(** The body of the loop for one metric. *)
Definition render_metric (metric : string) : M (W := W * list widget) unit :=
  show (subheader ("🧠 Insight for " ++ metric)) ;;
  entry <- report_get metric ;;
  show (markdown (insight entry)) ;;
  entry <- report_get metric ;;
  index <- lift (list_index (repr lib) (chart_type entry) chart_styles) ;;
  let chosen := choice metric in
  show (selectbox ("Choose chart type for " ++ metric ++ ":") chart_styles
          ("chart_select_" ++ metric) index chosen) ;;
  entry <- report_get metric ;;
  Sheet2.report_data_set metric
    {| insight := insight entry; chart_type := chosen;
       chart_path := chart_path entry |} ;;
  show plt_subplots ;;
  try_except
    (ax <- render_on_new_axes metric chosen ;;
     library (tight_layout lib) plt_tight_layout ;;
     library (savefig lib (chart_file metric) ax)
             (plt_savefig (chart_file metric) ax) ;;
     show (st_image (chart_file metric)) ;;
     show plt_close ;;
     entry <- report_get metric ;;
     Sheet2.report_data_set metric
       {| insight := insight entry; chart_type := chart_type entry;
          chart_path := Some (chart_file metric) |})
    (fun e => show (page_error ("Chart generation failed for " ++ metric
                                  ++ ": " ++ e))).

(** The loop over the keys of the report. *)
Fixpoint render_all (keys : list string) : M (W := W * list widget) unit :=
  match keys with
  | [] => ret tt
  | metric :: rest => render_metric metric ;; render_all rest
  end.

(** What follows the loop: the document, its path in the session and the
    download button. *)
Definition assemble_report : M (W := W * list widget) unit :=
  fun s =>
    match session_state s !! "report_data" with
    | Some (VReport d) =>
        let doc := create_pdf_report_with_charts
                     (path_exists lib (fst (world s)))
                     (insight_data d) "final_report.pdf" in
        (library (pdf_write lib (fst doc)) (fpdf (fst doc)) ;;
         session_set "final_pdf" (VStr (snd doc)) ;;
         library (open_rb lib (snd doc)) (file_open (snd doc)) ;;
         show (download_button "📥 Download Report" (snd doc) (snd doc))) s
    | Some (VStr _) => (Raise "'str' object has no attribute 'items'", s)
    | Some VNone => (Raise "'NoneType' object has no attribute 'items'", s)
    | None => (Raise "'report_data'", s)
    end.

(** The [if st.session_state["report_data"]:] section of the page. *)
Definition report_section : M (W := W * list widget) unit :=
  fun s =>
    match session_state s !! "report_data" with
    | None => (Raise "'report_data'", s)
    | Some (VReport d) =>
        if Sheet2.truthy (VReport d)
        then (render_all (map fst d) ;; assemble_report) s
        else (Ok tt, s)
    | Some (VStr text) =>
        if Sheet2.truthy (VStr text)
        then (Raise "'str' object has no attribute 'keys'", s)
        else (Ok tt, s)
    | Some VNone => (Ok tt, s)
    end.

End Page.

Definition is_heading (w : widget) : bool :=
  match w with
  | subheader _ | markdown _ => true
  | _ => false
  end.

Definition is_shown_image (w : widget) : bool :=
  match w with st_image _ => true | _ => false end.

Definition is_page_error (w : widget) : bool :=
  match w with page_error _ => true | _ => false end.

(** The heading and the insight the section shows for a metric. *)
Definition heading (metric text : string) : list widget :=
  [subheader ("🧠 Insight for " ++ metric); markdown text].

(** The insight a report holds for a metric. *)
Definition insight_in (d : list (string * report_entry)) (metric : string)
  : string :=
  match dict_find d metric with
  | Some e => insight e
  | None => ""
  end.

(** How the section leaves the entry of a metric: the insight is kept,
    the style is the one chosen, and the chart path is the chart of this
    run or, after a failure, the path that was stored. *)
Definition rendered (choice : string -> string) (metric : string)
    (before after : report_entry) : Prop :=
  insight after = insight before /\
  chart_type after = choice metric /\
  (chart_path after = Some (chart_file metric) \/
   chart_path after = chart_path before).

(** What the section shows for one metric and what it stores: the
    heading and the insight, the select box at the stored style, the new
    figure, and then either the chart (drawn, laid out, saved, shown,
    closed), whose path is stored, or, where drawing, layout or saving
    failed with [e], the message of that failure, the stored path being
    kept.  The insight is kept and the style is the one chosen. *)
Definition metric_block {W} (lib : Libraries W) (df : Sheet2.DataFrame)
    (choice : string -> string) (metric : string)
    (before after : report_entry) (block : list widget) : Prop :=
  insight after = insight before /\
  chart_type after = choice metric /\
  exists index,
    index_of (chart_type before) chart_styles = Some index /\
    let top :=
      (heading metric (insight before) ++
       [ selectbox ("Choose chart type for " ++ metric ++ ":") chart_styles
           ("chart_select_" ++ metric) index (choice metric);
         plt_subplots ])%list in
    let drawn := Sheet2.render_chart df (plot lib) metric (choice metric) [] in
    ((exists ax,
        drawn = (Ok tt, ax) /\
        block = (top ++ [ plt_tight_layout (Ok tt);
                          plt_savefig (chart_file metric) ax (Ok tt);
                          st_image (chart_file metric);
                          plt_close ])%list /\
        chart_path after = Some (chart_file metric)) \/
     (exists e steps,
        block = (top ++ steps
                   ++ [page_error ("Chart generation failed for " ++ metric
                                     ++ ": " ++ e)])%list /\
        chart_path after = chart_path before /\
        ((fst drawn = Raise e /\ steps = []) \/
         (exists ax,
            drawn = (Ok tt, ax) /\
            (steps = [plt_tight_layout (Raise e)] \/
             steps = [ plt_tight_layout (Ok tt);
                       plt_savefig (chart_file metric) ax (Raise e) ]))))).

End ReportPage.

(** ** The podcast buttons of sheet 1 *)

Module Podcast.

(** What [st.audio] is given. *)
Inductive player : Type :=
| st_audio (data format : string).

(** The collaborators of a handler that also plays audio: the world is
    paired with what was played, which no collaborator touches. *)
Definition with_player {W} (ext : External W) : External (W * list player) :=
  let keep {A} (call : W -> result A * W) (wp : W * list player) :=
    let '(r, w) := call (fst wp) in (r, (w, snd wp)) in
  {| agent_run := fun model prompt => keep (agent_run ext model prompt);
     gtts_save := fun text filename => keep (gtts_save ext text filename);
     file_write := fun path data => keep (file_write ext path data);
     file_read := fun path => keep (file_read ext path);
     fpdf_output := fun lines filename => keep (fpdf_output ext lines filename);
     smtp_step := fun op => keep (smtp_step ext op);
     today := fun wp => today ext (fst wp);
     parse_int := parse_int ext;
     basename := basename ext;
     py_repr := py_repr ext |}.

Section Handlers.
Context {W : Type}.
Variable ext : External W.

(** [str] of a stored dict: the text Python prints for it. *)
Variable repr_report : list (string * report_entry) -> string.

(** [f"{v}"] for a stored object. *)
Definition py_str (v : sval) : string :=
  match v with
  | VStr s => s
  | VNone => "None"
  | VReport d => repr_report d
  end.

(** [st.audio(data, format="audio/mp3")]. *)
Definition play (data : string) : M (W := W * list player) unit :=
  fun s =>
    (Ok tt,
     Build_state (fst (world s), (snd (world s) ++ [st_audio data "audio/mp3"])%list)
                 (trace s) (session_state s)).

(** [st.session_state[k]] inside an f-string. *)
Definition session_str (k : string) : M (W := W * list player) string :=
  fun s =>
    match session_state s !! k with
    | Some v => (Ok (py_str v), s)
    | None => (Raise (py_repr ext k), s)
    end.

(** The "Generate Podcast" button; it is on the page only while
    "last_insight" is in the session state. *)
Definition generate_podcast_handler : M (W := W * list player) unit :=
  fun s =>
    match session_state s !! "last_insight" with
    | None => (Ok tt, s)
    | Some _ =>
        try_except
          (last_insight <- session_str "last_insight" ;;
           podcast_text <- Sheet1.run_agent_on_prompt (with_player ext)
             ("Convert this into a 60-second podcast summary:" ++ nl ++ nl
                ++ last_insight) "gpt-4" ;;
           audio_file <- Sheet1.text_to_speech (with_player ext) podcast_text
                           "podcast_individual.mp3" ;;
           data <- external (file_read (with_player ext) audio_file)
                            (FileRead audio_file) ;;
           play data ;;
           st (st_success "🎧 Podcast ready."))
          (fun e => st (st_error ("Podcast error: " ++ e))) s
    end.

(** The "Generate Full Podcast" button; it is on the page only while
    "all_insights" is in the session state. *)
Definition generate_full_podcast_handler : M (W := W * list player) unit :=
  fun s =>
    match session_state s !! "all_insights" with
    | None => (Ok tt, s)
    | Some _ =>
        try_except
          (all_insights <- session_str "all_insights" ;;
           podcast_text <- Sheet1.run_agent_on_prompt (with_player ext)
             ("Summarize all these insights into a 2-minute podcast:" ++ nl ++ nl
                ++ all_insights) "gpt-4" ;;
           podcast_path <- Sheet1.text_to_speech (with_player ext) podcast_text
                             "full_podcast.mp3" ;;
           data <- external (file_read (with_player ext) podcast_path)
                            (FileRead podcast_path) ;;
           play data ;;
           st (st_success "✅ Podcast ready."))
          (fun e => st (st_error ("Podcast error: " ++ e))) s
    end.

End Handlers.

(** What a podcast button does with the object [v] stored under its
    key: it ends normally and leaves the session state alone.  Either
    every step works: the accurate tier is asked for a script of [v], the
    script is synthesized into [filename], that file is read, what was
    read is played as mp3, once, and the success message is shown; or the
    first step that fails, with [e], is the last one taken, "Podcast
    error: e" is shown and nothing is played. *)
Definition outcome {W} (repr_report : list (string * report_entry) -> string)
    (intro filename success : string) (v : sval)
    (s : state (W * list player))
    (out : result unit * state (W * list player)) : Prop :=
  fst out = Ok tt /\
  session_state (snd out) = session_state s /\
  exists evs played,
    trace (snd out) = (trace s ++ evs)%list /\
    snd (world (snd out)) = (snd (world s) ++ played)%list /\
    let prompt := intro ++ nl ++ nl ++ py_str repr_report v in
    ((exists script data,
        evs = [ AgentRun "gpt-4" prompt (Ok script);
                Speech script filename (Ok tt);
                FileRead filename (Ok data);
                UI (st_success success) ] /\
        played = [st_audio data "audio/mp3"]) \/
     (exists e steps,
        evs = (steps ++ [UI (st_error ("Podcast error: " ++ e))])%list /\
        played = [] /\
        (steps = [AgentRun "gpt-4" prompt (Raise e)] \/
         (exists script,
            steps = [ AgentRun "gpt-4" prompt (Ok script);
                      Speech script filename (Raise e) ]) \/
         (exists script,
            steps = [ AgentRun "gpt-4" prompt (Ok script);
                      Speech script filename (Ok tt);
                      FileRead filename (Raise e) ])))).

End Podcast.

(** ** A small table for concrete runs *)

Module Samples.

Definition record (course : string) (registered completed : option (Z * Z))
  : Sheet2.CourseRecord :=
  let stamp := option_map (fun ym => Pandas.Build_Timestamp (fst ym) (snd ym) 1) in
  {| Sheet2.Platform := Some "Coursera";
     Sheet2.Employee_Role := Some "Engineer";
     Sheet2.Main_Organization_Unit := None;
     Sheet2.Course_Name := Some course;
     Sheet2.Course_Completion_Date := stamp completed;
     Sheet2.Registration_Date := stamp registered |}.

(** Four completions in January 2024, one in March 2024, two in January
    2025 and one open row. *)
Definition learners : Sheet2.DataFrame :=
  [ record "Python Basics" (Some (2023, 12)) (Some (2024, 1));
    record "Python Basics" (Some (2023, 12)) (Some (2024, 1));
    record "SQL" (Some (2024, 1)) (Some (2024, 3));
    record "Python Basics" (Some (2024, 1)) (Some (2024, 1));
    record "SQL" None (Some (2024, 1));
    record "Statistics" (Some (2024, 11)) (Some (2025, 1));
    record "SQL" (Some (2024, 12)) (Some (2025, 1));
    record "Statistics" (Some (2025, 1)) None ]%Z.

(** Plotting and PDF libraries over the list of files written so far:
    saving the chart of "Number of completions" fails, all else works. *)
Definition studio : ReportPage.Libraries (list string) :=
  {| ReportPage.plot := fun _ => Ok tt;
     ReportPage.repr := fun x => "'" ++ x ++ "'";
     ReportPage.tight_layout := fun files => (Ok tt, files);
     ReportPage.savefig := fun path _ files =>
       if String.eqb path "chart_Number_of_completions.png"
       then (Raise "disk full", files)
       else (Ok tt, path :: files);
     ReportPage.path_exists := fun files path => existsb (String.eqb path) files;
     ReportPage.pdf_write := fun _ files => (Ok tt, "final_report.pdf" :: files);
     ReportPage.open_rb := fun _ files => (Ok tt, files) |}.

Definition two_metrics : list (string * report_entry) :=
  [ ("Currently Enrolled", bar_entry "One learner is still enrolled.");
    ("Number of completions", bar_entry "January is the busiest month.") ].

(** A page with a report for two metrics and nothing shown yet. *)
Definition page_start : state (list string * list ReportPage.widget) :=
  Build_state ([], []) []
    (<["report_data" := VReport two_metrics]> (<["final_pdf" := VNone]> ∅)).

(** Every select box is set to "Line". *)
Definition all_lines (metric : string) : string := "Line".

End Samples.

(** ** Strings and the monad *)

Lemma append_nil_r (s : string) : s ++ "" = s.
Proof.
  induction s as [|a s IH]; [reflexivity|].
  change (String a (s ++ "") = String a s). now rewrite IH.
Qed.

Lemma append_assoc (s1 s2 s3 : string) : (s1 ++ s2) ++ s3 = s1 ++ (s2 ++ s3).
Proof.
  induction s1 as [|a s1 IH]; [reflexivity|].
  change (String a ((s1 ++ s2) ++ s3) = String a (s1 ++ (s2 ++ s3))).
  now rewrite IH.
Qed.

Lemma state_eta {W} (s : state W) :
  Build_state (world s) (trace s) (session_state s) = s.
Proof. now destruct s. Qed.

(** ** The catalog loop *)

Section Batch.
Context {W : Type}.
Variable ext : External W.

(** One pass over [items]: it never raises, asks the agent once per item,
    in order, and appends one entry per item to the summary. *)
Lemma insights_loop_spec (items : list (string * string)) :
  forall (acc : string) (s : state W),
  exists (outcomes : list (result string)) (w' : W),
    List.length outcomes = List.length items /\
    Claims.answers ext "gpt-3.5-turbo" (world s)
      (map (fun item => Sheet1.insight_prompt (snd item)) items) outcomes w' /\
    Sheet1.insights_loop ext items acc s =
      (Ok (acc ++ Claims.render_entries (Claims.entries items outcomes)),
       Build_state w' (trace s ++ Claims.batch_events items outcomes)
                   (session_state s)).
Proof.
  induction items as [|[label text] items IH]; intros acc s.
  - exists [], (world s). repeat split.
    + constructor.
    + simpl. unfold ret. now rewrite append_nil_r, app_nil_r, state_eta.
  - simpl.
    destruct (agent_run ext "gpt-3.5-turbo" (Sheet1.insight_prompt text) (world s))
      as [r w1] eqn:Hrun.
    set (s1 := Build_state w1
                 (trace s ++ [AgentRun "gpt-3.5-turbo" (Sheet1.insight_prompt text) r])
                 (session_state s)).
    destruct (IH (acc ++ Sheet1.summary_entry label (Claims.entry_text r)) s1)
      as (outcomes & w' & Hlen & Hans & Hloop).
    exists (r :: outcomes), w'. repeat split.
    + simpl. now rewrite Hlen.
    + econstructor; eassumption.
    + unfold bind, try_except, Sheet1.run_agent_on_prompt, external at 1.
      rewrite Hrun. fold s1.
      destruct r as [answer|e]; simpl in *; unfold ret;
        [|change (Sheet1.skipped e) with (Claims.placeholder e)];
        rewrite Hloop; simpl; rewrite append_assoc, <- app_assoc;
        reflexivity.
Qed.

End Batch.

(** ** Traces only grow *)

Section Grows.
Context {W : Type}.

Lemma grows_ret {A} (a : A) : grows (W:=W) (ret a).
Proof. intros s. exists []. simpl. now rewrite app_nil_r. Qed.

Lemma grows_raise {A} (e : string) : grows (W:=W) (raise (A:=A) e).
Proof. intros s. exists []. simpl. now rewrite app_nil_r. Qed.

Lemma grows_lift {A} (r : result A) : grows (W:=W) (lift r).
Proof. intros s. exists []. simpl. now rewrite app_nil_r. Qed.

Lemma grows_log (ev : event) : grows (W:=W) (log ev).
Proof. intros s. now exists [ev]. Qed.

Lemma grows_st (c : st_call) : grows (W:=W) (st c).
Proof. apply grows_log. Qed.

Lemma grows_session_set (k : string) (v : sval) : grows (W:=W) (session_set k v).
Proof. intros s. exists []. simpl. now rewrite app_nil_r. Qed.

Lemma grows_external {A} (call : W -> result A * W) (ev : result A -> event) :
  grows (external call ev).
Proof.
  intros s. unfold external. destruct (call (world s)) as [r w].
  now exists [ev r].
Qed.

Lemma grows_bind {A B} (m : M (W:=W) A) (k : A -> M (W:=W) B) :
  grows m -> (forall a, grows (k a)) -> grows (bind m k).
Proof.
  intros Hm Hk s. unfold bind. destruct (Hm s) as [t1 H1].
  destruct (m s) as [[a|e] s1]; simpl in *.
  - destruct (Hk a s1) as [t2 H2]. exists (t1 ++ t2)%list.
    now rewrite H2, H1, app_assoc.
  - now exists t1.
Qed.

Lemma grows_try_except {A} (body : M (W:=W) A) (handler : string -> M (W:=W) A) :
  grows body -> (forall e, grows (handler e)) -> grows (try_except body handler).
Proof.
  intros Hm Hk s. unfold try_except. destruct (Hm s) as [t1 H1].
  destruct (body s) as [[a|e] s1]; simpl in *.
  - now exists t1.
  - destruct (Hk e s1) as [t2 H2]. exists (t1 ++ t2)%list.
    now rewrite H2, H1, app_assoc.
Qed.

Lemma grows_with_exit {A} (body : M (W:=W) A) (exit : M (W:=W) unit) :
  grows body -> grows exit -> grows (with_exit body exit).
Proof.
  intros Hm Hx s. unfold with_exit. destruct (Hm s) as [t1 H1].
  destruct (body s) as [[a|e] s1]; simpl in *;
    destruct (Hx s1) as [t2 H2]; exists (t1 ++ t2)%list;
    destruct (exit s1) as [[u|e2] s2]; simpl in *;
    now rewrite H2, H1, app_assoc.
Qed.

End Grows.

Ltac grows_step :=
  match goal with
  | |- grows (bind _ _) => apply grows_bind; [|intro]
  | |- grows (try_except _ _) => apply grows_try_except; [|intro]
  | |- grows (with_exit _ _) => apply grows_with_exit
  | |- grows (external _ _) => apply grows_external
  | |- grows (st _) => apply grows_st
  | |- grows (log _) => apply grows_log
  | |- grows (sleep _) => apply grows_log
  | |- grows (ret _) => apply grows_ret
  | |- grows (raise _) => apply grows_raise
  | |- grows (lift _) => apply grows_lift
  | |- grows (session_set _ _) => apply grows_session_set
  | |- grows (match ?x with _ => _ end) => destruct x
  end.

Ltac grows_auto := repeat grows_step.

Section BatchHandlers.
Context {W : Type}.
Variable ext : External W.
Variable environ : gmap string string.

Lemma grows_send_email_with_attachments subject body audio_path pdf_path :
  grows (Sheet1.send_email_with_attachments ext environ subject body
           audio_path pdf_path).
Proof.
  unfold Sheet1.send_email_with_attachments,
    Sheet1.send_email_with_attachments_body, Mail.smtp_session,
    Mail.attach_file.
  grows_auto.
Qed.

Lemma try_except_bind_ok {A B} (m : M A) (k : A -> M B) (h : string -> M B)
    (s s1 : state W) (a : A) :
  m s = (Ok a, s1) -> try_except (bind m k) h s = try_except (k a) h s1.
Proof. intros H. unfold try_except, bind. now rewrite H. Qed.

Lemma try_except_unit_ok (m : @M W unit) (c : string -> st_call) (s : state W) :
  fst (try_except m (fun e => st (c e)) s) = Ok tt.
Proof.
  unfold try_except. destruct (m s) as [[[]|e] s1]; reflexivity.
Qed.

End BatchHandlers.

Section BatchClaim.
Context {W : Type}.
Variable ext : External W.
Variable environ : gmap string string.

Lemma entries_length items (outcomes : list (result string)) :
  List.length outcomes = List.length items ->
  List.length (entries items outcomes) = List.length items /\
  map fst (entries items outcomes) = map fst items /\
  Forall2 (fun e r => snd e = entry_text r) (entries items outcomes) outcomes.
Proof.
  revert outcomes.
  induction items as [|item items IH]; intros [|r outcomes] Hlen;
    simpl in Hlen; try discriminate.
  - repeat split. constructor.
  - injection Hlen as Hlen. destruct (IH outcomes Hlen) as (H1 & H2 & H3).
    unfold entries in *. simpl. repeat split.
    + now rewrite H1.
    + now rewrite H2.
    + now constructor.
Qed.

(** C1. Batch generation over the catalog ("Generate All" and the loop of
    the daily mail) yields one entry per catalog item, in catalog order:
    there are eleven outcomes of the agent, asked in catalog order on the
    cheap tier; entry i carries label i and the agent's answer, or the
    text "[⚠️ Skipped due to error: e]" when call i failed with e; the
    summary is, entry after entry, two line feeds, "### " and the label,
    a line feed, the entry's text and a line feed; the handler ends
    normally with this summary shown and stored, and the daily job
    writes that same summary whatever happens after the loop. *)
Theorem batch_one_entry_per_catalog_item (s : state W) :
  exists (outcomes : list (result string)) (w' : W),
    let es := entries Sheet1.insight_options outcomes in
    let full_summary := render_entries es in
    List.length outcomes = 11 /\
    List.length es = 11 /\
    map fst es = map fst Sheet1.insight_options /\
    Forall2 (fun e r => match r with
                        | Ok answer => snd e = answer
                        | Raise err =>
                            snd e = "[⚠️ Skipped due to error: " ++ err ++ "]"
                        end) es outcomes /\
    full_summary =
      fold_right (fun e rest =>
                    (nl ++ nl ++ "### " ++ fst e ++ nl ++ snd e ++ nl) ++ rest)
                 "" es /\
    answers ext "gpt-3.5-turbo" (world s)
      (map (fun item => Sheet1.insight_prompt (snd item)) Sheet1.insight_options)
      outcomes w' /\
    Sheet1.generate_all_handler ext s =
      (Ok tt,
       Build_state w'
         (trace s ++ batch_events Sheet1.insight_options outcomes
            ++ [ UI (st_text_area "📋 All Insights" full_summary 500);
                 UI (st_download_button "📥 Download All" full_summary
                       "All_Insights.txt") ])
         (<["all_insights" := VStr full_summary]> (session_state s))) /\
    fst (Sheet1.daily_auto_email ext environ s) = Ok tt /\
    exists (written : result unit) (tail : list event),
      trace (snd (Sheet1.daily_auto_email ext environ s)) =
        (trace s ++ batch_events Sheet1.insight_options outcomes
           ++ FileWrite "auto_insights.txt" full_summary written :: tail)%list.
Proof.
  destruct (insights_loop_spec ext Sheet1.insight_options "" s)
    as (outcomes & w' & Hlen & Hans & Hloop).
  destruct (entries_length Sheet1.insight_options outcomes Hlen)
    as (Hes & Hfst & Hsnd).
  exists outcomes, w'. cbv zeta.
  change ("" ++ render_entries (entries Sheet1.insight_options outcomes))
    with (render_entries (entries Sheet1.insight_options outcomes)) in Hloop.
  split; [exact Hlen|]. split; [exact Hes|]. split; [exact Hfst|].
  split.
  { eapply Forall2_impl; [exact Hsnd|].
    intros e [answer|err] He; exact He. }
  split; [reflexivity|].
  split; [exact Hans|]. split.
  { unfold Sheet1.generate_all_handler, try_except, bind at 1.
    rewrite Hloop. unfold bind, st, log, session_set. simpl.
    now rewrite <- !app_assoc. }
  split; [apply try_except_unit_ok|].
  unfold Sheet1.daily_auto_email.
  rewrite (try_except_bind_ok _ _ _ _ _ _ Hloop).
  match goal with
  | |- context [try_except (bind (external ?c ?ev) ?k) ?h ?st1] =>
      set (s1 := st1); set (k0 := k); set (h0 := h);
      destruct (c (world s1)) as [written w2] eqn:Hw;
      set (s2 := Build_state w2 (trace s1 ++ [ev written]) (session_state s1));
      assert (Hext : external c ev s1 = (written, s2))
        by (unfold external; now rewrite Hw)
  end.
  exists written.
  assert (Hgrow : exists tail,
             trace (snd (try_except (bind (external
               (file_write ext "auto_insights.txt"
                  (render_entries (entries Sheet1.insight_options outcomes)))
               (FileWrite "auto_insights.txt"
                  (render_entries (entries Sheet1.insight_options outcomes))))
               k0) h0 s1)) = (trace s2 ++ tail)%list).
  { destruct written as [[]|e].
    - rewrite (try_except_bind_ok _ _ _ _ _ _ Hext).
      assert (Hg : grows (try_except (k0 tt) h0)).
      { subst k0 h0. unfold Sheet1.run_agent_on_prompt, Sheet1.text_to_speech,
          Sheet1.generate_pdf_from_text.
        grows_auto; try apply grows_send_email_with_attachments.
        intros s0. exists []. simpl. now rewrite app_nil_r. }
      apply Hg.
    - unfold try_except, bind. rewrite Hext. subst h0.
      eexists. reflexivity. }
  destruct Hgrow as [tail Htail]. exists tail.
  rewrite Htail. subst s2 s1. simpl. now rewrite <- !app_assoc.
Qed.

End BatchClaim.

(** ** The retry of the question handler *)

Section Retry.
Context {W : Type}.
Variable ext : External W.

Lemma agent_calls_app (t1 t2 : list event) :
  agent_calls (t1 ++ t2) = agent_calls t1 + agent_calls t2.
Proof. unfold agent_calls. now rewrite List.filter_app, length_app. Qed.

(** C2. A call through the query adapter is retried at most once, and
    only after a failure whose text contains "Rate limit": a first answer
    is returned with no second call; a failure without the signature
    propagates with no second call; a failure with it is followed by a
    warning, a wait of 20 and one resubmission of the same prompt, whose
    outcome, failure included, is the outcome of the call.  The adapter
    [run_agent_on_prompt] itself submits once and never retries. *)
Theorem retry_at_most_once_on_rate_limit (prompt : string) (s : state W) :
  let first := agent_run ext "gpt-4" prompt (world s) in
  let second := agent_run ext "gpt-4" prompt (snd first) in
  Sheet1.ask_with_retry ext prompt s =
    match fst first with
    | Ok answer =>
        (Ok answer,
         Build_state (snd first)
           (trace s ++ [AgentRun "gpt-4" prompt (fst first)]) (session_state s))
    | Raise e =>
        if contains "Rate limit" e then
          (fst second,
           Build_state (snd second)
             (trace s ++ [ AgentRun "gpt-4" prompt (fst first);
                           UI (st_warning "Rate limit hit. Waiting 20 seconds...");
                           Sleep 20;
                           AgentRun "gpt-4" prompt (fst second) ])
             (session_state s))
        else
          (Raise e,
           Build_state (snd first)
             (trace s ++ [AgentRun "gpt-4" prompt (fst first)]) (session_state s))
    end /\
  agent_calls (trace (snd (Sheet1.ask_with_retry ext prompt s)))
    <= agent_calls (trace s) + 2 /\
  forall model,
    Sheet1.run_agent_on_prompt ext prompt model s =
      (fst (agent_run ext model prompt (world s)),
       Build_state (snd (agent_run ext model prompt (world s)))
         (trace s ++ [AgentRun model prompt (fst (agent_run ext model prompt (world s)))])
         (session_state s)).
Proof.
  cbv zeta.
  assert (Hrun : forall model (s0 : state W),
             Sheet1.run_agent_on_prompt ext prompt model s0 =
               (fst (agent_run ext model prompt (world s0)),
                Build_state (snd (agent_run ext model prompt (world s0)))
                  (trace s0 ++ [AgentRun model prompt
                                  (fst (agent_run ext model prompt (world s0)))])
                  (session_state s0))).
  { intros model s0. unfold Sheet1.run_agent_on_prompt, external.
    now destruct (agent_run ext model prompt (world s0)). }
  assert (Hmain : Sheet1.ask_with_retry ext prompt s =
    match fst (agent_run ext "gpt-4" prompt (world s)) with
    | Ok answer =>
        (Ok answer,
         Build_state (snd (agent_run ext "gpt-4" prompt (world s)))
           (trace s ++ [AgentRun "gpt-4" prompt
                          (fst (agent_run ext "gpt-4" prompt (world s)))])
           (session_state s))
    | Raise e =>
        if contains "Rate limit" e then
          (fst (agent_run ext "gpt-4" prompt
                  (snd (agent_run ext "gpt-4" prompt (world s)))),
           Build_state
             (snd (agent_run ext "gpt-4" prompt
                     (snd (agent_run ext "gpt-4" prompt (world s)))))
             (trace s ++ [ AgentRun "gpt-4" prompt
                             (fst (agent_run ext "gpt-4" prompt (world s)));
                           UI (st_warning "Rate limit hit. Waiting 20 seconds...");
                           Sleep 20;
                           AgentRun "gpt-4" prompt
                             (fst (agent_run ext "gpt-4" prompt
                                     (snd (agent_run ext "gpt-4" prompt (world s))))) ])
             (session_state s))
        else
          (Raise e,
           Build_state (snd (agent_run ext "gpt-4" prompt (world s)))
             (trace s ++ [AgentRun "gpt-4" prompt
                            (fst (agent_run ext "gpt-4" prompt (world s)))])
             (session_state s))
    end).
  { unfold Sheet1.ask_with_retry, try_except. rewrite Hrun.
    destruct (agent_run ext "gpt-4" prompt (world s)) as [[answer|e] w1];
      cbn [fst snd]; [reflexivity|].
    destruct (contains "Rate limit" e); [|reflexivity].
    unfold bind, st, sleep, log. cbn [fst snd world trace session_state].
    rewrite Hrun. cbn [world trace session_state].
    now rewrite <- !app_assoc. }
  split; [exact Hmain|]. split; [|intros model; apply Hrun].
  rewrite Hmain.
  destruct (fst (agent_run ext "gpt-4" prompt (world s))) as [answer|e];
    [|destruct (contains "Rate limit" e)];
    cbn [snd trace]; rewrite agent_calls_app; cbn; lia.
Qed.

End Retry.

(** ** Failures of the agent in the handlers *)

Section Failures.
Context {W : Type}.
Variable ext : External W.

(** Sheet 1 catches a failure of the agent in the handler: the message
    is shown and the session state is the one before the click. *)
Lemma generate_insight_failure_is_inline
    (label text e : string) (w1 : W) (s : state W) :
  dict_find Sheet1.insight_options label = Some text ->
  agent_run ext "gpt-4" (Sheet1.insight_prompt text) (world s) = (Raise e, w1) ->
  Sheet1.generate_insight_handler ext label s =
    (Ok tt,
     Build_state w1
       (trace s ++ [ UI (st_info "Generating insight with GPT-4...");
                     AgentRun "gpt-4" (Sheet1.insight_prompt text) (Raise e);
                     UI (st_error ("Error: " ++ e)) ])
       (session_state s)).
Proof.
  intros Hfind Hrun.
  unfold Sheet1.generate_insight_handler, bind, st, log, try_except, lift,
    dict_get, Sheet1.run_agent_on_prompt, external.
  rewrite Hfind. cbn [world trace session_state]. rewrite Hrun.
  cbn [world trace session_state]. now rewrite <- !app_assoc.
Qed.

Lemma ask_ai_failure_is_inline (user_q e : string) (w1 : W) (s : state W) :
  user_q <> "" ->
  contains "Rate limit" e = false ->
  agent_run ext "gpt-4" (Sheet1.question_prompt user_q) (world s) = (Raise e, w1) ->
  Sheet1.ask_ai_handler ext user_q s =
    (Ok tt,
     Build_state w1
       (trace s ++ [ UI (st_info "Using GPT-4...");
                     AgentRun "gpt-4" (Sheet1.question_prompt user_q) (Raise e);
                     UI (st_error ("Smart Q&A Error: " ++ e)) ])
       (session_state s)).
Proof.
  intros Hq Hsig Hrun.
  unfold Sheet1.ask_ai_handler. apply String.eqb_neq in Hq. rewrite Hq.
  unfold Sheet1.ask_with_retry, bind, st, log, try_except,
    Sheet1.run_agent_on_prompt, external.
  cbn [world trace session_state]. rewrite Hrun, Hsig.
  unfold raise. cbn [world trace session_state]. now rewrite <- !app_assoc.
Qed.

End Failures.

(** C3. On sheet 2 the "Generate Insights & Charts" handler calls the
    agent outside any [try]: with the first four metrics selected, a
    session that holds a report, and an agent that fails with
    "Connection error.", the exception leaves the handler, no error
    message is emitted, and the report stored before the click is gone. *)
Theorem report_handler_failure_escapes :
  let s0 := Stub.start [Raise "Connection error."] Stub.session_with_report in
  let out := Sheet2.generate_insights_charts_handler Stub.friendly
               (firstn 4 Sheet2.metrics) "" s0 in
  fst out = Raise "Connection error." /\
  List.filter is_st_error (trace (snd out)) = [] /\
  session_state s0 !! "report_data" =
    Some (VReport [("Currently Enrolled",
                    {| insight := "Enrollment is steady.";
                       chart_type := "Line";
                       chart_path := Some "chart_Currently_Enrolled.png" |})]) /\
  session_state (snd out) !! "report_data" = Some (VReport []).
Proof. vm_compute. repeat split. Qed.

(** ** The renderer *)

Section RendererFacts.
Variable df : Sheet2.DataFrame.
Variable plotting : Sheet2.draw -> result unit.

(** C4. For the registered-versus-completed monthly trend the renderer
    does the same for every chart style: it plots the two monthly count
    series as two labelled lines with a legend, and the style it was
    asked for plays no part. *)
Theorem dual_series_ignores_style (style1 style2 : string) (ax : list Sheet2.draw) :
  Sheet2.render_chart df plotting
    "Number of employees registered vs completed (monthly trend)" style1 ax =
  Sheet2.render_chart df plotting
    "Number of employees registered vs completed (monthly trend)" style2 ax /\
  Sheet2.render_chart df plotting
    "Number of employees registered vs completed (monthly trend)" style1 ax =
  (Ok tt,
   ax ++ [ Sheet2.ax_plot
             (map (fun kv => Pandas.period_str (fst kv)) (Sheet2.registered_monthly df))
             (map snd (Sheet2.registered_monthly df)) "Registered";
           Sheet2.ax_plot
             (map (fun kv => Pandas.period_str (fst kv)) (Sheet2.month_counts df))
             (map snd (Sheet2.month_counts df)) "Completed";
           Sheet2.ax_legend ])%list.
Proof. split; reflexivity. Qed.

Lemma eqb_outside (metric name : string) :
  ~ In metric Sheet2.metrics -> In name Sheet2.metrics ->
  String.eqb metric name = false.
Proof.
  intros Hout Hin. apply String.eqb_neq. intros ->. now apply Hout.
Qed.

Lemma render_chart_outside (metric style : string) (ax : list Sheet2.draw) :
  ~ In metric Sheet2.metrics ->
  Sheet2.render_chart df plotting metric style ax =
  Sheet2.draw_data plotting None metric style ax.
Proof.
  intros Hout. unfold Sheet2.render_chart.
  rewrite !(eqb_outside metric) by (assumption || (simpl; tauto)).
  reflexivity.
Qed.

(** For a metric name outside the metric list no series is computed, and
    what follows depends on the chart style alone: for "Bar", "Line" and
    "Pie" the renderer raises on the unassigned [data] with the axes
    untouched; for "Table" it first turns the axes off and then raises;
    for any other style it returns and leaves the axes as they were. *)
Lemma render_outside_by_style (metric style : string) (ax : list Sheet2.draw) :
  ~ In metric Sheet2.metrics ->
  Sheet2.render_chart df plotting metric style ax =
    if bool_decide (In style ["Bar"; "Line"; "Pie"]) then
      (Raise Sheet2.unbound_data, ax)
    else if String.eqb style "Table" then
      (Raise Sheet2.unbound_data, (ax ++ [Sheet2.ax_axis "off"])%list)
    else (Ok tt, ax).
Proof.
  intros Hout. rewrite (render_chart_outside _ _ _ Hout).
  unfold Sheet2.draw_data.
  destruct (String.eqb_spec style "Bar") as [->|Hbar]; [reflexivity|].
  destruct (String.eqb_spec style "Line") as [->|Hline]; [reflexivity|].
  destruct (String.eqb_spec style "Pie") as [->|Hpie]; [reflexivity|].
  rewrite bool_decide_eq_false_2; [reflexivity|].
  simpl. intuition congruence.
Qed.

(** C10. The renderer is total only on the metric list: for a metric name
    outside the nine names and any of the four chart styles of the select
    box, it raises the [UnboundLocalError] of [data], for which no series
    was computed, whatever the table holds and whatever the plotting
    library would answer, and nothing is plotted: with "Bar", "Line" and
    "Pie" the axes are left as they were, with "Table" they are only
    turned off before the failure. *)
Theorem render_outside_metric_list (metric style : string) (ax : list Sheet2.draw) :
  ~ In metric Sheet2.metrics ->
  In style ["Bar"; "Line"; "Pie"; "Table"] ->
  Sheet2.render_chart df plotting metric style ax =
    (Raise Sheet2.unbound_data,
     if String.eqb style "Table" then (ax ++ [Sheet2.ax_axis "off"])%list
     else ax).
Proof.
  intros Hout Hstyle. rewrite (render_outside_by_style _ _ _ Hout).
  simpl in Hstyle.
  destruct Hstyle as [<-|[<-|[<-|[<-|[]]]]]; reflexivity.
Qed.

End RendererFacts.

Lemma render_outside_metric_list_witness :
  ~ In "Completion by Region" Sheet2.metrics /\
  In "Table" ["Bar"; "Line"; "Pie"; "Table"] /\
  Sheet2.render_chart Stub.one_enrolled Stub.draws "Completion by Region"
    "Table" [] =
    (Raise Sheet2.unbound_data, [Sheet2.ax_axis "off"]).
Proof.
  assert (Hout : ~ In "Completion by Region" Sheet2.metrics).
  { simpl. intuition discriminate. }
  assert (Hstyle : In "Table" ["Bar"; "Line"; "Pie"; "Table"]).
  { simpl. tauto. }
  split; [exact Hout|]. split; [exact Hstyle|].
  rewrite (render_outside_metric_list Stub.one_enrolled Stub.draws
             "Completion by Region" "Table" [] Hout Hstyle).
  reflexivity.
Defined.

(** ** Counting and selecting with pandas *)

Section PandasFacts.
Context {K : Type} `{EqDecision K}.
Import Pandas.

Lemma value_of_bump (k k' : K) (s : Series K) :
  value_of k' (bump k s) =
    (value_of k' s + (if decide (k = k') then 1 else 0))%Z.
Proof.
  induction s as [|[k0 n] s IH]; simpl.
  - repeat case_decide; simplify_eq; lia.
  - repeat (case_decide; simpl; simplify_eq); try lia; try congruence.
Qed.

Lemma keys_bump_old (k : K) (s : Series K) :
  In k (map fst s) -> map fst (bump k s) = map fst s.
Proof.
  induction s as [|[k0 n] s IH]; simpl; [tauto|].
  intros Hin. case_decide; simpl; [reflexivity|].
  rewrite IH; [reflexivity | intuition congruence].
Qed.

Lemma keys_bump_new (k : K) (s : Series K) :
  ~ In k (map fst s) -> map fst (bump k s) = (map fst s ++ [k])%list.
Proof.
  induction s as [|[k0 n] s IH]; simpl; [reflexivity|].
  intros Hout. case_decide; simpl; [exfalso; auto|].
  rewrite IH; [reflexivity | auto].
Qed.

Lemma NoDup_keys_bump (k : K) (s : Series K) :
  List.NoDup (map fst s) -> List.NoDup (map fst (bump k s)).
Proof.
  intros Hnd.
  destruct (in_dec (fun x y => decide (x = y)) k (map fst s)) as [Hin|Hout].
  - now rewrite keys_bump_old.
  - rewrite keys_bump_new by assumption.
    apply NoDup_ListNoDup, NoDup_app. rewrite !NoDup_ListNoDup.
    repeat split; [assumption| |repeat constructor; simpl; tauto].
    intros x Hx Hk. apply list_elem_of_In in Hx.
    apply list_elem_of_singleton in Hk. congruence.
Qed.

Lemma positive_bump (k : K) (s : Series K) :
  Forall (fun kv => (0 < snd kv)%Z) s ->
  Forall (fun kv => (0 < snd kv)%Z) (bump k s).
Proof.
  induction 1 as [|[k0 n] s Hn Hs IH]; simpl.
  - repeat constructor.
  - case_decide; constructor; simpl in *; try assumption; lia.
Qed.

Lemma value_of_absent (k : K) (s : Series K) :
  ~ In k (map fst s) -> value_of k s = 0%Z.
Proof.
  induction s as [|[k0 n] s IH]; simpl; [reflexivity|].
  intros Hout. case_decide; [exfalso; auto | apply IH; auto].
Qed.

Lemma value_of_In (k : K) (n : Z) (s : Series K) :
  List.NoDup (map fst s) -> In (k, n) s -> value_of k s = n.
Proof.
  induction s as [|[k0 n0] s IH]; simpl; [tauto|].
  intros Hnd [Heq|Hin].
  - injection Heq as -> ->. now rewrite decide_True.
  - inversion Hnd as [|? ? Hout Hnd']; subst.
    case_decide; [|now apply IH].
    subst. exfalso. apply Hout. now apply (in_map fst) in Hin.
Qed.

Lemma In_value_of (k : K) (s : Series K) :
  In k (map fst s) -> In (k, value_of k s) s.
Proof.
  induction s as [|[k0 n0] s IH]; simpl; [tauto|].
  intros [Heq|Hin]; case_decide; subst; tauto.
Qed.

Lemma occurrences_snoc (k k' : K) (xs : list K) :
  occurrences k' (xs ++ [k]) =
    (occurrences k' xs + (if decide (k = k') then 1 else 0))%Z.
Proof.
  unfold occurrences. rewrite List.filter_app, length_app. simpl.
  case_bool_decide; case_decide; simpl; try congruence; lia.
Qed.

Lemma tallied_fold (ys : list K) :
  forall (s : Series K) (xs : list K),
    tallied s xs ->
    tallied (fold_left (fun s k => bump k s) ys s) (xs ++ ys).
Proof.
  induction ys as [|y ys IH]; intros s xs Hs; simpl.
  - now rewrite app_nil_r.
  - replace (xs ++ y :: ys)%list with ((xs ++ [y]) ++ ys)%list
      by now rewrite <- app_assoc.
    apply IH. destruct Hs as (Hnd & Hpos & Hval). repeat split.
    + now apply NoDup_keys_bump.
    + now apply positive_bump.
    + intros k. now rewrite value_of_bump, occurrences_snoc, Hval.
Qed.

Lemma tallied_tally (xs : list K) : tallied (tally xs) xs.
Proof.
  apply (tallied_fold xs [] []). repeat split; constructor.
Qed.

Lemma tallied_In (s : Series K) (xs : list K) (k : K) (n : Z) :
  tallied s xs -> In (k, n) s <-> n = occurrences k xs /\ (0 < n)%Z.
Proof.
  intros (Hnd & Hpos & Hval). split.
  - intros Hin. split.
    + rewrite <- Hval. symmetry. now apply value_of_In.
    + rewrite List.Forall_forall in Hpos. exact (Hpos _ Hin).
  - intros [-> Hn]. rewrite <- Hval in *.
    apply In_value_of.
    destruct (in_dec (fun x y => decide (x = y)) k (map fst s)) as [Hin|Hout];
      [assumption|].
    rewrite (value_of_absent _ _ Hout) in Hn. lia.
Qed.

End PandasFacts.

Section SortingFacts.
Context {A : Type}.
Variable le : A -> A -> bool.
Import Pandas.

Lemma insert_by_perm (x : A) (l : list A) :
  Permutation (insert_by le x l) (x :: l).
Proof.
  induction l as [|y l IH]; simpl; [reflexivity|].
  destruct (le x y); [reflexivity|].
  rewrite IH. apply perm_swap.
Qed.

Lemma sort_by_perm (l : list A) : Permutation (sort_by le l) l.
Proof.
  induction l as [|x l IH]; simpl; [reflexivity|].
  unfold sort_by in *. simpl. rewrite insert_by_perm. now constructor.
Qed.

Hypothesis le_total : forall x y, le x y = true \/ le y x = true.
Hypothesis le_trans : forall x y z, le x y = true -> le y z = true -> le x z = true.

Lemma insert_by_sorted (x : A) (l : list A) :
  StronglySorted (fun a b => le a b = true) l ->
  StronglySorted (fun a b => le a b = true) (insert_by le x l).
Proof.
  induction 1 as [|y l Hsorted IH Hall]; simpl.
  - repeat constructor.
  - destruct (le x y) eqn:Hxy.
    + constructor; [now constructor|].
      constructor; [assumption|].
      rewrite List.Forall_forall in *. intros z Hz. eauto.
    + constructor; [assumption|].
      rewrite List.Forall_forall in *. intros z Hz.
      apply (Permutation_in _ (insert_by_perm x l)) in Hz.
      destruct Hz as [<-|Hz]; [|auto].
      destruct (le_total x y); congruence.
Qed.

Lemma sort_by_sorted (l : list A) :
  StronglySorted (fun a b => le a b = true) (sort_by le l).
Proof.
  induction l as [|x l IH]; [constructor|].
  unfold sort_by in *. simpl. now apply insert_by_sorted.
Qed.

Lemma sorted_firstn_skipn (R : A -> A -> Prop) (l : list A) :
  StronglySorted R l ->
  forall n x y, In x (firstn n l) -> In y (skipn n l) -> R x y.
Proof.
  induction 1 as [|z l Hsorted IH Hall]; intros [|n] x y Hx Hy;
    simpl in *; try tauto.
  destruct Hx as [<-|Hx].
  - rewrite List.Forall_forall in Hall. apply Hall.
    rewrite <- (firstn_skipn n l). apply in_or_app. now right.
  - eauto.
Qed.

(** The first [n] of a sorted permutation: a part of the list that is as
    long as it can be, and whatever is left out comes after all of it. *)
Lemma firstn_sort_by_spec (n : nat) (l : list A) :
  let top := firstn n (sort_by le l) in
  (forall x, In x top -> In x l) /\
  List.length top = Nat.min n (List.length l) /\
  (forall x, In x l ->
     In x top \/
     (List.length top = n /\ forall y, In y top -> le y x = true)).
Proof.
  cbv zeta. repeat split.
  - intros x Hx. apply (Permutation_in _ (sort_by_perm l)).
    rewrite <- (firstn_skipn n (sort_by le l)). apply in_or_app. now left.
  - rewrite length_firstn. now rewrite (Permutation_length (sort_by_perm l)).
  - intros x Hx.
    apply (Permutation_in _ (Permutation_sym (sort_by_perm l))) in Hx.
    rewrite <- (firstn_skipn n (sort_by le l)) in Hx.
    apply in_app_or in Hx. destruct Hx as [Hx|Hx]; [now left|right].
    split.
    + rewrite length_firstn. apply Nat.min_l.
      destruct (Nat.le_gt_cases n (List.length (sort_by le l))) as [Hle|Hgt];
        [assumption|].
      rewrite skipn_all2 in Hx by lia. destruct Hx.
    + intros y Hy.
      exact (sorted_firstn_skipn _ _ (sort_by_sorted l) n y x Hy Hx).
Qed.

End SortingFacts.

Section ValueCounts.
Context {K : Type} `{EqDecision K}.
Import Pandas.

Lemma by_value_desc_total (x y : K * Z) :
  by_value_desc x y = true \/ by_value_desc y x = true.
Proof. unfold by_value_desc. rewrite !Z.leb_le. lia. Qed.

Lemma by_value_desc_trans (x y z : K * Z) :
  by_value_desc x y = true -> by_value_desc y z = true ->
  by_value_desc x z = true.
Proof. unfold by_value_desc. rewrite !Z.leb_le. lia. Qed.

Lemma by_value_asc_total (x y : K * Z) :
  by_value_asc x y = true \/ by_value_asc y x = true.
Proof. unfold by_value_asc. rewrite !Z.leb_le. lia. Qed.

Lemma by_value_asc_trans (x y z : K * Z) :
  by_value_asc x y = true -> by_value_asc y z = true ->
  by_value_asc x z = true.
Proof. unfold by_value_asc. rewrite !Z.leb_le. lia. Qed.

Lemma value_counts_perm (col : list (option K)) :
  Permutation (value_counts col) (tally (dropna col)).
Proof. apply sort_by_perm. Qed.

Lemma value_counts_NoDup (col : list (option K)) :
  List.NoDup (map fst (value_counts col)).
Proof.
  eapply Permutation_NoDup.
  - apply Permutation_map, Permutation_sym, value_counts_perm.
  - apply (tallied_tally (dropna col)).
Qed.

(** [value_counts] lists each value that occurs, once, with the number
    of its occurrences. *)
Lemma value_counts_In (col : list (option K)) (k : K) (n : Z) :
  In (k, n) (value_counts col) <->
  n = occurrences k (dropna col) /\ (0 < n)%Z.
Proof.
  rewrite <- (tallied_In _ _ k n (tallied_tally (dropna col))).
  split; apply Permutation_in;
    [apply value_counts_perm | apply Permutation_sym, value_counts_perm].
Qed.

Lemma NoDup_keys_firstn (n : nat) (s : Series K) :
  List.NoDup (map fst s) -> List.NoDup (map fst (firstn n s)).
Proof.
  intros Hnd. rewrite <- (firstn_skipn n s), map_app in Hnd.
  now apply NoDup_app_remove_r in Hnd.
Qed.

(** Selecting [n] rows of [value_counts] by [le], a total order on the
    counts: distinct values with their numbers of occurrences, as many
    as there are up to [n], and no value left out goes before a chosen
    one. *)
Lemma select_value_counts (le : K * Z -> K * Z -> bool)
    (le_total : forall x y, le x y = true \/ le y x = true)
    (le_trans : forall x y z, le x y = true -> le y z = true -> le x z = true)
    (n : nat) (col : list (option K)) :
  let chosen := firstn n (sort_by le (value_counts col)) in
  List.NoDup (map fst chosen) /\
  List.length chosen = Nat.min n (List.length (value_counts col)) /\
  (forall k c, In (k, c) chosen ->
     c = occurrences k (dropna col) /\ (0 < c)%Z) /\
  (forall k, (0 < occurrences k (dropna col))%Z ->
     In k (map fst chosen) \/
     (List.length chosen = n /\
      forall k' c', In (k', c') chosen ->
        le (k', c') (k, occurrences k (dropna col)) = true)).
Proof.
  cbv zeta.
  destruct (firstn_sort_by_spec le le_total le_trans n (value_counts col))
    as (Hsub & Hlen & Hdom).
  split; [|split; [|split]].
  - apply NoDup_keys_firstn.
    eapply Permutation_NoDup;
      [apply Permutation_map, Permutation_sym, sort_by_perm|].
    apply value_counts_NoDup.
  - exact Hlen.
  - intros k c Hin. now apply value_counts_In, Hsub.
  - intros k Hk.
    destruct (Hdom (k, occurrences k (dropna col))) as [Hin|[Hfull Hall]].
    + apply value_counts_In. now split.
    + left. now apply (in_map fst) in Hin.
    + right. split; [exact Hfull|]. intros k' c' Hin'. now apply Hall.
Qed.

End ValueCounts.

Section CourseCounts.
Import Pandas.
Variable df : Sheet2.DataFrame.

Lemma rows_of_occurrences (course : string) :
  occurrences course (dropna (map Sheet2.Course_Name df)) = rows_of df course.
Proof.
  unfold occurrences, rows_of, dropna. f_equal.
  induction df as [|r rows IH]; [reflexivity|].
  cbn [map List.filter]. destruct (Sheet2.Course_Name r) as [c|] eqn:Hc.
  - cbn [omap list_omap List.filter].
    replace (bool_decide (Some c = Some course)) with (bool_decide (c = course))
      by (apply bool_decide_ext; split; congruence).
    destruct (bool_decide (c = course)); simpl; now rewrite IH.
  - cbn [omap list_omap]. rewrite bool_decide_eq_false_2 by discriminate.
    exact IH.
Qed.


End CourseCounts.

Section CourseMetrics.
Import Pandas.
Variable df : Sheet2.DataFrame.

(** What the code computes for "Top 5 courses by completion" and "Bottom
    5 courses by completion": they count, for every course name, the rows
    of the table under that name, whether or not the row has a completion
    date,
    and keep five names (all of them when there are fewer): every kept
    name appears once with its number of rows, and a name that is left
    out has at most (top) or at least (bottom) as many rows as each kept
    one. *)
Theorem top_bottom5_count_rows :
  let top := Sheet2.top5_courses df in
  let bottom := Sheet2.bottom5_courses df in
  let courses := value_counts (map Sheet2.Course_Name df) in
  (forall course n, In (course, n) courses <-> n = rows_of df course /\ (0 < n)%Z) /\
  List.NoDup (map fst courses) /\
  (List.NoDup (map fst top) /\
   List.length top = Nat.min 5 (List.length courses) /\
   (forall course n, In (course, n) top -> n = rows_of df course /\ (0 < n)%Z) /\
   (forall course, (0 < rows_of df course)%Z ->
      In course (map fst top) \/
      (List.length top = 5 /\
       forall course' n', In (course', n') top -> (rows_of df course <= n')%Z))) /\
  (List.NoDup (map fst bottom) /\
   List.length bottom = Nat.min 5 (List.length courses) /\
   (forall course n, In (course, n) bottom -> n = rows_of df course /\ (0 < n)%Z) /\
   (forall course, (0 < rows_of df course)%Z ->
      In course (map fst bottom) \/
      (List.length bottom = 5 /\
       forall course' n', In (course', n') bottom -> (n' <= rows_of df course)%Z))).
Proof.
  cbv zeta.
  split; [|split; [apply value_counts_NoDup|split]].
  - intros course n. now rewrite value_counts_In, rows_of_occurrences.
  - destruct (select_value_counts by_value_desc by_value_desc_total
                by_value_desc_trans 5 (map Sheet2.Course_Name df))
      as (Hnd & Hlen & Hin & Hdom).
    split; [exact Hnd|]. split; [exact Hlen|]. split.
    + intros course n Hc. rewrite <- rows_of_occurrences. now apply Hin.
    + intros course Hpos. rewrite <- rows_of_occurrences in *.
      destruct (Hdom course Hpos) as [Hl|[Hfull Hall]]; [now left|right].
      split; [exact Hfull|]. intros course' n' Hc.
      specialize (Hall course' n' Hc). unfold by_value_desc in Hall.
      now apply Z.leb_le in Hall.
  - destruct (select_value_counts by_value_asc by_value_asc_total
                by_value_asc_trans 5 (map Sheet2.Course_Name df))
      as (Hnd & Hlen & Hin & Hdom).
    split; [exact Hnd|]. split; [exact Hlen|]. split.
    + intros course n Hc. rewrite <- rows_of_occurrences. now apply Hin.
    + intros course Hpos. rewrite <- rows_of_occurrences in *.
      destruct (Hdom course Hpos) as [Hl|[Hfull Hall]]; [now left|right].
      split; [exact Hfull|]. intros course' n' Hc.
      specialize (Hall course' n' Hc). unfold by_value_asc in Hall.
      now apply Z.leb_le in Hall.
Qed.


End CourseMetrics.

(** C5. The two metrics are named "by completion", but on a table whose
    only row is an open enrolment (no completion date) both list the
    course with count 1 although it has no completion: the counts are row
    counts, not completion counts, so neither metric gives for every
    listed course its number of completions. *)
Theorem top_bottom5_count_uncompleted_rows :
  Sheet2.top5_courses Stub.one_enrolled = [("Python Basics", 1%Z)] /\
  Sheet2.bottom5_courses Stub.one_enrolled = [("Python Basics", 1%Z)] /\
  completions_of Stub.one_enrolled "Python Basics" = 0%Z /\
  ~ (forall df course n,
       In (course, n) (Sheet2.top5_courses df) -> n = completions_of df course) /\
  ~ (forall df course n,
       In (course, n) (Sheet2.bottom5_courses df) -> n = completions_of df course).
Proof.
  repeat split; try reflexivity;
    intros H;
    specialize (H Stub.one_enrolled "Python Basics" 1%Z);
    (assert (Hin : In ("Python Basics", 1%Z) [("Python Basics", 1%Z)])
       by now left);
    specialize (H Hin); vm_compute in H; discriminate H.
Qed.

(** ** Month over month *)

Section Variance.
Context {K : Type} `{EqDecision K}.
Import Pandas.





End Variance.


(** ** Delivery *)

(** Cases on the outcome of the innermost step that is still pending. *)
Ltac step_case :=
  match goal with
  | |- context [match ?x with _ => _ end] =>
      lazymatch x with
      | context [match _ with _ => _ end] => fail
      | _ => destruct x eqn:?
      end
  end.

Ltac delivered :=
  cbn [delivery_outcome world trace session_state fst snd];
  split; [reflexivity|];
  eexists; split; [rewrite <- ?app_assoc; reflexivity|];
  cbn;
  first
    [ repeat split; reflexivity
    | eexists; split; [reflexivity|]; cbn; tauto ].

Section Delivery.
Context {W : Type}.
Variable ext : External W.
Variable environ : gmap string string.

(** C8. Both delivery functions return a boolean and never let an
    exception out: [true] when the configuration was read, every step
    (reading attachments, connecting, TLS, login, submission, closing)
    succeeded and the message was accepted; [false], with "Email Error:"
    and the description shown, when reading the configuration or any
    step failed. *)
Theorem delivery_failures_become_false
    (subject body to_email pdf : string) (audio_path pdf_path : option string)
    (s : state W) :
  delivery_outcome
    (raised (Sheet1.receivers_getenv environ)
       ++ raised (Mail.int_getenv ext environ "EMAIL_PORT"))
    s
    (Sheet1.send_email_with_attachments ext environ subject body
       audio_path pdf_path s) /\
  delivery_outcome
    (raised (Mail.int_getenv ext environ "EMAIL_PORT"))
    s
    (Sheet2.send_email_with_pdf ext environ to_email subject body pdf s).
Proof.
  split.
  - unfold Sheet1.send_email_with_attachments,
      Sheet1.send_email_with_attachments_body, Sheet1.receivers_getenv,
      Mail.int_getenv, Mail.attach_file, Mail.smtp_session,
      try_except, with_exit, bind, lift, ret, st, log, external.
    repeat (step_case; cbn [world trace session_state fst snd] in * );
      simplify_eq; delivered.
  - unfold Sheet2.send_email_with_pdf, Sheet2.send_email_with_pdf_body,
      Mail.int_getenv, Mail.attach_file, Mail.smtp_session,
      try_except, with_exit, bind, lift, ret, st, log, external.
    repeat (step_case; cbn [world trace session_state fst snd] in * );
      simplify_eq; delivered.
Qed.

End Delivery.

(** ** Prompts *)

Section Prompts.
Context {W : Type}.
Variable ext : External W.

(** What the "Generate Insight" handler submits for a label of the
    catalog. *)
Lemma generate_insight_submits (label text : string) (s : state W) :
  dict_find Sheet1.insight_options label = Some text ->
  exists rest,
    trace (snd (Sheet1.generate_insight_handler ext label s)) =
      (trace s ++
       UI (st_info "Generating insight with GPT-4...") ::
       AgentRun "gpt-4" (Sheet1.insight_prompt text)
         (fst (agent_run ext "gpt-4" (Sheet1.insight_prompt text) (world s))) ::
       rest)%list /\
    agent_calls rest = 0.
Proof.
  intros Hfind.
  unfold Sheet1.generate_insight_handler, bind, st, log, try_except, lift,
    dict_get, Sheet1.run_agent_on_prompt, external, session_set.
  rewrite Hfind. cbn [world trace session_state].
  destruct (agent_run ext "gpt-4" (Sheet1.insight_prompt text) (world s))
    as [[answer|e] w1]; cbn [world trace session_state fst snd];
    rewrite <- !app_assoc; eexists; split; reflexivity.
Qed.

Lemma ask_ai_submits (user_q : string) (s : state W) :
  exists evs,
    trace (snd (Sheet1.ask_ai_handler ext user_q s)) = (trace s ++ evs)%list /\
    Forall (fun ev => match ev with
                      | AgentRun model prompt _ =>
                          model = "gpt-4" /\
                          prompt = Sheet1.question_prompt user_q
                      | _ => True
                      end) evs.
Proof.
  unfold Sheet1.ask_ai_handler, Sheet1.ask_with_retry, try_except, bind,
    raise, st, sleep, log, Sheet1.run_agent_on_prompt, external.
  repeat (step_case; cbn [world trace session_state fst snd] in * );
    simplify_eq; cbn [world trace session_state fst snd];
    eexists; (split; [rewrite <- ?app_assoc; reflexivity|]);
    repeat constructor.
Qed.

(** C9, as the code has it. The framing "Analyze the dataset and return
    this insight:" followed by a blank line goes in front of catalog
    texts only: for every catalog label the "Generate Insight" handler
    submits that label's text, verbatim, under the framing, on the
    accurate tier, and the batch submits every catalog text under it, in
    order, on the cheap tier; the label "2. Employees with 1 completion"
    stands for "Number of employees who have completed exactly 1
    course.".  A free question is submitted under the framing of the
    question handler, "You are an AI analyst...", instead. *)
Theorem catalog_prompts_are_framed (s : state W) :
  (forall text,
     Sheet1.insight_prompt text =
       "Analyze the dataset and return this insight:" ++ nl ++ nl ++ text) /\
  dict_get (py_repr ext) Sheet1.insight_options
    "2. Employees with 1 completion" =
    Ok "Number of employees who have completed exactly 1 course." /\
  Forall (fun item =>
            exists rest,
              trace (snd (Sheet1.generate_insight_handler ext (fst item) s)) =
                (trace s ++
                 UI (st_info "Generating insight with GPT-4...") ::
                 AgentRun "gpt-4" (Sheet1.insight_prompt (snd item))
                   (fst (agent_run ext "gpt-4"
                           (Sheet1.insight_prompt (snd item)) (world s))) ::
                 rest)%list /\
              agent_calls rest = 0)
         Sheet1.insight_options /\
  (exists outcomes w',
     List.length outcomes = List.length Sheet1.insight_options /\
     Sheet1.insights_loop ext Sheet1.insight_options "" s =
       (Ok (render_entries (entries Sheet1.insight_options outcomes)),
        Build_state w'
          (trace s ++ batch_events Sheet1.insight_options outcomes)
          (session_state s))) /\
  (forall user_q,
     exists evs,
       trace (snd (Sheet1.ask_ai_handler ext user_q s)) = (trace s ++ evs)%list /\
       Forall (fun ev => match ev with
                         | AgentRun model prompt _ =>
                             model = "gpt-4" /\
                             prompt = Sheet1.question_prompt user_q
                         | _ => True
                         end) evs) /\
  (forall user_q,
     Sheet1.question_prompt user_q =
       nl ++ "You are an AI analyst. Based on the dataset, answer the following question in 5 lines maximum:"
          ++ nl ++ nl ++ user_q ++ nl).
Proof.
  split; [reflexivity|]. split; [reflexivity|]. split.
  { repeat constructor; apply generate_insight_submits; reflexivity. }
  split.
  { destruct (insights_loop_spec ext Sheet1.insight_options "" s)
      as (outcomes & w' & Hlen & _ & Hloop).
    exists outcomes, w'. split; [exact Hlen | exact Hloop]. }
  split; [intros user_q; apply ask_ai_submits | reflexivity].
Qed.

End Prompts.

(** A free question reaches the agent without the framing of the
    catalog prompts. *)
Lemma question_is_not_framed_as_insight :
  trace (snd (Sheet1.ask_ai_handler Stub.friendly "How many rows?"
                (Stub.start [] ∅))) =
    [ UI (st_info "Using GPT-4...");
      AgentRun "gpt-4" (Sheet1.question_prompt "How many rows?") (Ok "ok");
      UI (st_text_area "🧠 Insight Summary:" "ok" 200);
      UI (st_download_button "📥 Download Insight" "ok" "QnA_Insight.txt") ] /\
  contains "Analyze the dataset and return this insight:"
    (Sheet1.question_prompt "How many rows?") = false /\
  Sheet1.question_prompt "How many rows?" <> Sheet1.insight_prompt "How many rows?".
Proof.
  split; [reflexivity|]. split; [reflexivity|].
  intros H. vm_compute in H. discriminate H.
Qed.

(** ** Concrete runs *)

(** A relay that refuses the login: the session is closed, the error is
    shown and the function returns [False]. *)
Example refused_login_returns_false :
  let out := Sheet1.send_email_with_attachments
               (Stub.scripted (fun _ => Ok "bytes") Stub.refuses_login)
               Stub.mail_environ "Daily" "Attached." (Some "auto_podcast.mp3") None
               (Stub.start [] ∅) in
  fst out = Ok false /\
  last (trace (snd out)) =
    Some (UI (st_error "Email Error: (535, b'Authentication failed')")).
Proof. split; reflexivity. Qed.

(** No configuration at all: [int(None)] raises inside the [try]. *)
Example missing_port_returns_false :
  let out := Sheet2.send_email_with_pdf Stub.friendly ∅ "lead@example.org"
               "AI Report" "Find your report attached." "final_report.pdf"
               (Stub.start [] ∅) in
  fst out = Ok false /\ List.length (trace (snd out)) = 1.
Proof. split; reflexivity. Qed.

Example accepted_message_returns_true :
  fst (Sheet2.send_email_with_pdf Stub.friendly Stub.mail_environ
         "lead@example.org" "AI Report" "Find your report attached."
         "final_report.pdf" (Stub.start [] ∅)) = Ok true.
Proof. reflexivity. Qed.

(** Two rate-limit failures in a row: one retry, then the error is shown. *)
Example second_rate_limit_is_shown :
  trace (snd (Sheet1.ask_ai_handler Stub.friendly "How many rows?"
                (Stub.start [Raise "Rate limit reached"; Raise "Rate limit reached"] ∅))) =
    [ UI (st_info "Using GPT-4...");
      AgentRun "gpt-4" (Sheet1.question_prompt "How many rows?")
        (Raise "Rate limit reached");
      UI (st_warning "Rate limit hit. Waiting 20 seconds...");
      Sleep 20;
      AgentRun "gpt-4" (Sheet1.question_prompt "How many rows?")
        (Raise "Rate limit reached");
      UI (st_error "Smart Q&A Error: Rate limit reached") ].
Proof. reflexivity. Qed.

(** Four completions in January, one in March (and one open row): the
    counts per month and their variance. *)
Example variance_of_two_months :
  let done y m := Some (Pandas.Build_Timestamp y m 1) in
  let row c := {| Sheet2.Platform := None; Sheet2.Employee_Role := None;
                  Sheet2.Main_Organization_Unit := None;
                  Sheet2.Course_Name := Some "Python Basics";
                  Sheet2.Course_Completion_Date := c;
                  Sheet2.Registration_Date := None |} in
  let df := [ row (done 2024 3); row (done 2024 1); row None; row (done 2024 1);
              row (done 2024 1); row (done 2024 1) ]%Z in
  Sheet2.month_counts df = [((2024, 1), 4); ((2024, 3), 1)]%Z /\
  Sheet2.completion_variance df = [((2024, 1), 0); ((2024, 3), -3)]%Z /\
  Sheet2.top5_courses df = [("Python Basics", 6%Z)] /\
  Sheet2.currently_enrolled df = [("Python Basics", 1%Z)].
Proof. vm_compute. repeat split. Qed.

(** ** Substrings, fields and lines *)

Lemma append_cons (a : ascii) (s t : string) :
  String a s ++ t = String a (s ++ t).
Proof. reflexivity. Qed.

Lemma prefix_iff (p s : string) :
  String.prefix p s = true <-> exists post, s = p ++ post.
Proof.
  revert s. induction p as [|a p IH]; intros s.
  - split; [intros _; now exists s | now destruct s].
  - destruct s as [|b s]; simpl.
    + split; [discriminate | intros [post H]; discriminate H].
    + destruct (ascii_dec a b) as [->|Hne].
      * rewrite IH. split; intros [post H]; exists post.
        -- now rewrite append_cons, <- H.
        -- rewrite append_cons in H. now injection H.
      * split; [discriminate|]. intros [post H]. rewrite append_cons in H.
        injection H as H1 H2. congruence.
Qed.

Lemma contains_nil (needle : string) :
  contains needle "" = String.prefix needle "".
Proof.
  change (contains needle "")
    with (if String.prefix needle "" then true else false).
  now destruct (String.prefix needle "").
Qed.

Lemma contains_cons (needle : string) (a : ascii) (hay : string) :
  contains needle (String a hay) =
    if String.prefix needle (String a hay) then true else contains needle hay.
Proof. reflexivity. Qed.

(** [needle in hay] holds exactly when [hay] has [needle] somewhere
    inside. *)
Lemma contains_iff (needle hay : string) :
  contains needle hay = true <->
  exists pre post, hay = pre ++ needle ++ post.
Proof.
  induction hay as [|a hay IH].
  - rewrite contains_nil, prefix_iff. split.
    + intros [post H]. now exists "", post.
    + intros (pre & post & H). destruct pre; [|discriminate H]. now exists post.
  - rewrite contains_cons.
    destruct (String.prefix needle (String a hay)) eqn:Hp.
    + apply prefix_iff in Hp as [post Hp]. split; [intros _|reflexivity].
      now exists "", post.
    + rewrite IH. split.
      * intros (pre & post & H). exists (String a pre), post.
        now rewrite append_cons, <- H.
      * intros (pre & post & H). destruct pre as [|b pre].
        -- assert (String.prefix needle (String a hay) = true)
             by (apply prefix_iff; now exists post).
           congruence.
        -- rewrite append_cons in H. injection H as _ H. now exists pre, post.
Qed.

Section SplitJoin.
Variable c : ascii.

Lemma split_acc_cons (s cur : string) :
  exists field rest, split_acc c cur s = field :: rest.
Proof.
  revert cur. induction s as [|a s IH]; intros cur; simpl.
  - now exists cur, [].
  - destruct (Ascii.eqb a c); [now exists cur, (split_acc c "" s) | apply IH].
Qed.

Lemma join_cons (sep field : string) (fields : list string) :
  fields <> [] -> join sep (field :: fields) = field ++ sep ++ join sep fields.
Proof. destruct fields; [congruence | reflexivity]. Qed.

Lemma join_split_acc (s cur : string) :
  join (String c "") (split_acc c cur s) = cur ++ s.
Proof.
  revert cur. induction s as [|a s IH]; intros cur; simpl.
  - now rewrite append_nil_r.
  - destruct (Ascii.eqb_spec a c) as [->|Hne].
    + rewrite join_cons.
      * rewrite IH. reflexivity.
      * destruct (split_acc_cons s "") as (f & r & ->). discriminate.
    + rewrite IH, append_assoc. reflexivity.
Qed.

Lemma occurs_app (s t : string) : occurs c (s ++ t) = occurs c s + occurs c t.
Proof.
  induction s as [|a s IH]; [reflexivity|].
  rewrite append_cons. simpl. rewrite IH. lia.
Qed.

Lemma length_split_acc (s cur : string) :
  List.length (split_acc c cur s) = S (occurs c s).
Proof.
  revert cur. induction s as [|a s IH]; intros cur; simpl; [reflexivity|].
  destruct (Ascii.eqb a c); simpl; now rewrite IH.
Qed.

Lemma fields_split_acc (s cur : string) :
  occurs c cur = 0 ->
  List.Forall (fun field => occurs c field = 0) (split_acc c cur s).
Proof.
  revert cur. induction s as [|a s IH]; intros cur Hcur; simpl.
  - now constructor.
  - destruct (Ascii.eqb a c) eqn:Hac.
    + constructor; [assumption | now apply IH].
    + apply IH. rewrite occurs_app. simpl. rewrite Hac. lia.
Qed.

End SplitJoin.

(** ** More on the handlers of sheet 1 *)

Section Sheet1Facts.
Context {W : Type}.
Variable ext : External W.

(** X1. The retry of the question handler is taken exactly when the text of
    the first failure has "Rate limit" somewhere inside, in this
    spelling: then, and only then, the agent is called a second time. *)
Theorem retry_exactly_when_text_has_rate_limit (prompt : string) (s : state W) :
  agent_calls (trace (snd (Sheet1.ask_with_retry ext prompt s))) =
    agent_calls (trace s) + 2
  <->
  exists pre post,
    fst (agent_run ext "gpt-4" prompt (world s)) =
      Raise (pre ++ "Rate limit" ++ post).
Proof.
  unfold Sheet1.ask_with_retry, try_except, Sheet1.run_agent_on_prompt,
    external.
  destruct (agent_run ext "gpt-4" prompt (world s)) as [[answer|e] w1];
    cbn [fst snd world trace session_state].
  - rewrite agent_calls_app. cbn. split; [lia|].
    intros (pre & post & H). discriminate H.
  - destruct (contains "Rate limit" e) eqn:Hsig.
    + unfold bind, st, sleep, log. cbn [fst snd world trace session_state].
      destruct (agent_run ext "gpt-4" prompt w1) as [r2 w2].
      cbn [fst snd world trace session_state].
      rewrite !agent_calls_app. cbn. split; [intros _|lia].
      apply contains_iff in Hsig as (pre & post & ->). now exists pre, post.
    + unfold raise. cbn [fst snd trace]. rewrite agent_calls_app. cbn.
      split; [lia|]. intros (pre & post & H). injection H as ->.
      assert (contains "Rate limit" (pre ++ "Rate limit" ++ post) = true)
        by (apply contains_iff; now exists pre, post).
      congruence.
Qed.

(** X2. [generate_pdf_from_text] hands the PDF writer the lines of the text:
    joined by line feeds they give the text back, there is one more of
    them than line feeds in the text, and none holds a line feed; the
    function returns the file name when the writer succeeds and fails as
    the writer does. *)
Theorem pdf_cells_are_the_lines_of_the_text (text filename : string) (s : state W) :
  exists lines written,
    trace (snd (Sheet1.generate_pdf_from_text ext text filename s)) =
      (trace s ++ [PdfOutput lines filename written])%list /\
    join nl lines = text /\
    List.length lines = S (occurs (ascii_of_nat 10) text) /\
    List.Forall (fun line => occurs (ascii_of_nat 10) line = 0) lines /\
    fst (Sheet1.generate_pdf_from_text ext text filename s) =
      match written with
      | Ok _ => Ok filename
      | Raise e => Raise e
      end.
Proof.
  unfold Sheet1.generate_pdf_from_text, bind, external, ret.
  destruct (fpdf_output ext (split (ascii_of_nat 10) text) filename (world s))
    as [written w1].
  exists (split (ascii_of_nat 10) text), written.
  split; [now destruct written|].
  split; [apply (join_split_acc (ascii_of_nat 10) text "")|].
  split; [apply length_split_acc|].
  split; [now apply fields_split_acc|].
  now destruct written as [[]|e].
Qed.

(** X3. The "Generate Insight" handler never lets an exception out, calls
    the agent at most once, and changes the session state only by storing
    the answer it shows under "last_insight": a label that is not in the
    catalog is reported as "Error: " and the text of the [KeyError], the
    [repr] of the label, without any call to the agent, and a failure of
    the agent leaves the session state as it was. *)
Theorem generate_insight_outcomes (label : string) (s : state W) :
  let out := Sheet1.generate_insight_handler ext label s in
  fst out = Ok tt /\
  match dict_find Sheet1.insight_options label with
  | None =>
      snd out =
        Build_state (world s)
          (trace s ++ [ UI (st_info "Generating insight with GPT-4...");
                        UI (st_error ("Error: " ++ py_repr ext label)) ])
          (session_state s)
  | Some text =>
      let run := agent_run ext "gpt-4" (Sheet1.insight_prompt text) (world s) in
      world (snd out) = snd run /\
      match fst run with
      | Ok answer =>
          trace (snd out) =
            (trace s ++
             [ UI (st_info "Generating insight with GPT-4...");
               AgentRun "gpt-4" (Sheet1.insight_prompt text) (Ok answer);
               UI (st_text_area "📄 Insight Result" answer 300);
               UI (st_download_button "📥 Download Insight" answer "Insight.txt") ])%list /\
          session_state (snd out) =
            <["last_insight" := VStr answer]> (session_state s)
      | Raise e =>
          trace (snd out) =
            (trace s ++
             [ UI (st_info "Generating insight with GPT-4...");
               AgentRun "gpt-4" (Sheet1.insight_prompt text) (Raise e);
               UI (st_error ("Error: " ++ e)) ])%list /\
          session_state (snd out) = session_state s
      end
  end.
Proof.
  cbv zeta.
  unfold Sheet1.generate_insight_handler, bind, st, log, try_except, lift,
    dict_get, Sheet1.run_agent_on_prompt, external, session_set.
  destruct (dict_find Sheet1.insight_options label) as [text|];
    cbn [fst snd world trace session_state].
  - destruct (agent_run ext "gpt-4" (Sheet1.insight_prompt text) (world s))
      as [[answer|e] w1]; cbn [fst snd world trace session_state];
      rewrite <- !app_assoc; repeat split.
  - rewrite <- !app_assoc. split; reflexivity.
Qed.

(** X4. The "Ask AI" handler never lets an exception out and never touches
    the session state; with an empty question it only warns and the agent
    is not called, and with any question the agent is called at most
    twice. *)
Theorem ask_ai_is_contained (user_q : string) (s : state W) :
  let out := Sheet1.ask_ai_handler ext user_q s in
  fst out = Ok tt /\
  session_state (snd out) = session_state s /\
  agent_calls (trace (snd out)) <= agent_calls (trace s) + 2 /\
  (Sheet1.ask_ai_handler ext "" s =
     (Ok tt,
      Build_state (world s)
        (trace s ++ [UI (st_warning "Please enter a question.")])
        (session_state s))).
Proof.
  cbv zeta.
  unfold Sheet1.ask_ai_handler, Sheet1.ask_with_retry, try_except, bind,
    raise, st, sleep, log, Sheet1.run_agent_on_prompt, external.
  split; [|split; [|split; [|reflexivity]]];
    repeat (step_case; cbn [world trace session_state fst snd] in * );
    simplify_eq; cbn [world trace session_state fst snd];
    try reflexivity;
    rewrite ?agent_calls_app; cbn; lia.
Qed.

End Sheet1Facts.

(** ** The SMTP session and the message *)

Section MailFacts.
Context {W : Type}.
Variable ext : External W.
Variable environ : gmap string string.


(** X6. What [send_email_with_attachments] reads and submits: it reads
    only files it was given (none for [None] or an empty path), the audio
    before the PDF, and a message that reaches [sendmail] goes to the
    comma-separated fields of EMAIL_RECEIVERS (joined by commas they give
    the setting back), lists them in its To header, carries the subject
    and the body, and has one part per given file, in that order: every
    given file was read, once, and its part holds what was read from it,
    under the subtype of its kind (mp3, pdf) and the base name of its
    path. *)
Theorem mail_carries_the_given_attachments
    (subject body : string) (audio_path pdf_path : option string) (s : state W) :
  let files := given_files audio_path pdf_path in
  exists evs,
    trace (snd (Sheet1.send_email_with_attachments ext environ subject body
                  audio_path pdf_path s)) = (trace s ++ evs)%list /\
    List.length (List.filter is_file_read evs) <=
      Nat.b2n (given audio_path) + Nat.b2n (given pdf_path) /\
    (exists unread,
       map fst files = (map fst (file_reads evs) ++ unread)%list) /\
    forall sender rcpt msg r,
      In (Smtp (smtp_sendmail sender rcpt msg) r) evs ->
      exists setting,
        environ !! "EMAIL_RECEIVERS" = Some setting /\
        rcpt = split "," setting /\
        join "," rcpt = setting /\
        sender = environ !! "EMAIL_USERNAME" /\
        msg_from msg = sender /\
        msg_to msg = join ", " rcpt /\
        msg_subject msg = subject /\
        msg_body msg = body /\
        map subtype (msg_parts msg) =
          ((if given audio_path then ["mp3"] else [])
             ++ (if given pdf_path then ["pdf"] else []))%list /\
        List.length (List.filter is_file_read evs) = List.length (msg_parts msg) /\
        exists contents,
          List.length contents = List.length files /\
          file_reads evs =
            zip_with (fun file data => (fst file, Ok data)) files contents /\
          msg_parts msg =
            zip_with (fun file data =>
                        {| subtype := snd file;
                           disposition :=
                             "attachment; filename=" ++ basename ext (fst file);
                           payload := data |}) files contents.
Proof.
  cbv zeta.
  unfold Sheet1.send_email_with_attachments,
    Sheet1.send_email_with_attachments_body, Sheet1.receivers_getenv,
    Mail.int_getenv, Mail.attach_file, Mail.smtp_session,
    try_except, with_exit, bind, lift, ret, st, log, external, given,
    given_files.
  repeat (step_case; cbn [world trace session_state fst snd] in * );
    simplify_eq; cbn [world trace session_state fst snd];
    rewrite <- ?app_assoc;
    (eexists; split; [reflexivity|]);
    (split; [cbn; lia|]);
    (split; [cbn; eexists; reflexivity|]);
    intros sender0 rcpt0 msg0 r0 Hin; cbn in Hin;
    repeat match goal with
           | H : _ \/ _ |- _ => destruct H
           | H : False |- _ => destruct H
           end;
    simplify_eq;
    eexists; (split; [reflexivity|]);
    cbn [msg_from msg_to msg_subject msg_body msg_parts map subtype];
    (split; [reflexivity|]);
    (split; [apply (join_split_acc "," _ "")|]);
    do 7 (split; [reflexivity|]);
    first [ exists []; repeat split; reflexivity
          | eexists [_]; repeat split; reflexivity
          | eexists [_; _]; repeat split; reflexivity ].
Qed.

End MailFacts.

(** ** The daily mail *)

Ltac pick_shown :=
  cbn; repeat (first [ left; reflexivity | right ]).

Ltac daily_ending :=
  first
    [ left; eexists; split; [reflexivity|];
      split; [cbn; tauto|]; split; reflexivity
    | right; left; repeat split; reflexivity
    | right; right; split; [reflexivity|]; eexists; pick_shown ].

Section DailyMail.
Context {W : Type}.
Variable ext : External W.
Variable environ : gmap string string.

(** X7. After the catalog loop the daily mail writes the summary, asks for
    the podcast script, synthesizes it, writes the PDF and sends both
    files.  It never touches the session state and always ends on one of
    three messages: "Auto email error" with the description of the
    preparation step that failed, in which case no file was read and no
    SMTP step was taken; "Email sent successfully." after a run without
    any failed step; or "Email failed." after the "Email Error" message
    of the delivery function. *)
Theorem daily_mail_ends_in_one_message (s : state W) :
  let out := Sheet1.daily_auto_email ext environ s in
  session_state (snd out) = session_state s /\
  exists outcomes rest,
    List.length outcomes = 11 /\
    trace (snd out) =
      (trace s ++ batch_events Sheet1.insight_options outcomes ++ rest)%list /\
    ((exists e,
        last rest = Some (UI (st_error ("❌ Auto email error: " ++ e))) /\
        In e (failures rest) /\
        smtp_steps rest = [] /\
        List.filter is_file_read rest = []) \/
     (last rest = Some (UI (st_success "✅ Email sent successfully.")) /\
      failures rest = [] /\
      existsb is_sendmail_ok rest = true) \/
     (last rest = Some (UI (st_error "❌ Email failed.")) /\
      exists e, In (UI (st_error ("Email Error: " ++ e))) rest)).
Proof.
  cbv zeta.
  destruct (insights_loop_spec ext Sheet1.insight_options "" s)
    as (outcomes & w' & Hlen & _ & Hloop).
  unfold Sheet1.daily_auto_email.
  rewrite (try_except_bind_ok _ _ _ _ _ _ Hloop).
  unfold Sheet1.run_agent_on_prompt, Sheet1.text_to_speech,
    Sheet1.generate_pdf_from_text, Sheet1.send_email_with_attachments,
    Sheet1.send_email_with_attachments_body, Sheet1.receivers_getenv,
    Mail.int_getenv, Mail.attach_file, Mail.smtp_session,
    try_except, with_exit, bind, lift, ret, st, log, external.
  repeat (step_case; cbn [world trace session_state fst snd] in * );
    simplify_eq; cbn [world trace session_state fst snd];
    (split; [reflexivity|]);
    exists outcomes; rewrite <- ?app_assoc;
    eexists; (split; [exact Hlen|]); (split; [reflexivity|]);
    daily_ending.
Qed.

End DailyMail.

(** ** The report of sheet 2 *)

Section DictFacts.
Context {V : Type}.

Lemma dict_find_set_same (d : list (string * V)) (k : string) (v : V) :
  dict_find (dict_set d k v) k = Some v.
Proof.
  induction d as [|[k' v'] d IH]; simpl.
  - now rewrite String.eqb_refl.
  - destruct (String.eqb k' k) eqn:Hk; simpl; now rewrite Hk.
Qed.

Lemma dict_find_set_other (d : list (string * V)) (k k0 : string) (v : V) :
  k0 <> k -> dict_find (dict_set d k v) k0 = dict_find d k0.
Proof.
  intros Hne. induction d as [|[k' v'] d IH]; simpl.
  - apply String.eqb_neq in Hne. rewrite String.eqb_sym in Hne. now rewrite Hne.
  - destruct (String.eqb_spec k' k) as [->|Hk]; simpl.
    + apply String.eqb_neq in Hne. rewrite String.eqb_sym in Hne.
      now rewrite Hne.
    + now rewrite IH.
Qed.

Lemma dict_set_new (d : list (string * V)) (k : string) (v : V) :
  ~ In k (map fst d) -> dict_set d k v = (d ++ [(k, v)])%list.
Proof.
  induction d as [|[k' v'] d IH]; simpl; [reflexivity|].
  intros Hout. destruct (String.eqb_spec k' k) as [->|Hk].
  - exfalso. auto.
  - rewrite IH; [reflexivity | auto].
Qed.

Lemma dict_set_keys_old (d : list (string * V)) (k : string) (v : V) :
  In k (map fst d) -> map fst (dict_set d k v) = map fst d.
Proof.
  induction d as [|[k' v'] d IH]; simpl; [tauto|].
  intros Hin. destruct (String.eqb_spec k' k) as [->|Hk]; simpl.
  - reflexivity.
  - rewrite IH; [reflexivity | intuition congruence].
Qed.

End DictFacts.

Lemma record_all_fresh (explained : list (string * string)) :
  forall d,
    List.NoDup (map fst d ++ map fst explained) ->
    record_all d explained =
      (d ++ map (fun mt => (fst mt, bar_entry (snd mt))) explained)%list.
Proof.
  induction explained as [|[m t] explained IH]; intros d Hnd; simpl.
  - now rewrite app_nil_r.
  - unfold record_all in *. simpl.
    assert (Hout : ~ In m (map fst d)).
    { intros Hin. apply NoDup_remove_2 in Hnd. apply Hnd.
      apply in_or_app. now left. }
    rewrite (dict_set_new _ _ _ Hout), IH.
    + now rewrite <- app_assoc.
    + rewrite map_app. simpl. rewrite <- app_assoc. simpl.
      exact Hnd.
Qed.

Section ReportFacts.
Context {W : Type}.
Variable ext : External W.

(** The loop over the selected metrics, from a state that holds a report
    [d]: it explains a first part of the selection, stores an entry for
    each answer, and either reaches the end or stops at the first call
    that fails, whose exception leaves the loop. *)
Lemma explain_metrics_spec (custom_text : string) (selected : list string) :
  forall (s : state W) (d : list (string * report_entry)),
    session_state s !! "report_data" = Some (VReport d) ->
    exists (texts : list string) (w_mid : W),
      List.length texts <= List.length selected /\
      answers ext "gpt-3.5-turbo" (world s)
        (map (explain_prompt custom_text) (firstn (List.length texts) selected))
        (map Ok texts) w_mid /\
      let explained := zip (firstn (List.length texts) selected) texts in
      let out := Sheet2.explain_metrics ext selected custom_text s in
      session_state (snd out) =
        <["report_data" := VReport (record_all d explained)]> (session_state s) /\
      match nth_error selected (List.length texts) with
      | None =>
          out = (Ok tt,
                 Build_state w_mid (trace s ++ explain_events custom_text explained)
                   (session_state (snd out)))
      | Some failing =>
          exists e,
            agent_run ext "gpt-3.5-turbo" (explain_prompt custom_text failing) w_mid =
              (Raise e, world (snd out)) /\
            fst out = Raise e /\
            trace (snd out) =
              (trace s ++ explain_events custom_text explained
                 ++ [AgentRun "gpt-3.5-turbo" (explain_prompt custom_text failing)
                       (Raise e)])%list
      end.
Proof.
  induction selected as [|metric selected IH]; intros s d Hd.
  - exists [], (world s). cbn. split; [lia|]. split; [constructor|].
    split; [now rewrite insert_id|].
    rewrite app_nil_r. now destruct s.
  - destruct (agent_run ext "gpt-3.5-turbo" (explain_prompt custom_text metric)
                (world s)) as [[text|e] w1] eqn:Hrun.
    + set (s1 := Build_state w1
                   (trace s ++ [AgentRun "gpt-3.5-turbo"
                                  (explain_prompt custom_text metric) (Ok text)])
                   (<["report_data" :=
                        VReport (dict_set d metric (bar_entry text))]>
                      (session_state s))).
      assert (Hstep : Sheet2.explain_metrics ext (metric :: selected) custom_text s =
                      Sheet2.explain_metrics ext selected custom_text s1).
      { cbn [Sheet2.explain_metrics].
        unfold bind, Sheet2.gpt_suggest_insights, external, Sheet2.report_data_set.
        fold (explain_prompt custom_text metric). rewrite Hrun.
        cbn [world trace session_state]. rewrite Hd. reflexivity. }
      destruct (IH s1 (dict_set d metric (bar_entry text)))
        as (texts & w_mid & Hlen & Hans & Hss & Hout).
      { subst s1. cbn. apply lookup_insert_eq. }
      exists (text :: texts), w_mid. cbn [List.length firstn map zip zip_with].
      split; [lia|]. split; [econstructor; eassumption|].
      cbv zeta in *. cbn [nth_error]. rewrite Hstep.
      assert (Hrec : record_all d
                       ((metric, text) :: zip (firstn (List.length texts) selected) texts) =
                     record_all (dict_set d metric (bar_entry text))
                       (zip (firstn (List.length texts) selected) texts))
        by reflexivity.
      assert (Hev : forall l,
                 (trace s ++ explain_events custom_text ((metric, text) :: l))%list =
                 (trace s1 ++ explain_events custom_text l)%list).
      { intros l. subst s1. cbn. now rewrite <- app_assoc. }
      split.
      { rewrite Hss, Hrec. subst s1. cbn. now rewrite insert_insert_eq. }
      destruct (nth_error selected (List.length texts)) as [failing|].
      * destruct Hout as (e & Hfail & Hfst & Htrace). exists e.
        split; [exact Hfail|]. split; [exact Hfst|].
        rewrite Htrace, app_assoc, <- Hev, <- app_assoc. reflexivity.
      * rewrite Hev. exact Hout.
    + exists [], (world s). cbn [List.length firstn map zip zip_with nth_error].
      split; [lia|]. split; [constructor|]. cbv zeta.
      cbn [Sheet2.explain_metrics].
      unfold bind, Sheet2.gpt_suggest_insights, external.
      fold (explain_prompt custom_text metric). rewrite Hrun.
      cbn [fst snd world trace session_state record_all fold_left].
      split; [now rewrite insert_id|].
      exists e. repeat split.
Qed.

End ReportFacts.

Section ReportHandler.
Context {W : Type}.
Variable ext : External W.
Variable environ : gmap string string.

Lemma keys_of_explained (selected texts : list string) :
  List.length texts <= List.length selected ->
  map fst (zip (firstn (List.length texts) selected) texts) =
    firstn (List.length texts) selected.
Proof.
  intros Hlen. apply fst_zip. rewrite length_take. lia.
Qed.

(** X8. "Generate Insights & Charts" with a selection that is not empty
    replaces the stored report by the entries of the metrics explained so
    far; it explains them in the order selected, one call each, and stops
    at the first call that fails, whose exception leaves the handler.
    With distinct metrics the report lists exactly the explained metrics,
    in order, each with the agent's answer, the style "Bar" and no chart.
    With nothing selected the handler only warns. *)
Theorem report_holds_the_metrics_explained
    (custom_text metric : string) (others : list string) (s : state W) :
  let selected := metric :: others in
  let out := Sheet2.generate_insights_charts_handler ext selected custom_text s in
  Sheet2.generate_insights_charts_handler ext [] custom_text s =
    (Ok tt,
     Build_state (world s)
       (trace s ++ [UI (st_warning "Please select metrics or switch to AI mode.")])
       (session_state s)) /\
  exists (texts : list string) (w_mid : W),
    List.length texts <= List.length selected /\
    answers ext "gpt-3.5-turbo" (world s)
      (map (explain_prompt custom_text) (firstn (List.length texts) selected))
      (map Ok texts) w_mid /\
    let explained := zip (firstn (List.length texts) selected) texts in
    session_state (snd out) =
      <["report_data" := VReport (record_all [] explained)]> (session_state s) /\
    (List.NoDup selected ->
     record_all [] explained =
       map (fun mt => (fst mt, bar_entry (snd mt))) explained) /\
    match nth_error selected (List.length texts) with
    | None =>
        fst out = Ok tt /\ world (snd out) = w_mid /\
        trace (snd out) = (trace s ++ explain_events custom_text explained)%list
    | Some failing =>
        exists e,
          agent_run ext "gpt-3.5-turbo" (explain_prompt custom_text failing) w_mid =
            (Raise e, world (snd out)) /\
          fst out = Raise e /\
          trace (snd out) =
            (trace s ++ explain_events custom_text explained
               ++ [AgentRun "gpt-3.5-turbo" (explain_prompt custom_text failing)
                     (Raise e)])%list
    end.
Proof.
  cbv zeta. split; [reflexivity|].
  set (s0 := Build_state (world s) (trace s)
               (<["report_data" := VReport []]> (session_state s))).
  assert (Hstep : Sheet2.generate_insights_charts_handler ext (metric :: others)
                    custom_text s =
                  Sheet2.explain_metrics ext (metric :: others) custom_text s0)
    by reflexivity.
  destruct (explain_metrics_spec ext custom_text (metric :: others) s0 [])
    as (texts & w_mid & Hlen & Hans & Hss & Hout).
  { subst s0. cbn. apply lookup_insert_eq. }
  exists texts, w_mid. cbv zeta in *. rewrite Hstep.
  split; [exact Hlen|]. split; [exact Hans|]. split.
  { rewrite Hss. subst s0. cbn. now rewrite insert_insert_eq. }
  split.
  { intros Hnd. apply (record_all_fresh _ []). cbn [map app].
    rewrite keys_of_explained by exact Hlen.
    rewrite <- (firstn_skipn (List.length texts) (metric :: others)) in Hnd.
    now apply NoDup_app_remove_r in Hnd. }
  destruct (nth_error (metric :: others) (List.length texts)) as [failing|].
  - exact Hout.
  - rewrite Hout. cbn [fst snd world trace]. repeat split.
Qed.

(** X9. Opening the page adds the two keys of the report where they are
    missing and overwrites nothing: every key that was stored keeps its
    value, no other key appears, and opening the page again changes
    nothing. *)
Theorem init_session_keeps_what_is_stored (s : state W) :
  let s' := snd (Sheet2.init_session s) in
  fst (Sheet2.init_session s) = Ok tt /\
  world s' = world s /\ trace s' = trace s /\
  (forall k v, session_state s !! k = Some v -> session_state s' !! k = Some v) /\
  (forall k, k <> "report_data" -> k <> "final_pdf" ->
     session_state s' !! k = session_state s !! k) /\
  is_Some (session_state s' !! "report_data") /\
  is_Some (session_state s' !! "final_pdf") /\
  (session_state s !! "report_data" = None ->
     session_state s' !! "report_data" = Some (VReport [])) /\
  (session_state s !! "final_pdf" = None ->
     session_state s' !! "final_pdf" = Some VNone) /\
  Sheet2.init_session s' = (Ok tt, s').
Proof.
  cbv zeta. unfold Sheet2.init_session. cbn [fst snd world trace session_state].
  destruct (session_state s !! "report_data") as [r|] eqn:Hr;
    [destruct (session_state s !! "final_pdf") as [f|] eqn:Hf
    |rewrite lookup_insert_ne by discriminate;
     destruct (session_state s !! "final_pdf") as [f|] eqn:Hf];
    repeat split; intros; simplify_map_eq; eauto;
    try (destruct s; reflexivity).
Qed.

(** X10. The recurrence chosen for "Send Email" schedules nothing: whatever
    is chosen, the handler does what it does for "No", and only adds the
    "Scheduled for ..." note after a message that was sent.  The handler
    leaves the session state alone, and without an address it only warns
    and takes no mail step. *)
Theorem recurrence_only_adds_a_note (email freq : string) (s : state W) :
  let out := Sheet2.send_email_handler ext environ email freq s in
  let plain := Sheet2.send_email_handler ext environ email "No" s in
  fst out = fst plain /\
  world (snd out) = world (snd plain) /\
  session_state (snd out) = session_state s /\
  (trace (snd out) = trace (snd plain) \/
   (fst out = Ok tt /\
    trace (snd out) =
      (trace (snd plain)
         ++ [UI (st_info ("⏰ Scheduled for " ++ freq
                            ++ ". (Scheduler backend required.)"))])%list /\
    last (trace (snd plain)) = Some (UI (st_success "✅ Email sent.")))) /\
  (is_Some (session_state s !! "final_pdf") -> fst out = Ok tt) /\
  (email = "" ->
   exists evs, trace (snd out) = (trace s ++ evs)%list /\ smtp_steps evs = []).
Proof.
  cbv zeta.
  unfold Sheet2.send_email_handler, Sheet2.send_email_with_pdf,
    Sheet2.send_email_with_pdf_body, Sheet2.send_email_with_pdf_dict,
    Mail.int_getenv, Mail.attach_file, Mail.smtp_session,
    try_except, with_exit, bind, lift, ret, raise, st, log, external.
  change (String.eqb "No" "No") with true.
  repeat (step_case; cbn [world trace session_state fst snd] in * );
    simplify_eq; cbn [world trace session_state fst snd];
    (split; [reflexivity|]); (split; [reflexivity|]);
    (split; [reflexivity|]);
    (split;
     [ first [ left; reflexivity
             | right; split; [reflexivity|]; split; [reflexivity|];
               apply last_snoc ]
     |]);
    (split; [ first [ reflexivity | intros [? ?]; discriminate ] |]);
    intros Hmail;
    first [ discriminate Hmail
          | subst; try discriminate;
            first [ exists []; split; [now rewrite app_nil_r | reflexivity]
                  | eexists; split; [reflexivity|]; reflexivity ] ].
Qed.

End ReportHandler.

(** ** Counts of columns *)

Lemma sorted_weaken {A} (R R' : A -> A -> Prop) (l : list A) :
  (forall x y, R x y -> R' x y) -> StronglySorted R l -> StronglySorted R' l.
Proof.
  intros Himp. induction 1 as [|x l Hs IH Hall]; constructor; [assumption|].
  eapply List.Forall_impl; [|exact Hall]. intros y. apply Himp.
Qed.

Section ColumnCounts.
Context {K : Type} `{EqDecision K}.
Import Pandas.

Lemma total_bump (k : K) (s : Series K) : total (bump k s) = (total s + 1)%Z.
Proof.
  unfold total. induction s as [|[k0 n] s IH]; simpl; [reflexivity|].
  case_decide; simpl; lia.
Qed.

Lemma total_fold (xs : list K) :
  forall s : Series K,
    total (fold_left (fun s k => bump k s) xs s) =
      (total s + Z.of_nat (List.length xs))%Z.
Proof.
  induction xs as [|x xs IH]; intros s; simpl; [lia|].
  rewrite IH, total_bump. lia.
Qed.

Lemma total_perm (s t : Series K) : Permutation s t -> total s = total t.
Proof.
  unfold total. induction 1; simpl; lia.
Qed.

Lemma total_value_counts (col : list (option K)) :
  total (value_counts col) = present col.
Proof.
  rewrite (total_perm _ _ (value_counts_perm col)).
  unfold tally, present. now rewrite total_fold.
Qed.


Section Rows.
Context {R : Type}.
Variable cell : R -> option K.

Lemma occurrences_column (k : K) (rows : list R) :
  occurrences k (dropna (map cell rows)) = rows_with cell k rows.
Proof.
  unfold occurrences, rows_with, dropna. f_equal.
  induction rows as [|r rows IH]; [reflexivity|].
  cbn [map List.filter]. destruct (cell r) as [c|] eqn:Hc.
  - cbn [omap list_omap List.filter].
    replace (bool_decide (Some c = Some k)) with (bool_decide (c = k))
      by (apply bool_decide_ext; split; congruence).
    destruct (bool_decide (c = k)); simpl; now rewrite IH.
  - cbn [omap list_omap]. rewrite bool_decide_eq_false_2 by discriminate.
    exact IH.
Qed.

Lemma present_column (rows : list R) :
  present (map cell rows) = rows_present cell rows.
Proof.
  unfold present, rows_present, dropna. f_equal.
  induction rows as [|r rows IH]; [reflexivity|].
  cbn [map List.filter]. destruct (cell r); cbn [omap list_omap];
    simpl; now rewrite IH.
Qed.

(** Counts survive any reordering of the counted series. *)
Lemma counts_of_perm (rows : list R) (s : Series K) :
  Permutation s (value_counts (map cell rows)) -> counts_of cell rows s.
Proof.
  intros Hperm. split; [|split].
  - eapply Permutation_NoDup;
      [apply Permutation_map, Permutation_sym, Hperm | apply value_counts_NoDup].
  - intros k n. rewrite <- occurrences_column, <- value_counts_In.
    split; apply Permutation_in; [exact Hperm | now apply Permutation_sym].
  - rewrite (total_perm _ _ Hperm), total_value_counts. apply present_column.
Qed.

End Rows.
End ColumnCounts.

Section CategoricalMetrics.
Import Pandas.
Variable df : Sheet2.DataFrame.


End CategoricalMetrics.

(** ** Monthly series *)

Section SortedFacts.
Context {A : Type}.

Lemma sorted_strict {B} (f : A -> B) (R R' : A -> A -> Prop) (l : list A) :
  (forall x y, R x y -> f x <> f y -> R' x y) ->
  StronglySorted R l -> List.NoDup (map f l) -> StronglySorted R' l.
Proof.
  intros Himp. induction 1 as [|x l Hs IH Hall]; intros Hnd; [constructor|].
  simpl in Hnd. inversion Hnd as [|? ? Hout Hnd']; subst.
  constructor; [now apply IH|].
  rewrite List.Forall_forall in *. intros y Hy.
  apply Himp; [now apply Hall|].
  intros Heq. apply Hout. rewrite Heq. now apply in_map.
Qed.



End SortedFacts.



Lemma period_leb_iff (p q : Pandas.Period) :
  Pandas.period_leb p q = true <->
  (fst p < fst q \/ (fst p = fst q /\ snd p <= snd q))%Z.
Proof.
  unfold Pandas.period_leb.
  rewrite orb_true_iff, andb_true_iff, Z.ltb_lt, Z.eqb_eq, Z.leb_le.
  reflexivity.
Qed.

Lemma period_leb_total (p q : Pandas.Period) :
  Pandas.period_leb p q = true \/ Pandas.period_leb q p = true.
Proof. rewrite !period_leb_iff. lia. Qed.

Lemma period_leb_trans (p q r : Pandas.Period) :
  Pandas.period_leb p q = true -> Pandas.period_leb q r = true ->
  Pandas.period_leb p r = true.
Proof. rewrite !period_leb_iff. lia. Qed.

Section IndexedCounts.
Context {K : Type} `{EqDecision K}.
Import Pandas.
Variable leb : K -> K -> bool.
Hypothesis leb_total : forall x y, leb x y = true \/ leb y x = true.
Hypothesis leb_trans :
  forall x y z, leb x y = true -> leb y z = true -> leb x z = true.

(** [value_counts().sort_index()] of a column: its counts, by label. *)
Lemma sort_index_value_counts {R} (cell : R -> option K) (rows : list R) :
  let s := sort_index leb (value_counts (map cell rows)) in
  counts_of cell rows s /\
  StronglySorted (fun x y => leb (fst x) (fst y) = true /\ fst x <> fst y) s.
Proof.
  cbv zeta.
  assert (Hc : counts_of cell rows
                 (sort_index leb (value_counts (map cell rows))))
    by (apply counts_of_perm, sort_by_perm).
  split; [exact Hc|].
  eapply (sorted_strict fst); [| |apply Hc].
  - intros x y Hxy Hne. split; [exact Hxy | exact Hne].
  - apply (sort_by_sorted (fun x y => leb (fst x) (fst y))).
    + intros x y. apply leb_total.
    + intros x y z. apply leb_trans.
Qed.

End IndexedCounts.

Section MonthlyMetrics.
Import Pandas.
Variable df : Sheet2.DataFrame.


(** X13. The two monthly series of the trend, completions and registrations
    per month of a year, list each month in which there was one, in
    chronological order and once, with the number of rows of that month;
    each adds up to the rows that have the date. *)
Theorem monthly_series_are_chronological :
  (counts_of (period_of Sheet2.Course_Completion_Date) df (Sheet2.month_counts df) /\
   StronglySorted (fun x y => period_lt (fst x) (fst y)) (Sheet2.month_counts df)) /\
  (counts_of (period_of Sheet2.Registration_Date) df (Sheet2.registered_monthly df) /\
   StronglySorted (fun x y => period_lt (fst x) (fst y))
     (Sheet2.registered_monthly df)).
Proof.
  assert (Hstrict : forall x y : Period * Z,
             period_leb (fst x) (fst y) = true /\ fst x <> fst y ->
             period_lt (fst x) (fst y)).
  { intros [[y1 m1] n1] [[y2 m2] n2] [Hle Hne]. apply period_leb_iff in Hle.
    unfold period_lt. simpl in *.
    destruct Hle as [Hlt|[Hy Hm]]; [now left|right].
    split; [exact Hy|].
    destruct (Z.eq_dec m1 m2) as [->|Hm']; [|lia].
    exfalso. apply Hne. now rewrite Hy. }
  unfold Sheet2.month_counts, Sheet2.registered_monthly, dt_to_period_M.
  rewrite !map_map.
  split.
  - destruct (sort_index_value_counts period_leb period_leb_total period_leb_trans
                (period_of Sheet2.Course_Completion_Date) df) as [Hc Hs].
    split; [exact Hc|]. eapply sorted_weaken; [exact Hstrict | exact Hs].
  - destruct (sort_index_value_counts period_leb period_leb_total period_leb_trans
                (period_of Sheet2.Registration_Date) df) as [Hc Hs].
    split; [exact Hc|]. eapply sorted_weaken; [exact Hstrict | exact Hs].
Qed.

End MonthlyMetrics.

(** ** Variance and counts *)

Section VarianceFacts.
Context {K : Type} `{EqDecision K}.
Import Pandas.




End VarianceFacts.



Section TopBottom.
Import Pandas.
Variable df : Sheet2.DataFrame.
Variable plotting : Sheet2.draw -> result unit.


Lemma render_chart_listed (metric : string) :
  In metric Sheet2.metrics ->
  metric <> "Number of employees registered vs completed (monthly trend)" ->
  exists data,
    forall style ax,
      Sheet2.render_chart df plotting metric style ax =
      Sheet2.draw_data plotting (Some data) metric style ax.
Proof.
  intros Hin Hdual. simpl in Hin.
  destruct Hin as [<-|[<-|[<-|[<-|[<-|[<-|[<-|[<-|[<-|[]]]]]]]]]];
    try (now destruct Hdual);
    eexists; intros style ax; reflexivity.
Qed.

(** X16. On a metric of the list [render_chart] fails only where the
    plotting library does: a failure of the renderer is the failure of the
    one plotting call its style asks for, a bar, line or pie plot of the
    series, after which the axes are as they were, or a table, after which
    the axes were only turned off; with a library that draws every call
    the renderer returns normally for every listed metric and every
    style.  Whatever the metric, the renderer only adds to the axes, at
    most three calls.  The style is matched exactly: for any metric but
    the monthly trend, a style that is none of "Bar", "Line", "Pie" and
    "Table" (such as "bar") draws nothing and is no error. *)
Theorem render_chart_fails_only_in_plotting
    (metric style : string) (ax : list Sheet2.draw) :
  let out := Sheet2.render_chart df plotting metric style ax in
  (exists drawn, snd out = (ax ++ drawn)%list /\ List.length drawn <= 3) /\
  (In metric Sheet2.metrics ->
   (forall e,
      fst out = Raise e ->
      exists call,
        plotting call = Raise e /\
        ((snd out = ax /\
          exists kind autopct data,
            call = Sheet2.series_plot kind autopct data /\
            In (style, kind, autopct)
               [ ("Bar", "bar", None); ("Line", "line", None);
                 ("Pie", "pie", Some "%1.1f%%") ]) \/
         (snd out = (ax ++ [Sheet2.ax_axis "off"])%list /\
          style = "Table" /\
          exists data, call = Sheet2.ax_table data [metric; "Value"] "center"))) /\
   ((forall call, plotting call = Ok tt) -> fst out = Ok tt)) /\
  (metric <> "Number of employees registered vs completed (monthly trend)" ->
   ~ In style ["Bar"; "Line"; "Pie"; "Table"] ->
   out = (Ok tt, ax)) /\
  Sheet2.render_chart df plotting "Top 5 courses by completion" "bar" ax =
    (Ok tt, ax).
Proof.
  cbv zeta. split; [|split; [|split; [|reflexivity]]].
  - unfold Sheet2.render_chart, Sheet2.draw_data, Sheet2.plot_on.
    repeat (step_case; cbn [snd]);
      first [ exists []; split; [now rewrite app_nil_r | simpl; lia]
            | eexists; split; [reflexivity | simpl; lia]
            | eexists [_; _]; split;
              [rewrite <- app_assoc; reflexivity | simpl; lia] ].
  - intros Hin.
    destruct (string_dec metric
                "Number of employees registered vs completed (monthly trend)")
      as [->|Hdual].
    { split; [intros e He; discriminate He | intros _; reflexivity]. }
    destruct (render_chart_listed metric Hin Hdual) as [data Hdata].
    rewrite Hdata. unfold Sheet2.draw_data, Sheet2.plot_on. split.
    + intros e.
      destruct (String.eqb_spec style "Bar") as [->|Hbar].
      { destruct (plotting _) as [[]|e0] eqn:Hplot; [discriminate|].
        intros [= <-]. eexists; split; [exact Hplot|]. left.
        split; [reflexivity|]. do 3 eexists. split; [reflexivity|].
        simpl; auto. }
      destruct (String.eqb_spec style "Line") as [->|Hline].
      { destruct (plotting _) as [[]|e0] eqn:Hplot; [discriminate|].
        intros [= <-]. eexists; split; [exact Hplot|]. left.
        split; [reflexivity|]. do 3 eexists. split; [reflexivity|].
        simpl; auto. }
      destruct (String.eqb_spec style "Pie") as [->|Hpie].
      { destruct (plotting _) as [[]|e0] eqn:Hplot; [discriminate|].
        intros [= <-]. eexists; split; [exact Hplot|]. left.
        split; [reflexivity|]. do 3 eexists. split; [reflexivity|].
        simpl; auto. }
      destruct (String.eqb_spec style "Table") as [->|Htable];
        [|discriminate].
      destruct (plotting _) as [[]|e0] eqn:Hplot; [discriminate|].
      intros [= <-]. eexists; split; [exact Hplot|]. right.
      split; [reflexivity|]. split; [reflexivity|]. eexists. reflexivity.
    + intros Hdraws. repeat step_case; try reflexivity;
        match goal with
        | H : plotting ?c = Raise _ |- _ => rewrite Hdraws in H; discriminate H
        end.
  - intros Hdual Hstyle. simpl in Hstyle.
    assert (Hbar : String.eqb style "Bar" = false)
      by (apply String.eqb_neq; intros ->; apply Hstyle; auto 6).
    assert (Hline : String.eqb style "Line" = false)
      by (apply String.eqb_neq; intros ->; apply Hstyle; auto 6).
    assert (Hpie : String.eqb style "Pie" = false)
      by (apply String.eqb_neq; intros ->; apply Hstyle; auto 6).
    assert (Htable : String.eqb style "Table" = false)
      by (apply String.eqb_neq; intros ->; apply Hstyle; auto 6).
    apply String.eqb_neq in Hdual.
    unfold Sheet2.render_chart, Sheet2.draw_data.
    rewrite Hdual, Hbar, Hline, Hpie, Htable.
    repeat step_case; reflexivity.
Qed.

End TopBottom.

(** ** The report document *)

Section DocumentFacts.
Import Document.
Variable path_exists : string -> bool.

Lemma texts_of_entries (items : list (string * (string * string))) :
  List.filter is_text (flat_map (entry_calls path_exists) items) =
    flat_map (fun item => [ multi_cell 0 10 ("Metric: " ++ fst item);
                            multi_cell 0 10 (fst (snd item)) ]) items.
Proof.
  induction items as [|item items IH]; [reflexivity|].
  cbn [flat_map]. rewrite List.filter_app, IH. unfold entry_calls.
  destruct (negb (String.eqb (snd (snd item)) "") && path_exists (snd (snd item)));
    reflexivity.
Qed.

Lemma images_of_entries (items : list (string * (string * string))) :
  List.filter is_image (flat_map (entry_calls path_exists) items) =
    map (fun item => image (snd (snd item)) 170)
        (List.filter (has_chart path_exists) items).
Proof.
  induction items as [|item items IH]; [reflexivity|].
  cbn [flat_map]. rewrite List.filter_app, IH. unfold entry_calls, has_chart.
  cbn [List.filter].
  destruct (negb (String.eqb (snd (snd item)) "") && path_exists (snd (snd item)));
    reflexivity.
Qed.

(** X17. The report document: for every metric, in the order of the report,
    a "Metric: ..." heading and the insight, nothing else as text; one
    image per metric whose chart path is not empty and exists on disk, in
    the same order, so that a metric without a chart is text only; the
    document is written once, at the end, under the file name that is
    returned. *)
Theorem document_follows_the_report
    (insight_data : list (string * (string * string))) (filename : string) :
  let calls := fst (create_pdf_report_with_charts path_exists insight_data filename) in
  snd (create_pdf_report_with_charts path_exists insight_data filename) = filename /\
  List.filter is_text calls =
    flat_map (fun item => [ multi_cell 0 10 ("Metric: " ++ fst item);
                            multi_cell 0 10 (fst (snd item)) ]) insight_data /\
  List.filter is_image calls =
    map (fun item => image (snd (snd item)) 170)
        (List.filter (has_chart path_exists) insight_data) /\
  last calls = Some (output filename) /\
  List.length (List.filter (fun c => match c with output _ => true | _ => false end)
                 calls) = 1.
Proof.
  cbv zeta. unfold create_pdf_report_with_charts. cbn [fst snd].
  split; [reflexivity|]. split; [|split; [|split]].
  - rewrite !List.filter_app, texts_of_entries. cbn. now rewrite app_nil_r.
  - rewrite !List.filter_app, images_of_entries. cbn. now rewrite app_nil_r.
  - rewrite app_assoc. apply last_snoc.
  - rewrite !List.filter_app, !length_app. cbn.
    assert (H : List.filter
                  (fun c => match c with output _ => true | _ => false end)
                  (flat_map (entry_calls path_exists) insight_data) = []).
    { induction insight_data as [|item items IH]; [reflexivity|].
      cbn [flat_map]. rewrite List.filter_app, IH. unfold entry_calls.
      destruct (negb (String.eqb (snd (snd item)) "")
                && path_exists (snd (snd item))); reflexivity. }
    now rewrite H.
Qed.

End DocumentFacts.

(** ** The mail of sheet 2 and the stored report *)

Section Sheet2Mail.
Context {W : Type}.
Variable ext : External W.
Variable environ : gmap string string.

(** X18. What [send_email_with_pdf] reads and submits: it reads the one file
    it was given, once and before any mail step, and a message that
    reaches [sendmail] goes to the address alone, says so in its To
    header, carries the subject and the body, and has the file as its
    single PDF part. *)
Theorem report_mail_has_one_pdf_part
    (to_email subject body pdf_path : string) (s : state W) :
  exists evs,
    trace (snd (Sheet2.send_email_with_pdf ext environ to_email subject body
                  pdf_path s)) = (trace s ++ evs)%list /\
    (smtp_steps evs <> [] ->
     exists data rest, evs = FileRead pdf_path (Ok data) :: rest /\
                       List.filter is_file_read rest = []) /\
    forall sender rcpt msg r,
      In (Smtp (smtp_sendmail sender rcpt msg) r) evs ->
      rcpt = [to_email] /\
      sender = environ !! "EMAIL_USERNAME" /\
      msg_from msg = sender /\
      msg_to msg = to_email /\
      msg_subject msg = subject /\
      msg_body msg = body /\
      exists data,
        In (FileRead pdf_path (Ok data)) evs /\
        msg_parts msg =
          [ {| subtype := "pdf";
               disposition := "attachment; filename=" ++ basename ext pdf_path;
               payload := data |} ].
Proof.
  unfold Sheet2.send_email_with_pdf, Sheet2.send_email_with_pdf_body,
    Mail.int_getenv, Mail.attach_file, Mail.smtp_session,
    try_except, with_exit, bind, lift, ret, st, log, external.
  repeat (step_case; cbn [world trace session_state fst snd] in * );
    simplify_eq; cbn [world trace session_state fst snd];
    rewrite <- ?app_assoc;
    (eexists; split; [reflexivity|]);
    (split;
     [ cbn; first [ congruence
                  | intros _; do 2 eexists; split; reflexivity ]
     |]);
    intros sender0 rcpt0 msg0 r0 Hin; cbn in Hin;
    repeat match goal with
           | H : _ \/ _ |- _ => destruct H
           | H : False |- _ => destruct H
           end;
    simplify_eq;
    cbn [msg_from msg_to msg_subject msg_body msg_parts];
    repeat split;
    (eexists; (split; [cbn; left; reflexivity | reflexivity])).
Qed.

(** X19. Storing the entry of a metric in the report: afterwards the metric
    has that entry, every other metric has the entry it had, no metric is
    listed twice if none was, and a metric that was listed keeps its
    place while a new one goes last.  Without a report under the key the
    statement raises and changes nothing. *)
Theorem report_data_set_then_find (metric : string) (entry : report_entry)
    (s : state W) :
  let out := Sheet2.report_data_set (W:=W) metric entry s in
  match session_state s !! "report_data" with
  | Some (VReport d) =>
      exists d',
        out = (Ok tt,
               Build_state (world s) (trace s)
                 (<["report_data" := VReport d']> (session_state s))) /\
        dict_find d' metric = Some entry /\
        (forall other, other <> metric -> dict_find d' other = dict_find d other) /\
        (List.NoDup (map fst d) -> List.NoDup (map fst d')) /\
        (In metric (map fst d) -> map fst d' = map fst d) /\
        (~ In metric (map fst d) -> d' = (d ++ [(metric, entry)])%list)
  | _ => exists e, out = (Raise e, s)
  end.
Proof.
  cbv zeta. unfold Sheet2.report_data_set.
  destruct (session_state s !! "report_data") as [[text| |d]|];
    try (eexists; reflexivity).
  exists (dict_set d metric entry).
  split; [reflexivity|]. split; [apply dict_find_set_same|].
  split; [intros other Hne; now apply dict_find_set_other|].
  split; [|split; [apply dict_set_keys_old | apply dict_set_new]].
  intros Hnd.
  destruct (in_dec string_dec metric (map fst d)) as [Hin|Hout].
  - now rewrite dict_set_keys_old.
  - rewrite dict_set_new, map_app by assumption. simpl.
    apply NoDup_ListNoDup, NoDup_app. rewrite !NoDup_ListNoDup.
    repeat split; [assumption| |repeat constructor; simpl; tauto].
    intros x Hx Hk. apply list_elem_of_In in Hx.
    apply list_elem_of_singleton in Hk. congruence.
Qed.

End Sheet2Mail.

(** ** The report section *)

Section PageFacts.
Import ReportPage.
Context {W : Type}.
Variable lib : Libraries W.
Variable df : Sheet2.DataFrame.
Variable choice : string -> string.

Lemma dict_set_set {V} (d : list (string * V)) (k : string) (v1 v2 : V) :
  dict_set (dict_set d k v1) k v2 = dict_set d k v2.
Proof.
  induction d as [|[k' v'] d IH]; simpl.
  - now rewrite String.eqb_refl.
  - destruct (String.eqb k' k) eqn:Hk; simpl; rewrite Hk; [reflexivity|].
    now rewrite IH.
Qed.

Lemma dict_set_keys_found {V} (d : list (string * V)) (k : string) (v0 v : V) :
  dict_find d k = Some v0 -> map fst (dict_set d k v) = map fst d.
Proof.
  induction d as [|[k' v'] d IH]; simpl; [discriminate|].
  destruct (String.eqb k' k); simpl; [reflexivity|].
  intros Hf. now rewrite IH.
Qed.

Lemma index_of_In (x : string) (l : list string) :
  In x l -> exists i, index_of x l = Some i.
Proof.
  induction l as [|y l IH]; simpl; [tauto|].
  intros Hin. destruct (String.eqb_spec y x) as [->|Hne]; [now exists 0|].
  destruct IH as [i Hi]; [intuition congruence|].
  rewrite Hi. now exists (S i).
Qed.

(** One turn of the loop, for a metric of the report whose stored style
    is one of the options: it ends normally whatever the drawing does,
    and what it shows and stores is the block of the metric. *)
Lemma render_metric_spec (metric : string) (s : state (W * list widget))
    (d : list (string * report_entry)) (e : report_entry) :
  session_state s !! "report_data" = Some (VReport d) ->
  dict_find d metric = Some e ->
  In (chart_type e) chart_styles ->
  exists (e' : report_entry) (block : list widget) (w' : W),
    render_metric lib df choice metric s =
      (Ok tt,
       Build_state (w', (snd (world s) ++ block)%list)
         (trace s)
         (<["report_data" := VReport (dict_set d metric e')]> (session_state s))) /\
    metric_block lib df choice metric e e' block.
Proof.
  intros Hd Hfind Hstyle.
  destruct (index_of_In _ _ Hstyle) as [i Hi].
  unfold render_metric, bind, show, report_get, lift, list_index,
    Sheet2.report_data_set, try_except, library, render_on_new_axes.
  repeat first
    [ progress cbn [world trace session_state fst snd]
    | progress rewrite ?Hd, ?Hfind, ?Hi, ?lookup_insert_eq, ?dict_find_set_same
    | step_case ];
    rewrite ?insert_insert_eq, ?dict_set_set;
    cbn [insight chart_type chart_path];
    repeat match goal with u : unit |- _ => destruct u end;
    eexists _, _, _;
    (split; [rewrite <- ?app_assoc; reflexivity|]);
    (split; [reflexivity|]); (split; [reflexivity|]);
    exists i; (split; [exact Hi|]); cbv zeta;
    match goal with
    | H : Sheet2.render_chart _ _ _ _ _ = _ |- _ => rewrite H
    end;
    first
      [ left; eexists; split; [reflexivity|]; split; reflexivity
      | right; eexists _, []; split; [reflexivity|]; split; [reflexivity|];
        left; split; reflexivity
      | right; eexists _, [_]; split; [reflexivity|]; split; [reflexivity|];
        right; eexists; split; [reflexivity|]; left; reflexivity
      | right; eexists _, [_; _]; split; [reflexivity|]; split; [reflexivity|];
        right; eexists; split; [reflexivity|]; right; reflexivity ].
Qed.

(** What a block says in short: the entry is updated as [rendered] has
    it, the block holds the heading and the insight and no other
    heading, and either one image or one error message. *)
Lemma metric_block_facts (metric : string) (e e' : report_entry)
    (block : list widget) :
  metric_block lib df choice metric e e' block ->
  rendered choice metric e e' /\
  List.filter is_heading block = heading metric (insight e) /\
  List.length (List.filter is_shown_image block)
    + List.length (List.filter is_page_error block) = 1.
Proof.
  intros (Hins & Hsty & i & Hi & H). cbv zeta in H.
  destruct H as [(ax & Hdraw & -> & Hpath) | (err & steps & -> & Hpath & Hsteps)].
  - split; [repeat split; auto|]. split; reflexivity.
  - split; [repeat split; auto|].
    destruct Hsteps as [[_ ->] | (ax & _ & [-> | ->])]; split; reflexivity.
Qed.

End PageFacts.

Section DictOrder.
Context {V : Type}.

Lemma dict_find_keys (d : list (string * V)) (k : string) (v : V) :
  dict_find d k = Some v -> In k (map fst d).
Proof.
  induction d as [|[k' v'] d IH]; simpl; [discriminate|].
  destruct (String.eqb_spec k' k) as [->|Hne]; [now left | right; now apply IH].
Qed.

Lemma dict_find_head (d : list (string * V)) (k : string) (v : V) :
  dict_find ((k, v) :: d) k = Some v.
Proof. simpl. now rewrite String.eqb_refl. Qed.

Lemma dict_find_tail (d : list (string * V)) (k k0 : string) (v : V) :
  k <> k0 -> dict_find ((k, v) :: d) k0 = dict_find d k0.
Proof. intros Hne. simpl. apply String.eqb_neq in Hne. now rewrite Hne. Qed.

(** Two dicts with the same keys whose values agree under [f] key by
    key agree under [f] item by item. *)
Lemma same_under {B} (f : V -> B) (d : list (string * V)) :
  forall d' : list (string * V),
    map fst d' = map fst d ->
    List.NoDup (map fst d) ->
    (forall k v v', dict_find d k = Some v -> dict_find d' k = Some v' ->
                    f v' = f v) ->
    map (fun kv => (fst kv, f (snd kv))) d' =
    map (fun kv => (fst kv, f (snd kv))) d.
Proof.
  induction d as [|[k v] d IH]; intros [|[k' v'] d'] Hkeys Hnd Hf;
    simpl in Hkeys; try discriminate; [reflexivity|].
  injection Hkeys as -> Hkeys. inversion Hnd as [|? ? Hout Hnd']; subst.
  simpl. f_equal.
  - f_equal. apply (Hf k); apply dict_find_head.
  - apply IH; [assumption..|].
    intros k0 v0 v0' H0 H0'.
    assert (Hne : k <> k0).
    { intros ->. apply Hout. eapply dict_find_keys, H0. }
    apply (Hf k0); now rewrite dict_find_tail.
Qed.

Lemma dict_find_of_item (d : list (string * V)) (k : string) (v : V) :
  List.NoDup (map fst d) -> In (k, v) d -> dict_find d k = Some v.
Proof.
  induction d as [|[k' v'] d IH]; simpl; [tauto|].
  intros Hnd [Heq|Hin]; inversion Hnd as [|? ? Hout Hnd']; subst.
  - injection Heq as -> ->. now rewrite String.eqb_refl.
  - destruct (String.eqb_spec k' k) as [->|Hne].
    + exfalso. apply Hout. now apply (in_map fst) in Hin.
    + now apply IH.
Qed.

End DictOrder.

Lemma flat_map_agree {A B} (f g : A -> list B) (l : list A) :
  (forall a, In a l -> f a = g a) -> flat_map f l = flat_map g l.
Proof.
  induction l as [|a l IH]; intros Hfg; [reflexivity|].
  simpl. rewrite (Hfg a) by now left. rewrite IH; [reflexivity|].
  intros b Hb. apply Hfg. now right.
Qed.

Section PageLoop.
Import ReportPage.
Context {W : Type}.
Variable lib : Libraries W.
Variable df : Sheet2.DataFrame.
Variable choice : string -> string.

Lemma Forall2_impl_in {A B} (P Q : A -> B -> Prop) (l : list A) (l' : list B) :
  Forall2 P l l' ->
  (forall x y, In x l -> P x y -> Q x y) ->
  Forall2 Q l l'.
Proof.
  induction 1 as [|x y l l' Hxy Hrest IH]; intros Himpl; constructor.
  - apply Himpl; [now left | exact Hxy].
  - apply IH. intros x0 y0 Hin. apply Himpl. now right.
Qed.

(** The loop over some keys of the report: one block per key, in order,
    and the entries of the other keys are left alone. *)
Lemma render_all_blocks (keys : list string) :
  forall (s : state (W * list widget)) (d : list (string * report_entry)),
    session_state s !! "report_data" = Some (VReport d) ->
    List.NoDup keys ->
    (forall m, In m keys ->
       exists e, dict_find d m = Some e /\ In (chart_type e) chart_styles) ->
    exists (d' : list (string * report_entry)) (blocks : list (list widget))
           (w' : W),
      render_all lib df choice keys s =
        (Ok tt,
         Build_state (w', (snd (world s) ++ concat blocks)%list) (trace s)
           (<["report_data" := VReport d']> (session_state s))) /\
      map fst d' = map fst d /\
      (forall m, ~ In m keys -> dict_find d' m = dict_find d m) /\
      Forall2 (fun m block =>
                 exists e e',
                   dict_find d m = Some e /\ dict_find d' m = Some e' /\
                   metric_block lib df choice m e e' block) keys blocks.
Proof.
  induction keys as [|m keys IH]; intros s d Hd Hnd Hvalid.
  - exists d, [], (fst (world s)).
    split; [|repeat split; try reflexivity; constructor].
    cbn [render_all concat]. unfold ret. rewrite app_nil_r, insert_id by exact Hd.
    destruct s as [[w p] t ss]. reflexivity.
  - inversion Hnd as [|? ? Hout Hnd']; subst.
    destruct (Hvalid m (or_introl eq_refl)) as (e & Hfind & Hstyle).
    destruct (render_metric_spec lib df choice m s d e Hd Hfind Hstyle)
      as (e1 & block1 & w1 & Hrun & Hblock).
    set (d1 := dict_set d m e1) in *.
    assert (Hother : forall k, k <> m -> dict_find d1 k = dict_find d k)
      by (intros k Hk; now apply dict_find_set_other).
    match type of Hrun with _ = (_, ?st1) => set (s1 := st1) in * end.
    destruct (IH s1 d1) as (d' & blocks & w' & Hrest & Hkeys & Hout' & Hall).
    { subst s1. cbn. apply lookup_insert_eq. }
    { exact Hnd'. }
    { intros k Hk. destruct (Hvalid k (or_intror Hk)) as (ek & Hek & Hsk).
      exists ek. split; [|exact Hsk]. rewrite Hother; [exact Hek|].
      intros ->. contradiction. }
    exists d', (block1 :: blocks), w'.
    split.
    { cbn [render_all concat]. unfold bind. rewrite Hrun, Hrest. subst s1.
      cbn [world trace session_state fst snd].
      now rewrite insert_insert_eq, <- !app_assoc. }
    split.
    { rewrite Hkeys. subst d1. eapply dict_set_keys_found, Hfind. }
    split.
    { intros k Hk. rewrite Hout' by (intros Hin; apply Hk; now right).
      apply Hother. intros ->. apply Hk. now left. }
    constructor.
    { exists e, e1. split; [exact Hfind|]. split; [|exact Hblock].
      rewrite Hout' by exact Hout. subst d1. apply dict_find_set_same. }
    eapply Forall2_impl_in; [exact Hall|].
    intros k block Hk (ek & ek' & Hek & Hek' & Hkblock).
    exists ek, ek'. split; [|split; assumption].
    rewrite <- Hother; [exact Hek|]. intros ->. contradiction.
Qed.

Lemma blocks_facts (d d' : list (string * report_entry)) (keys : list string)
    (blocks : list (list widget)) :
  Forall2 (fun m block =>
             exists e e',
               dict_find d m = Some e /\ dict_find d' m = Some e' /\
               metric_block lib df choice m e e' block) keys blocks ->
  (forall m e, In m keys -> dict_find d m = Some e ->
     exists e', dict_find d' m = Some e' /\ rendered choice m e e') /\
  List.filter is_heading (concat blocks) =
    flat_map (fun m => heading m (insight_in d m)) keys /\
  List.length (List.filter is_shown_image (concat blocks))
    + List.length (List.filter is_page_error (concat blocks)) = List.length keys.
Proof.
  induction 1 as [|m block keys blocks (e & e' & He & He' & Hblock) Hrest IH].
  - repeat split. intros ? ? [].
  - destruct IH as (Hin & Hhead & Hcount).
    destruct (metric_block_facts lib df choice m e e' block Hblock)
      as (Hrend & Hhead1 & Hcount1).
    split; [|split].
    + intros k ek [<-|Hk] Hek.
      * rewrite He in Hek. injection Hek as <-. now exists e'.
      * now apply Hin.
    + cbn [concat flat_map]. rewrite List.filter_app, Hhead1, Hhead.
      unfold insight_in at 2. now rewrite He.
    + cbn [concat List.length]. rewrite !List.filter_app, !length_app. lia.
Qed.

Lemma render_all_spec (keys : list string) :
  forall (s : state (W * list widget)) (d : list (string * report_entry)),
    session_state s !! "report_data" = Some (VReport d) ->
    List.NoDup keys ->
    (forall m, In m keys ->
       exists e, dict_find d m = Some e /\ In (chart_type e) chart_styles) ->
    exists (d' : list (string * report_entry)) (shown : list widget) (w' : W),
      render_all lib df choice keys s =
        (Ok tt,
         Build_state (w', (snd (world s) ++ shown)%list) (trace s)
           (<["report_data" := VReport d']> (session_state s))) /\
      map fst d' = map fst d /\
      (forall m, ~ In m keys -> dict_find d' m = dict_find d m) /\
      (forall m e, In m keys -> dict_find d m = Some e ->
         exists e', dict_find d' m = Some e' /\ rendered choice m e e') /\
      List.filter is_heading shown =
        flat_map (fun m => heading m (insight_in d m)) keys /\
      List.length (List.filter is_shown_image shown)
        + List.length (List.filter is_page_error shown) = List.length keys.
Proof.
  intros s d Hd Hnd Hvalid.
  destruct (render_all_blocks keys s d Hd Hnd Hvalid)
    as (d' & blocks & w' & Hrun & Hkeys & Hout & Hall).
  destruct (blocks_facts d d' keys blocks Hall) as (Hin & Hhead & Hcount).
  exists d', (concat blocks), w'. repeat split; assumption.
Qed.

End PageLoop.

Section PageClaims.
Import ReportPage.
Context {W : Type}.
Variable lib : Libraries W.
Variable df : Sheet2.DataFrame.
Variable choice : string -> string.

Lemma insights_of_items (d : list (string * report_entry)) :
  List.NoDup (map fst d) ->
  flat_map (fun m => heading m (insight_in d m)) (map fst d) =
  flat_map (fun mv => heading (fst mv) (insight (snd mv))) d.
Proof.
  intros Hnd. rewrite flat_map_concat_map, map_map, <- flat_map_concat_map.
  apply flat_map_agree. intros [m e] Hin. unfold insight_in. cbn [fst snd].
  now rewrite (dict_find_of_item d m e Hnd Hin).
Qed.

Lemma Forall2_of_keys {A B C} (f : A -> B) (P : B -> C -> Prop)
    (l : list A) (l' : list C) :
  Forall2 P (map f l) l' -> Forall2 (fun a c => P (f a) c) l l'.
Proof.
  revert l'. induction l as [|a l IH]; intros l' H; inversion H; subst;
    constructor; auto.
Qed.

(** X20. The loop of the report section, on a report with distinct
    metrics whose stored styles are among the four options, always ends
    normally and shows one block per metric, in the order of the report.
    The block of a metric is its heading and insight, its select box at
    the stored style and a new figure, followed either by the layout, the
    saving and the image of the chart the renderer drew, in which case
    the entry holds the path of this chart afterwards, or, when the
    renderer, the layout or the saving failed with e, by "Chart
    generation failed for <metric>: e" and no image, in which case the
    entry keeps the path that was stored.  Every entry keeps its insight
    and takes the style chosen in its select box; the report keeps its
    metrics and their order.  So the heading and the insight of every
    metric are shown whether or not its chart failed, and there is one
    image or one failure message per metric. *)
Theorem every_metric_is_shown_whatever_fails
    (s : state (W * list widget)) (d : list (string * report_entry)) :
  session_state s !! "report_data" = Some (VReport d) ->
  List.NoDup (map fst d) ->
  List.Forall (fun mv => In (chart_type (snd mv)) chart_styles) d ->
  exists (d' : list (string * report_entry)) (blocks : list (list widget))
         (w' : W),
    render_all lib df choice (map fst d) s =
      (Ok tt,
       Build_state (w', (snd (world s) ++ concat blocks)%list) (trace s)
         (<["report_data" := VReport d']> (session_state s))) /\
    map fst d' = map fst d /\
    Forall2 (fun mv block =>
               exists e',
                 dict_find d' (fst mv) = Some e' /\
                 metric_block lib df choice (fst mv) (snd mv) e' block)
            d blocks /\
    List.filter is_heading (concat blocks) =
      flat_map (fun mv => heading (fst mv) (insight (snd mv))) d /\
    List.length (List.filter is_shown_image (concat blocks))
      + List.length (List.filter is_page_error (concat blocks)) = List.length d.
Proof.
  intros Hd Hnd Hvalid.
  destruct (render_all_blocks lib df choice (map fst d) s d Hd Hnd)
    as (d' & blocks & w' & Hrun & Hkeys & _ & Hall).
  { intros m Hm. apply in_map_iff in Hm as ([m0 e] & <- & Hme).
    exists e. split; [now apply dict_find_of_item|].
    rewrite List.Forall_forall in Hvalid. exact (Hvalid _ Hme). }
  destruct (blocks_facts lib df choice d d' (map fst d) blocks Hall)
    as (_ & Hhead & Hcount).
  exists d', blocks, w'. split; [exact Hrun|]. split; [exact Hkeys|].
  split.
  { apply Forall2_of_keys in Hall.
    eapply Forall2_impl_in; [exact Hall|].
    intros [m e] block Hme (e0 & e' & He0 & He' & Hblock). cbn [fst snd] in *.
    rewrite (dict_find_of_item d m e Hnd Hme) in He0. injection He0 as <-.
    now exists e'. }
  split; [now rewrite Hhead, insights_of_items|].
  now rewrite Hcount, length_map.
Qed.

End PageClaims.

Lemma every_metric_is_shown_whatever_fails_witness :
  exists d' blocks w',
    ReportPage.render_all Samples.studio Samples.learners Samples.all_lines
      (map fst Samples.two_metrics) Samples.page_start =
      (Ok tt,
       Build_state (w', (snd (world Samples.page_start) ++ concat blocks)%list)
         (trace Samples.page_start)
         (<["report_data" := VReport d']> (session_state Samples.page_start))) /\
    map fst d' = map fst Samples.two_metrics /\
    Forall2 (fun mv block =>
               exists e',
                 dict_find d' (fst mv) = Some e' /\
                 ReportPage.metric_block Samples.studio Samples.learners
                   Samples.all_lines (fst mv) (snd mv) e' block)
            Samples.two_metrics blocks /\
    List.filter ReportPage.is_heading (concat blocks) =
      flat_map (fun mv => ReportPage.heading (fst mv) (insight (snd mv)))
        Samples.two_metrics /\
    List.length (List.filter ReportPage.is_shown_image (concat blocks))
      + List.length (List.filter ReportPage.is_page_error (concat blocks)) =
      List.length Samples.two_metrics.
Proof.
  apply (every_metric_is_shown_whatever_fails Samples.studio Samples.learners
           Samples.all_lines Samples.page_start Samples.two_metrics).
  - reflexivity.
  - repeat constructor; simpl; intuition discriminate.
  - repeat constructor; simpl; tauto.
Defined.

Lemma flat_map_of_map {A B C} (f : B -> list C) (h : A -> B) (l : list A) :
  flat_map f (map h l) = flat_map (fun a => f (h a)) l.
Proof. induction l as [|a l IH]; [reflexivity|]. simpl. now rewrite IH. Qed.

Section PageDocument.
Import ReportPage Document.
Context {W : Type}.
Variable lib : Libraries W.
Variable df : Sheet2.DataFrame.
Variable choice : string -> string.

(** X21. The report section on a stored report with distinct metrics and
    valid styles.  With an empty report it does nothing.  Otherwise,
    after the loop, it hands the PDF writer a document whose text is the
    heading and the insight of every metric of the report, in order,
    also of those whose chart failed.  If the writer fails, its
    exception leaves the section and "final_pdf" keeps the value it had;
    if it succeeds, "final_pdf" is "final_report.pdf". *)
Theorem report_section_documents_every_metric
    (s : state (W * list widget)) (d : list (string * report_entry)) :
  session_state s !! "report_data" = Some (VReport d) ->
  List.NoDup (map fst d) ->
  List.Forall (fun mv => In (chart_type (snd mv)) chart_styles) d ->
  let out := report_section lib df choice s in
  (d = [] -> out = (Ok tt, s)) /\
  (d <> [] ->
   exists (shown : list widget) (calls : list pdf_call) (written : result unit),
     snd (world (snd out)) = (snd (world s) ++ shown)%list /\
     In (fpdf calls written) shown /\
     List.filter is_text calls =
       flat_map (fun mv => [ multi_cell 0 10 ("Metric: " ++ fst mv);
                             multi_cell 0 10 (insight (snd mv)) ]) d /\
     List.filter is_heading shown =
       flat_map (fun mv => heading (fst mv) (insight (snd mv))) d /\
     match written with
     | Raise e =>
         fst out = Raise e /\
         session_state (snd out) !! "final_pdf" = session_state s !! "final_pdf"
     | Ok _ =>
         session_state (snd out) !! "final_pdf" = Some (VStr "final_report.pdf")
     end).
Proof.
  intros Hd Hnd Hvalid. cbv zeta. unfold report_section. rewrite Hd.
  split.
  { intros ->. reflexivity. }
  intros Hne. destruct d as [|item items]; [congruence|].
  cbn [Sheet2.truthy]. remember (item :: items) as d eqn:Hitems. clear Hitems.
  destruct (render_all_spec lib df choice (map fst d) s d Hd Hnd)
    as (d' & shown & w' & Hrun & Hkeys & _ & Hin & Hhead & _).
  { intros m Hm. apply in_map_iff in Hm as ([m0 e] & <- & Hme).
    exists e. split; [now apply dict_find_of_item|].
    rewrite List.Forall_forall in Hvalid. exact (Hvalid _ Hme). }
  assert (Hsame : map (fun kv => (fst kv, insight (snd kv))) d' =
                  map (fun kv => (fst kv, insight (snd kv))) d).
  { apply same_under; [exact Hkeys | exact Hnd|].
    intros k v v' Hv Hv'.
    destruct (Hin k v) as (e' & He' & Hr & _); [|exact Hv|].
    - eapply dict_find_keys, Hv.
    - rewrite Hv' in He'. injection He' as <-. exact Hr. }
  assert (Htexts : List.filter is_text
                     (fst (create_pdf_report_with_charts (path_exists lib w')
                             (insight_data d') "final_report.pdf")) =
                   flat_map (fun mv => [ multi_cell 0 10 ("Metric: " ++ fst mv);
                                         multi_cell 0 10 (insight (snd mv)) ]) d).
  { unfold create_pdf_report_with_charts. cbn [fst].
    rewrite !List.filter_app, texts_of_entries. cbn [List.filter is_text app].
    rewrite app_nil_r. unfold insight_data.
    transitivity
      (flat_map (fun p : string * string =>
                   [multi_cell 0 10 ("Metric: " ++ fst p); multi_cell 0 10 (snd p)])
                (map (fun kv : string * report_entry => (fst kv, insight (snd kv)))
                     d')).
    - rewrite !flat_map_of_map. reflexivity.
    - rewrite Hsame, flat_map_of_map. reflexivity. }
  unfold bind. rewrite Hrun. unfold assemble_report.
  cbn [world trace session_state fst snd]. rewrite lookup_insert_eq.
  set (calls := fst (create_pdf_report_with_charts (path_exists lib w')
                       (insight_data d') "final_report.pdf")) in *.
  unfold bind, library, session_set, show.
  cbn [world trace session_state fst snd create_pdf_report_with_charts].
  fold calls.
  destruct (pdf_write lib calls w') as [[[]|e] w1];
    cbn [world trace session_state fst snd].
  - destruct (open_rb lib "final_report.pdf" w1) as [[[]|e2] w2];
      cbn [world trace session_state fst snd];
      (eexists _, calls, (Ok tt);
       split; [rewrite <- ?app_assoc; reflexivity|];
       split; [apply in_or_app; right; now left|];
       split; [exact Htexts|];
       split; [|apply lookup_insert_eq]);
      rewrite !List.filter_app, Hhead; cbn [List.filter is_heading];
      now rewrite !app_nil_r, insights_of_items.
  - eexists _, calls, (Raise e).
    split; [rewrite <- ?app_assoc; reflexivity|].
    split; [apply in_or_app; right; now left|].
    split; [exact Htexts|].
    split.
    + rewrite !List.filter_app, Hhead. cbn [List.filter is_heading].
      now rewrite !app_nil_r, insights_of_items.
    + split; [reflexivity|]. now rewrite lookup_insert_ne.
Qed.

End PageDocument.

Lemma report_section_documents_every_metric_witness :
  let out := ReportPage.report_section Samples.studio Samples.learners
               Samples.all_lines Samples.page_start in
  (Samples.two_metrics = [] -> out = (Ok tt, Samples.page_start)) /\
  (Samples.two_metrics <> [] ->
   exists shown calls written,
     snd (world (snd out)) = (snd (world Samples.page_start) ++ shown)%list /\
     In (ReportPage.fpdf calls written) shown /\
     List.filter Document.is_text calls =
       flat_map (fun mv => [ Document.multi_cell 0 10 ("Metric: " ++ fst mv);
                             Document.multi_cell 0 10 (insight (snd mv)) ])
         Samples.two_metrics /\
     List.filter ReportPage.is_heading shown =
       flat_map (fun mv => ReportPage.heading (fst mv) (insight (snd mv)))
         Samples.two_metrics /\
     match written with
     | Raise e =>
         fst out = Raise e /\
         session_state (snd out) !! "final_pdf" =
           session_state Samples.page_start !! "final_pdf"
     | Ok _ =>
         session_state (snd out) !! "final_pdf" = Some (VStr "final_report.pdf")
     end).
Proof.
  apply (report_section_documents_every_metric Samples.studio Samples.learners
           Samples.all_lines Samples.page_start Samples.two_metrics).
  - reflexivity.
  - repeat constructor; simpl; intuition discriminate.
  - repeat constructor; simpl; tauto.
Defined.

(** ** The podcast buttons *)

Ltac podcast_ending :=
  first
    [ left; do 2 eexists; split; reflexivity
    | right; eexists _, [_]; split; [reflexivity|]; split; [reflexivity|];
      left; reflexivity
    | right; eexists _, [_; _]; split; [reflexivity|]; split; [reflexivity|];
      right; left; eexists; reflexivity
    | right; eexists _, [_; _; _]; split; [reflexivity|]; split; [reflexivity|];
      right; right; eexists; reflexivity ].

Ltac podcast_run :=
  unfold Podcast.session_str, Sheet1.run_agent_on_prompt, Sheet1.text_to_speech,
    Podcast.play, Podcast.with_player, try_except, bind, ret, st, log, external;
  cbn [agent_run gtts_save file_read world trace session_state fst snd];
  repeat (step_case; cbn [world trace session_state fst snd] in * );
  simplify_eq; cbn [world trace session_state fst snd];
  (split; [reflexivity|]); (split; [reflexivity|]);
  rewrite <- ?app_assoc;
  do 2 eexists;
  (split; [reflexivity|]);
  (split; [first [reflexivity | symmetry; apply app_nil_r]|]);
  cbv zeta;
  repeat match goal with u : unit |- _ => destruct u end;
  podcast_ending.

Section PodcastFacts.
Context {W : Type}.
Variable ext : External W.
Variable repr_report : list (string * report_entry) -> string.

(** X22. The two podcast buttons never let an exception out and never
    change the session state.  Each asks the accurate tier, once, for a
    script of the text stored under its key ("last_insight" or
    "all_insights"), synthesizes the script it got into its audio file
    ("podcast_individual.mp3" or "full_podcast.mp3"), reads that file,
    plays what it read as mp3, once, and shows its success message; the
    first of the three steps that fails, with e, is the last step taken:
    "Podcast error: e" is shown and nothing is played. *)
Theorem podcasts_are_contained (s : state (W * list Podcast.player)) :
  match session_state s !! "last_insight" with
  | None => Podcast.generate_podcast_handler ext repr_report s = (Ok tt, s)
  | Some v =>
      Podcast.outcome repr_report
        "Convert this into a 60-second podcast summary:"
        "podcast_individual.mp3" "🎧 Podcast ready." v s
        (Podcast.generate_podcast_handler ext repr_report s)
  end /\
  match session_state s !! "all_insights" with
  | None => Podcast.generate_full_podcast_handler ext repr_report s = (Ok tt, s)
  | Some v =>
      Podcast.outcome repr_report
        "Summarize all these insights into a 2-minute podcast:"
        "full_podcast.mp3" "✅ Podcast ready." v s
        (Podcast.generate_full_podcast_handler ext repr_report s)
  end.
Proof.
  split.
  - unfold Podcast.generate_podcast_handler, Podcast.outcome.
    destruct (session_state s !! "last_insight") as [v|] eqn:Hv;
      [|reflexivity].
    unfold Podcast.session_str at 1. podcast_run.
  - unfold Podcast.generate_full_podcast_handler, Podcast.outcome.
    destruct (session_state s !! "all_insights") as [v|] eqn:Hv;
      [|reflexivity].
    unfold Podcast.session_str at 1. podcast_run.
Qed.

End PodcastFacts.

Section PodcastAfterInsight.
Context {W : Type}.
Variable ext : External W.
Variable repr_report : list (string * report_entry) -> string.

Lemma podcast_first_call (v : sval) (s : state (W * list Podcast.player)) :
  session_state s !! "last_insight" = Some v ->
  exists r rest,
    trace (snd (Podcast.generate_podcast_handler ext repr_report s)) =
      (trace s ++
       AgentRun "gpt-4"
         ("Convert this into a 60-second podcast summary:" ++ nl ++ nl
            ++ Podcast.py_str repr_report v) r :: rest)%list.
Proof.
  intros Hv. unfold Podcast.generate_podcast_handler. rewrite Hv.
  unfold Podcast.session_str, Sheet1.run_agent_on_prompt, Sheet1.text_to_speech,
    Podcast.play, Podcast.with_player, try_except, bind, ret, st, log, external.
  cbn [agent_run gtts_save file_read world trace session_state fst snd].
  rewrite Hv.
  repeat (step_case; cbn [world trace session_state fst snd] in * );
    simplify_eq; cbn [world trace session_state fst snd];
    rewrite <- ?app_assoc; do 2 eexists; reflexivity.
Qed.

Lemma full_podcast_first_call (v : sval) (s : state (W * list Podcast.player)) :
  session_state s !! "all_insights" = Some v ->
  exists r rest,
    trace (snd (Podcast.generate_full_podcast_handler ext repr_report s)) =
      (trace s ++
       AgentRun "gpt-4"
         ("Summarize all these insights into a 2-minute podcast:" ++ nl ++ nl
            ++ Podcast.py_str repr_report v) r :: rest)%list.
Proof.
  intros Hv. unfold Podcast.generate_full_podcast_handler. rewrite Hv.
  unfold Podcast.session_str, Sheet1.run_agent_on_prompt, Sheet1.text_to_speech,
    Podcast.play, Podcast.with_player, try_except, bind, ret, st, log, external.
  cbn [agent_run gtts_save file_read world trace session_state fst snd].
  rewrite Hv.
  repeat (step_case; cbn [world trace session_state fst snd] in * );
    simplify_eq; cbn [world trace session_state fst snd];
    rewrite <- ?app_assoc; do 2 eexists; reflexivity.
Qed.

(** X23. The podcast of an insight is made of what was just shown: after
    "Generate Insight" has shown an answer of the agent, "Generate
    Podcast" asks for a 60-second summary of exactly that answer; and
    after "Generate All", "Generate Full Podcast" asks for a 2-minute
    podcast of exactly the summary of the eleven entries. *)
Theorem podcast_speaks_what_was_shown (label : string)
    (s : state (W * list Podcast.player)) :
  let shown := Sheet1.generate_insight_handler (Podcast.with_player ext) label s in
  let batch := Sheet1.generate_all_handler (Podcast.with_player ext) s in
  match dict_find Sheet1.insight_options label with
  | Some text =>
      match fst (agent_run ext "gpt-4" (Sheet1.insight_prompt text) (fst (world s)))
      with
      | Ok answer =>
          In (UI (st_text_area "📄 Insight Result" answer 300)) (trace (snd shown)) /\
          exists r rest,
            trace (snd (Podcast.generate_podcast_handler ext repr_report (snd shown))) =
              (trace (snd shown) ++
               AgentRun "gpt-4"
                 ("Convert this into a 60-second podcast summary:" ++ nl ++ nl
                    ++ answer) r :: rest)%list
      | Raise _ => session_state (snd shown) = session_state s
      end
  | None => session_state (snd shown) = session_state s
  end /\
  exists outcomes r rest,
    List.length outcomes = 11 /\
    session_state (snd batch) !! "all_insights" =
      Some (VStr (render_entries (entries Sheet1.insight_options outcomes))) /\
    trace (snd (Podcast.generate_full_podcast_handler ext repr_report (snd batch))) =
      (trace (snd batch) ++
       AgentRun "gpt-4"
         ("Summarize all these insights into a 2-minute podcast:" ++ nl ++ nl
            ++ render_entries (entries Sheet1.insight_options outcomes)) r
       :: rest)%list.
Proof.
  cbv zeta. split.
  - unfold Sheet1.generate_insight_handler, bind, st, log, try_except, lift,
      dict_get, Sheet1.run_agent_on_prompt, external, session_set.
    destruct (dict_find Sheet1.insight_options label) as [text|];
      [|reflexivity].
    cbn [agent_run Podcast.with_player world trace session_state fst snd].
    destruct (agent_run ext "gpt-4" (Sheet1.insight_prompt text) (fst (world s)))
      as [[answer|e] w1]; cbn [world trace session_state fst snd];
      [|reflexivity].
    split.
    + rewrite !in_app_iff. left. right. cbn. tauto.
    + apply (podcast_first_call (VStr answer)). cbn. apply lookup_insert_eq.
  - destruct (insights_loop_spec (Podcast.with_player ext) Sheet1.insight_options
                "" s) as (outcomes & w' & Hlen & _ & Hloop).
    change ("" ++ render_entries (entries Sheet1.insight_options outcomes))
      with (render_entries (entries Sheet1.insight_options outcomes)) in Hloop.
    assert (Hkey : session_state
                     (snd (Sheet1.generate_all_handler (Podcast.with_player ext) s))
                   !! "all_insights" =
                   Some (VStr (render_entries
                                 (entries Sheet1.insight_options outcomes)))).
    { unfold Sheet1.generate_all_handler, try_except, bind at 1.
      rewrite Hloop. unfold bind, st, log, session_set. cbn.
      apply lookup_insert_eq. }
    destruct (full_podcast_first_call _ _ Hkey) as (r & rest & Hcall).
    exists outcomes, r, rest. split; [exact Hlen|]. split; [exact Hkey|exact Hcall].
Qed.

End PodcastAfterInsight.
